(** * PLC integration layer: Siemens S7 and Schneider Modicon (Modbus TCP)

    A shallow embedding of [src/plc_integration.py]: the two vendor clients
    ([SiemensS7Client], [SchneiderModiconClient]) and the registry and facade
    ([PLCIntegrationService]).

    Python objects live in a heap and are reached through references, the
    network is an oracle that says what each coming socket call does, and
    every Python function is a state transformer that either returns or
    raises. *)

From Stdlib Require Import ZArith Lia Bool String Ascii.
From Stdlib.Strings Require Import Byte.
From Stdlib Require Import PrimFloat SpecFloat FloatOps FloatAxioms.
From stdpp Require Import gmap strings list sorting.

Local Open Scope string_scope.
Local Open Scope list_scope.
Local Open Scope Z_scope.

(** ** Bytes, integers and floats as Python has them *)

Abbreviation bytes := (list byte).

Definition int_of_byte (b : byte) : Z := Z.of_N (Byte.to_N b).

(** Exceptions that the modelled code can meet.  Every handler in the source
    is [except Exception] (or a bare [except]), so the kind never decides a
    branch; it is kept for reading traces. *)
Inductive exn :=
| SocketError      (* socket.error, socket.timeout *)
| ValueError       (* bytearray element outside range(256) *)
| StructError      (* struct.error *)
| IndexError
| AttributeError   (* method or attribute of None, or of the wrong class *)
| TypeError.

Inductive result (A : Type) :=
| Return (a : A)
| Raise (e : exn).
Arguments Return {A} a.
Arguments Raise {A} e.

Definition result_bind {A B} (r : result A) (k : A -> result B) : result B :=
  match r with
  | Return a => k a
  | Raise e => Raise e
  end.

Definition result_map {A B} (f : A -> B) (r : result A) : result B :=
  result_bind r (fun a => Return (f a)).

(** [bytearray([...])]: every element must be in [range(256)]. *)
Definition byte_of_int (v : Z) : result byte :=
  if (0 <=? v) && (v <? 256) then
    match Byte.of_N (Z.to_N v) with
    | Some b => Return b
    | None => Raise ValueError
    end
  else Raise ValueError.

Fixpoint bytearray (l : list Z) : result bytes :=
  match l with
  | [] => Return []
  | v :: l' =>
      result_bind (byte_of_int v) (fun b =>
      result_map (cons b) (bytearray l'))
  end.

(** [b[i]] for a constant index [i >= 0]. *)
Definition getitem (b : bytes) (i : nat) : result Z :=
  match b !! i with
  | Some x => Return (int_of_byte x)
  | None => Raise IndexError
  end.

(** [b[lo:hi]] for [0 <= lo]. *)
Definition slice (b : bytes) (lo hi : Z) : bytes :=
  take (Z.to_nat (hi - lo)) (drop (Z.to_nat lo) b).

(** Big-endian value of a byte string. *)
Definition be_int (b : bytes) : Z :=
  fold_left (fun acc x => acc * 256 + int_of_byte x) b 0.

(** The unsigned integer formats of [struct] with byte order [>]. *)
Inductive fmt := fmt_B | fmt_H | fmt_I.

Definition fmt_size (f : fmt) : nat :=
  match f with fmt_B => 1 | fmt_H => 2 | fmt_I => 4 end%nat.

(** The bytes of [v], most significant first, [n] of them. *)
Fixpoint be_bytes (n : nat) (v : Z) : list Z :=
  match n with
  | O => []
  | S n' => Z.land (Z.shiftr v (8 * Z.of_nat n')) 255 :: be_bytes n' v
  end.

(** [struct.pack] of one field: [struct.error] when the value does not fit. *)
Definition pack_field (f : fmt) (v : Z) : result bytes :=
  if (0 <=? v) && (v <? 2 ^ (8 * Z.of_nat (fmt_size f))) then
    match bytearray (be_bytes (fmt_size f) v) with
    | Return b => Return b
    | Raise _ => Raise StructError
    end
  else Raise StructError.

Fixpoint struct_pack (fields : list (fmt * Z)) : result bytes :=
  match fields with
  | [] => Return []
  | (f, v) :: rest =>
      result_bind (pack_field f v) (fun b =>
      result_map (app b) (struct_pack rest))
  end.

Fixpoint unpack_fields (fs : list fmt) (b : bytes) : list Z :=
  match fs with
  | [] => []
  | f :: fs' => be_int (take (fmt_size f) b) :: unpack_fields fs' (drop (fmt_size f) b)
  end.

(** [struct.unpack]: the buffer must have exactly the size of the format. *)
Definition struct_unpack (fs : list fmt) (b : bytes) : result (list Z) :=
  if (length b =? sum_list (map fmt_size fs))%nat
  then Return (unpack_fields fs b)
  else Raise StructError.

(** [struct.unpack('>h', b)[0]]: two bytes, two's complement. *)
Definition unpack_h (b : bytes) : result Z :=
  if (length b =? 2)%nat then
    let u := be_int b in
    Return (if u <? 32768 then u else u - 65536)
  else Raise StructError.

(** A Python [float] is a binary64 number. *)
Definition float_of_int (v : Z) : float :=
  SF2Prim (binary_normalize prec emax v 0 false).

(** The binary64 number equal to the binary32 number with these 32 bits
    (widening is exact). *)
Definition float_of_binary32 (bits : Z) : float :=
  let negative := Z.testbit bits 31 in
  let e := Z.land (Z.shiftr bits 23) 255 in
  let m := Z.land bits (2 ^ 23 - 1) in
  if e =? 255 then
    (if m =? 0 then (if negative then neg_infinity else infinity) else nan)
  else
    let mant := if e =? 0 then m else m + 2 ^ 23 in
    let ex := if e =? 0 then -149 else e - 150 in
    SF2Prim (binary_normalize prec emax (if negative then - mant else mant) ex negative).

(** [struct.unpack('>f', b)[0]]: four bytes, IEEE-754 binary32. *)
Definition unpack_f (b : bytes) : result float :=
  if (length b =? 4)%nat then Return (float_of_binary32 (be_int b))
  else Raise StructError.

(** A numeric Python value: [int] or [float]. *)
Inductive number :=
| PyInt (v : Z)
| PyFloat (x : float).

(** [a * b] on numbers: an [int] operand is converted when the other one is
    a [float]. *)
Definition py_mul (a b : number) : number :=
  match a, b with
  | PyInt x, PyInt y => PyInt (x * y)
  | PyInt x, PyFloat y => PyFloat (float_of_int x * y)
  | PyFloat x, PyInt y => PyFloat (x * float_of_int y)
  | PyFloat x, PyFloat y => PyFloat (x * y)
  end.

(** A value as [json.loads] hands it over.  The sensor configuration and the
    alert come from JSON, and the service checks the type of none of their
    fields, so a field that the code multiplies or looks up can hold any of
    these. *)
Unset Elimination Schemes.
Inductive json :=
| JNull                                  (* None *)
| JBool (b : bool)                       (* True, False *)
| JNum (n : number)
| JStr (s : string)
| JArr (items : list json)               (* a list *)
| JObj (fields : list (string * json))   (* a dict *).
Set Elimination Schemes.

Coercion JNum : number >-> json.

(** [s * n] for a [str] and [l * n] for a [list]: [n] copies, none when
    [n <= 0]. *)
Definition str_repeat (s : string) (n : Z) : string :=
  String.concat "" (replicate (Z.to_nat n) s).

Definition list_repeat {A} (l : list A) (n : Z) : list A :=
  List.concat (replicate (Z.to_nat n) l).

(** [v * x] for an [int] [v]: the product with a number (a [bool] counts as
    0 or 1), a [str] or a [list] repeated, [TypeError] for [None] and for a
    [dict]. *)
Definition int_mul (v : Z) (x : json) : result json :=
  match x with
  | JNum n => Return (JNum (py_mul (PyInt v) n))
  | JBool b => Return (JNum (PyInt (v * Z.b2z b)))
  | JStr s => Return (JStr (str_repeat s v))
  | JArr items => Return (JArr (list_repeat items v))
  | JNull | JObj _ => Raise TypeError
  end.

(** A value that can be the key of a dict lookup: a list and a dict are not
    hashable. *)
Definition hashable (x : json) : bool :=
  match x with
  | JArr _ | JObj _ => false
  | _ => true
  end.

(** ** Objects, registry and the world *)

(** The fields of a [SiemensS7Client] object. *)
Record s7_client := S7Client {
  s7_ip_address : string;
  s7_rack : Z;
  s7_slot : Z;
  s7_socket : option nat;
  s7_connected : bool;
  s7_connection_id : Z;
}.

(** The fields of a [SchneiderModiconClient] object. *)
Record modicon_client := ModiconClient {
  mb_ip_address : string;
  mb_port : Z;
  mb_unit_id : Z;
  mb_socket : option nat;
  mb_connected : bool;
  mb_transaction_id : Z;
}.

Inductive object :=
| Siemens (c : s7_client)
| Schneider (c : modicon_client).

(** An entry of [active_connections]: the dict
    [{'type': ..., 'client': ..., 'connected_at': ...}]; the client is a
    reference to the object that the vendor dict holds too. *)
Record connection := Connection {
  conn_type : string;
  conn_client : nat;
  conn_connected_at : nat;
}.

(** The columns of a [Factory] row that the service looks at. *)
Record Factory := {
  plc_type : option string;
  plc_ip : option string;
  plc_port : option Z;
}.

(** What one socket call ([connect], [send], [recv]) will do: raise
    ([socket.error], [socket.timeout]) or go through; for [recv], [data] is
    what it returns. *)
Inductive net_event :=
| Fails
| Done (data : bytes).

Record world := World {
  net : list net_event;                       (* the coming socket calls, in order *)
  wire : list bytes;                          (* frames handed to socket.send, oldest first *)
  open_sockets : gset nat;
  heap : gmap nat object;                     (* the vendor client objects *)
  clock : nat;                                (* datetime.utcnow() *)
  factories : gmap string Factory;            (* Factory.query *)
  siemens_clients : gmap string nat;          (* plc_service.siemens_clients *)
  schneider_clients : gmap string nat;        (* plc_service.schneider_clients *)
  active_connections : gmap string connection (* plc_service.active_connections *)
}.

Definition set_net (f : list net_event -> list net_event) (w : world) : world :=
  World (f (net w)) (wire w) (open_sockets w) (heap w) (clock w) (factories w)
        (siemens_clients w) (schneider_clients w) (active_connections w).
Definition set_wire (f : list bytes -> list bytes) (w : world) : world :=
  World (net w) (f (wire w)) (open_sockets w) (heap w) (clock w) (factories w)
        (siemens_clients w) (schneider_clients w) (active_connections w).
Definition set_open_sockets (f : gset nat -> gset nat) (w : world) : world :=
  World (net w) (wire w) (f (open_sockets w)) (heap w) (clock w) (factories w)
        (siemens_clients w) (schneider_clients w) (active_connections w).
Definition set_heap (f : gmap nat object -> gmap nat object) (w : world) : world :=
  World (net w) (wire w) (open_sockets w) (f (heap w)) (clock w) (factories w)
        (siemens_clients w) (schneider_clients w) (active_connections w).
Definition set_clock (f : nat -> nat) (w : world) : world :=
  World (net w) (wire w) (open_sockets w) (heap w) (f (clock w)) (factories w)
        (siemens_clients w) (schneider_clients w) (active_connections w).
Definition set_siemens_clients (f : gmap string nat -> gmap string nat) (w : world) : world :=
  World (net w) (wire w) (open_sockets w) (heap w) (clock w) (factories w)
        (f (siemens_clients w)) (schneider_clients w) (active_connections w).
Definition set_schneider_clients (f : gmap string nat -> gmap string nat) (w : world) : world :=
  World (net w) (wire w) (open_sockets w) (heap w) (clock w) (factories w)
        (siemens_clients w) (f (schneider_clients w)) (active_connections w).
Definition set_active_connections
    (f : gmap string connection -> gmap string connection) (w : world) : world :=
  World (net w) (wire w) (open_sockets w) (heap w) (clock w) (factories w)
        (siemens_clients w) (schneider_clients w) (f (active_connections w)).

(** The three dicts of the service: the registry. *)
Definition registry (w : world) :
    gmap string nat * gmap string nat * gmap string connection :=
  (siemens_clients w, schneider_clients w, active_connections w).

(** ** Python code as state transformers that return or raise *)

Definition M (A : Type) : Type := world -> world * result A.

Definition ret {A} (a : A) : M A := fun w => (w, Return a).

Definition raise {A} (e : exn) : M A := fun w => (w, Raise e).

Definition bind {A B} (m : M A) (k : A -> M B) : M B :=
  fun w =>
    match m w with
    | (w', Return a) => k a w'
    | (w', Raise e) => (w', Raise e)
    end.

Notation "'let*' x ':=' m 'in' k" := (bind m (fun x => k))
  (at level 10, x name, m at level 100, k at level 200).

(** [try: body  except Exception: handler]; what [body] did to the world
    before it raised stays done. *)
Definition try_except {A} (body : M A) (handler : exn -> M A) : M A :=
  fun w =>
    match body w with
    | (w', Return a) => (w', Return a)
    | (w', Raise e) => handler e w'
    end.

Definition lift {A} (r : result A) : M A := fun w => (w, r).

Definition gets {A} (f : world -> A) : M A := fun w => (w, Return (f w)).

Definition modify (f : world -> world) : M unit := fun w => (f w, Return tt).

(** [for x in items: acc = body(x, acc)]. *)
Fixpoint for_each {X A} (items : list X) (body : X -> A -> M A) (acc : A) : M A :=
  match items with
  | [] => ret acc
  | x :: rest => let* acc' := body x acc in for_each rest body acc'
  end.

(** [datetime.utcnow()]: a clock that moves on at every reading. *)
Definition utcnow : M nat :=
  let* t := gets clock in
  let* _ := modify (set_clock S) in
  ret t.

(** *** Sockets *)

(** The next socket call takes the next event; when the oracle has nothing
    left the peer is silent and the call times out. *)
Definition next_event : M net_event :=
  let* evs := gets net in
  match evs with
  | [] => ret Fails
  | ev :: rest => let* _ := modify (set_net (fun _ => rest)) in ret ev
  end.

(** [socket.socket(AF_INET, SOCK_STREAM)] followed by [settimeout(10)]. *)
Definition socket_socket : M nat :=
  let* socks := gets open_sockets in
  let s := fresh socks in
  let* _ := modify (set_open_sockets (fun o => {[s]} ∪ o)) in
  ret s.

(** [sock.connect(address)]. *)
Definition socket_connect (sock : option nat) : M unit :=
  match sock with
  | None => raise AttributeError
  | Some _ =>
      let* ev := next_event in
      match ev with
      | Fails => raise SocketError
      | Done _ => ret tt
      end
  end.

(** [sock.send(frame)]: the frame is put on the wire log, then the call
    goes through or raises. *)
Definition socket_send (sock : option nat) (frame : bytes) : M unit :=
  match sock with
  | None => raise AttributeError
  | Some _ =>
      let* _ := modify (set_wire (fun l => l ++ [frame])) in
      let* ev := next_event in
      match ev with
      | Fails => raise SocketError
      | Done _ => ret tt
      end
  end.

(** [sock.recv(1024)]. *)
Definition socket_recv (sock : option nat) : M bytes :=
  match sock with
  | None => raise AttributeError
  | Some _ =>
      let* ev := next_event in
      match ev with
      | Fails => raise SocketError
      | Done data => ret data
      end
  end.

(** [sock.close()]. *)
Definition socket_close (sock : nat) : M unit :=
  modify (set_open_sockets (fun o => o ∖ {[sock]})).

(** *** The heap *)

(** Construction of an object: a reference that no object has yet. *)
Definition new_object (o : object) : M nat :=
  let* h := gets heap in
  let r := fresh (dom h) in
  let* _ := modify (set_heap (fun h => <[r := o]> h)) in
  ret r.

(** Reading the fields of [self] in a method of [SiemensS7Client]. *)
Definition get_s7 (self : nat) : M s7_client :=
  let* h := gets heap in
  match h !! self with
  | Some (Siemens c) => ret c
  | _ => raise AttributeError
  end.

Definition put_s7 (self : nat) (c : s7_client) : M unit :=
  modify (set_heap (fun h => <[self := Siemens c]> h)).

Definition get_modicon (self : nat) : M modicon_client :=
  let* h := gets heap in
  match h !! self with
  | Some (Schneider c) => ret c
  | _ => raise AttributeError
  end.

Definition put_modicon (self : nat) (c : modicon_client) : M unit :=
  modify (set_heap (fun h => <[self := Schneider c]> h)).

(** [for x in items] in code that touches no state. *)
Fixpoint for_result {X A} (items : list X) (body : X -> A -> result A) (acc : A) : result A :=
  match items with
  | [] => Return acc
  | x :: rest => result_bind (body x acc) (for_result rest body)
  end.

(** [range(n)]. *)
Definition range (n : Z) : list Z := seqZ 0 n.

(** Truth value of a Python [int]. *)
Definition truthy (v : Z) : bool := negb (v =? 0).

(** ** class SiemensS7Client *)

Module SiemensS7Client.

(** [SiemensS7Client(ip_address, rack=0, slot=1)]. *)
Definition __init__ (ip_address : string) : s7_client :=
  {| s7_ip_address := ip_address; s7_rack := 0; s7_slot := 1;
     s7_socket := None; s7_connected := false; s7_connection_id := 0 |}.

Definition with_socket (s : option nat) (c : s7_client) : s7_client :=
  {| s7_ip_address := s7_ip_address c; s7_rack := s7_rack c; s7_slot := s7_slot c;
     s7_socket := s; s7_connected := s7_connected c;
     s7_connection_id := s7_connection_id c |}.

Definition with_connected (b : bool) (c : s7_client) : s7_client :=
  {| s7_ip_address := s7_ip_address c; s7_rack := s7_rack c; s7_slot := s7_slot c;
     s7_socket := s7_socket c; s7_connected := b;
     s7_connection_id := s7_connection_id c |}.

Definition disconnect (self : nat) : M unit :=
  let* c := get_s7 self in
  let* _ :=
    match s7_socket c with
    | Some s =>
        let* _ := try_except (socket_close s) (fun _ => ret tt) in
        let* c := get_s7 self in
        put_s7 self (with_socket None c)
    | None => ret tt
    end in
  let* c := get_s7 self in
  put_s7 self (with_connected false c).

Definition iso_cr : list Z :=
  [ 0x03; 0x00; 0x00; 0x16;
    0x11; 0xE0; 0x00; 0x00; 0x00; 0x01; 0x00;
    0xC0; 0x01; 0x0A;
    0xC1; 0x02; 0x01; 0x00;
    0xC2; 0x02; 0x01; 0x02 ].

Definition _send_connection_request (self : nat) : M bool :=
  try_except
    (let* frame := lift (bytearray iso_cr) in
     let* c := get_s7 self in
     let* _ := socket_send (s7_socket c) frame in
     let* c := get_s7 self in
     let* response := socket_recv (s7_socket c) in
     if (6 <=? length response)%nat then
       let* b := lift (getitem response 5) in
       if b =? 0xD0 then ret true else ret false
     else ret false)
    (fun _ => ret false).

Definition connect (self : nat) : M bool :=
  try_except
    (let* s := socket_socket in
     let* c := get_s7 self in
     let* _ := put_s7 self (with_socket (Some s) c) in
     let* c := get_s7 self in
     let* _ := socket_connect (s7_socket c) in
     let* accepted := _send_connection_request self in
     if accepted then
       let* c := get_s7 self in
       let* _ := put_s7 self (with_connected true c) in
       ret true
     else
       let* _ := disconnect self in
       ret false)
    (fun _ =>
       let* _ := disconnect self in
       ret false).

Definition _build_read_request (db_number start size : Z) : result bytes :=
  bytearray
    [ 0x03; 0x00; 0x00; 0x1F;
      0x02; 0xF0; 0x80;
      0x32; 0x01; 0x00; 0x00; 0x00; 0x00; 0x00; 0x0E;
      0x00; 0x00; 0x04; 0x01;
      0x12; 0x0A; 0x10; 0x02;
      0x00; 0x01;
      0x00; db_number;
      0x84;
      Z.shiftr start 16; Z.shiftr start 8; Z.land start 0xFF;
      0x00; Z.shiftr size 8; Z.land size 0xFF ].

Definition _build_write_request (db_number start : Z) (data : bytes) : result bytes :=
  let size := Z.of_nat (length data) in
  result_map (fun request => request ++ data)
    (bytearray
      [ 0x03; 0x00; 0x00; 0x1F + size;
        0x02; 0xF0; 0x80;
        0x32; 0x01; 0x00; 0x00; 0x00; 0x00; 0x00; 0x0E;
        0x00; 0x00; 0x05; 0x01;
        0x12; 0x0A; 0x10; 0x02;
        0x00; 0x01;
        0x00; db_number;
        0x84;
        Z.shiftr start 16; Z.shiftr start 8; Z.land start 0xFF;
        0x00; Z.shiftr size 8; Z.land size 0xFF ]).

Definition _parse_read_response (response : bytes) : result (option bytes) :=
  if (length response <? 25)%nat then Return None
  else
    result_bind (getitem response 21) (fun status =>
    if status =? 0xFF then
      result_bind (getitem response 23) (fun hi =>
      result_bind (getitem response 24) (fun lo =>
      let data_length := Z.lor (Z.shiftl hi 8) lo in
      if Z.of_nat (length response) >=? 25 + data_length
      then Return (Some (slice response 25 (25 + data_length)))
      else Return None))
    else Return None).

Definition _parse_write_response (response : bytes) : result bool :=
  if (length response <? 22)%nat then Return false
  else result_map (fun status => status =? 0xFF) (getitem response 21).

Definition read_db (self : nat) (db_number start size : Z) : M (option bytes) :=
  let* c := get_s7 self in
  if negb (s7_connected c) then ret None
  else
    try_except
      (let* read_request := lift (_build_read_request db_number start size) in
       let* c := get_s7 self in
       let* _ := socket_send (s7_socket c) read_request in
       let* c := get_s7 self in
       let* response := socket_recv (s7_socket c) in
       lift (_parse_read_response response))
      (fun _ => ret None).

Definition write_db (self : nat) (db_number start : Z) (data : bytes) : M bool :=
  let* c := get_s7 self in
  if negb (s7_connected c) then ret false
  else
    try_except
      (let* write_request := lift (_build_write_request db_number start data) in
       let* c := get_s7 self in
       let* _ := socket_send (s7_socket c) write_request in
       let* c := get_s7 self in
       let* response := socket_recv (s7_socket c) in
       lift (_parse_write_response response))
      (fun _ => ret false).

End SiemensS7Client.

(** ** class SchneiderModiconClient *)

Module SchneiderModiconClient.

(** [SchneiderModiconClient(ip_address, port=502, unit_id=1)]. *)
Definition __init__ (ip_address : string) (port : Z) : modicon_client :=
  {| mb_ip_address := ip_address; mb_port := port; mb_unit_id := 1;
     mb_socket := None; mb_connected := false; mb_transaction_id := 0 |}.

Definition with_socket (s : option nat) (c : modicon_client) : modicon_client :=
  {| mb_ip_address := mb_ip_address c; mb_port := mb_port c; mb_unit_id := mb_unit_id c;
     mb_socket := s; mb_connected := mb_connected c;
     mb_transaction_id := mb_transaction_id c |}.

Definition with_connected (b : bool) (c : modicon_client) : modicon_client :=
  {| mb_ip_address := mb_ip_address c; mb_port := mb_port c; mb_unit_id := mb_unit_id c;
     mb_socket := mb_socket c; mb_connected := b;
     mb_transaction_id := mb_transaction_id c |}.

Definition with_transaction_id (t : Z) (c : modicon_client) : modicon_client :=
  {| mb_ip_address := mb_ip_address c; mb_port := mb_port c; mb_unit_id := mb_unit_id c;
     mb_socket := mb_socket c; mb_connected := mb_connected c;
     mb_transaction_id := t |}.

Definition disconnect (self : nat) : M unit :=
  let* c := get_modicon self in
  let* _ :=
    match mb_socket c with
    | Some s =>
        let* _ := try_except (socket_close s) (fun _ => ret tt) in
        let* c := get_modicon self in
        put_modicon self (with_socket None c)
    | None => ret tt
    end in
  let* c := get_modicon self in
  put_modicon self (with_connected false c).

Definition connect (self : nat) : M bool :=
  try_except
    (let* s := socket_socket in
     let* c := get_modicon self in
     let* _ := put_modicon self (with_socket (Some s) c) in
     let* c := get_modicon self in
     let* _ := socket_connect (mb_socket c) in
     let* c := get_modicon self in
     let* _ := put_modicon self (with_connected true c) in
     ret true)
    (fun _ =>
       let* _ := disconnect self in
       ret false).

(** [struct.pack('>HHHBBHH', ...)]. *)
Definition _build_modbus_request (self : nat) (function_code address data : Z) : M bytes :=
  let* c := get_modicon self in
  lift (struct_pack
    [ (fmt_H, mb_transaction_id c);
      (fmt_H, 0x0000);
      (fmt_H, 0x0006);
      (fmt_B, mb_unit_id c);
      (fmt_B, function_code);
      (fmt_H, address);
      (fmt_H, data) ]).

(** [struct.pack('>HHHBBHHB', ...)] followed by one [>H] per value. *)
Definition _build_modbus_write_multiple_request
    (self : nat) (address : Z) (values : list Z) : M bytes :=
  let count := Z.of_nat (length values) in
  let byte_count := count * 2 in
  let* c := get_modicon self in
  let* header := lift (struct_pack
    [ (fmt_H, mb_transaction_id c);
      (fmt_H, 0x0000);
      (fmt_H, 7 + byte_count);
      (fmt_B, mb_unit_id c);
      (fmt_B, 0x10);
      (fmt_H, address);
      (fmt_H, count);
      (fmt_B, byte_count) ]) in
  let* data := lift (struct_pack (map (fun value => (fmt_H, value)) values)) in
  ret (header ++ data).

Definition _parse_read_registers_response (response : bytes) : result (option (list Z)) :=
  if (length response <? 9)%nat then Return None
  else
    result_bind (struct_unpack [fmt_H; fmt_H; fmt_H; fmt_B; fmt_B; fmt_B] (slice response 0 9))
      (fun fields =>
    match fields with
    | [trans_id; proto_id; length; unit_id; func_code; byte_count] =>
        if truthy (Z.land func_code 0x80) then Return None
        else
          result_map Some
            (for_result (range (byte_count / 2))
               (fun i values =>
                  result_bind (struct_unpack [fmt_H] (slice response (9 + i * 2) (11 + i * 2)))
                    (fun t =>
                  match t with
                  | value :: _ => Return (values ++ [value])
                  | [] => Raise IndexError
                  end))
               [])
    | _ => Raise ValueError
    end).

Definition _parse_write_response (response : bytes) : result bool :=
  if (length response <? 8)%nat then Return false
  else result_map (fun func_code => negb (truthy (Z.land func_code 0x80)))
         (getitem response 7).

(** [self.transaction_id += 1]. *)
Definition next_transaction (self : nat) : M unit :=
  let* c := get_modicon self in
  put_modicon self (with_transaction_id (mb_transaction_id c + 1) c).

Definition read_holding_registers (self : nat) (address count : Z) : M (option (list Z)) :=
  let* c := get_modicon self in
  if negb (mb_connected c) then ret None
  else
    try_except
      (let* _ := next_transaction self in
       let* request := _build_modbus_request self 0x03 address count in
       let* c := get_modicon self in
       let* _ := socket_send (mb_socket c) request in
       let* c := get_modicon self in
       let* response := socket_recv (mb_socket c) in
       lift (_parse_read_registers_response response))
      (fun _ => ret None).

Definition write_single_register (self : nat) (address value : Z) : M bool :=
  let* c := get_modicon self in
  if negb (mb_connected c) then ret false
  else
    try_except
      (let* _ := next_transaction self in
       let* request := _build_modbus_request self 0x06 address value in
       let* c := get_modicon self in
       let* _ := socket_send (mb_socket c) request in
       let* c := get_modicon self in
       let* response := socket_recv (mb_socket c) in
       lift (_parse_write_response response))
      (fun _ => ret false).

Definition write_multiple_registers (self : nat) (address : Z) (values : list Z) : M bool :=
  let* c := get_modicon self in
  if negb (mb_connected c) then ret false
  else
    try_except
      (let* _ := next_transaction self in
       let* request := _build_modbus_write_multiple_request self address values in
       let* c := get_modicon self in
       let* _ := socket_send (mb_socket c) request in
       let* c := get_modicon self in
       let* response := socket_recv (mb_socket c) in
       lift (_parse_write_response response))
      (fun _ => ret false).

End SchneiderModiconClient.

(** ** class PLCIntegrationService *)

(** One value of a machine's sensor configuration, a JSON object: the keys
    that the service reads, each present or not.  ['scale_factor'] is
    multiplied as it comes and is any JSON value.  ['db_number'] and
    ['address'] only ever reach a request builder, inside the [try] of the
    read, where a value that is no integer fails as an integer that does
    not fit does; ['data_type'] is only compared with strings, where a
    value that is no string compares as an unknown string does; ['unit'] is
    copied. *)
Record sensor_cfg := SensorCfg {
  cfg_db_number : option Z;
  cfg_address : option Z;
  cfg_data_type : option string;
  cfg_scale_factor : option json;
  cfg_unit : option string;
}.

(** One value of the result of a read:
    [{'value': ..., 'unit': ..., 'timestamp': ...}]. *)
Record reading := Reading {
  rd_value : json;
  rd_unit : string;
  rd_timestamp : nat;
}.

(** The key of [alert_data] that the service reads; its value is any JSON
    value. *)
Record alert := Alert {
  alert_severity : option json;
}.

(** Truth value of an optional string, of an optional sequence and of a
    dict. *)
Definition truthy_str (o : option string) : bool :=
  match o with
  | Some s => negb (String.eqb s "")
  | None => false
  end.

Definition truthy_seq {A} (o : option (list A)) : bool :=
  match o with
  | Some (_ :: _) => true
  | _ => false
  end.

Definition truthy_dict {V} (d : gmap string V) : bool := negb (size d =? 0)%nat.

(** The dict that [test_plc_communication] returns; the text of the message
    is one of four, the last with [str(e)] of the exception. *)
Inductive test_message :=
| NotConnectedToPLC        (* 'Not connected to PLC' *)
| TestSuccessful           (* 'Communication test successful' *)
| TestFailed               (* 'Communication test failed' *)
| TestFailedWith (e : exn) (* 'Communication test failed: ...' *).

Record test_result := TestResult {
  tr_success : bool;
  tr_message : test_message;
  tr_timestamp : option nat;
}.

(** One value of the dict that [get_connection_status] returns. *)
Record status_entry := StatusEntry {
  st_type : string;
  st_connected : bool;
  st_connected_at : nat;
  st_last_communication : nat;
}.

Module PLCIntegrationService.

Definition connect_to_factory_plcs (factory_id : string) : M (gmap string bool) :=
  let* factory := gets (fun w => factories w !! factory_id) in
  match factory with
  | None => ret ∅
  | Some factory =>
      let results : gmap string bool := ∅ in
      if truthy_str (plc_type factory) && truthy_str (plc_ip factory) then
        let type := default "" (plc_type factory) in
        let ip := default "" (plc_ip factory) in
        if String.prefix "siemens" type then
          let* client := new_object (Siemens (SiemensS7Client.__init__ ip)) in
          let* connected := SiemensS7Client.connect client in
          if connected then
            let* _ := modify (set_siemens_clients (insert factory_id client)) in
            let* now := utcnow in
            let* _ := modify (set_active_connections
                        (insert factory_id (Connection "siemens" client now))) in
            ret (<[factory_id := true]> results)
          else ret (<[factory_id := false]> results)
        else if String.prefix "schneider" type then
          let port := match plc_port factory with
                      | Some p => if p =? 0 then 502 else p
                      | None => 502
                      end in
          let* client := new_object (Schneider (SchneiderModiconClient.__init__ ip port)) in
          let* connected := SchneiderModiconClient.connect client in
          if connected then
            let* _ := modify (set_schneider_clients (insert factory_id client)) in
            let* now := utcnow in
            let* _ := modify (set_active_connections
                        (insert factory_id (Connection "schneider" client now))) in
            ret (<[factory_id := true]> results)
          else ret (<[factory_id := false]> results)
        else ret results
      else ret results
  end.

Definition disconnect_factory_plcs (factory_id : string) : M unit :=
  let* clients := gets siemens_clients in
  let* _ :=
    match clients !! factory_id with
    | Some client =>
        let* _ := SiemensS7Client.disconnect client in
        modify (set_siemens_clients (delete factory_id))
    | None => ret tt
    end in
  let* clients := gets schneider_clients in
  let* _ :=
    match clients !! factory_id with
    | Some client =>
        let* _ := SchneiderModiconClient.disconnect client in
        modify (set_schneider_clients (delete factory_id))
    | None => ret tt
    end in
  let* connections := gets active_connections in
  match connections !! factory_id with
  | Some _ => modify (set_active_connections (delete factory_id))
  | None => ret tt
  end.

(** The body of the loop of [_read_siemens_sensor_data]. *)
Definition siemens_item (client : nat) (item : string * sensor_cfg)
    (sensor_data : gmap string reading) : M (gmap string reading) :=
  let sensor_type := item.1 in
  let config := item.2 in
  match cfg_db_number config, cfg_address config with
  | Some db_number, Some address =>
      let data_type := default "real" (cfg_data_type config) in
      if String.eqb data_type "real" then
        let* raw_data := SiemensS7Client.read_db client db_number address 4 in
        if truthy_seq raw_data then
          let* value := lift (unpack_f (default [] raw_data)) in
          let* now := utcnow in
          ret (<[sensor_type := Reading (PyFloat value) (default "" (cfg_unit config)) now]>
                 sensor_data)
        else ret sensor_data
      else if String.eqb data_type "int" then
        let* raw_data := SiemensS7Client.read_db client db_number address 2 in
        if truthy_seq raw_data then
          let* value := lift (unpack_h (default [] raw_data)) in
          let* now := utcnow in
          ret (<[sensor_type := Reading (PyInt value) (default "" (cfg_unit config)) now]>
                 sensor_data)
        else ret sensor_data
      else ret sensor_data
  | _, _ => ret sensor_data
  end.

Definition _read_siemens_sensor_data (client : nat)
    (sensor_config : list (string * sensor_cfg)) : M (option (gmap string reading)) :=
  let* sensor_data := for_each sensor_config (siemens_item client) ∅ in
  ret (if truthy_dict sensor_data then Some sensor_data else None).

(** The body of the loop of [_read_schneider_sensor_data]. *)
Definition schneider_item (client : nat) (item : string * sensor_cfg)
    (sensor_data : gmap string reading) : M (gmap string reading) :=
  let sensor_type := item.1 in
  let config := item.2 in
  match cfg_address config with
  | Some address =>
      let data_type := default "holding_register" (cfg_data_type config) in
      let scale_factor := default (JNum (PyFloat 1)) (cfg_scale_factor config) in
      if String.eqb data_type "holding_register" then
        let* values := SchneiderModiconClient.read_holding_registers client address 1 in
        if truthy_seq values then
          let* v0 := lift (from_option Return (Raise IndexError) (default [] values !! 0%nat)) in
          let* value := lift (int_mul v0 scale_factor) in
          let* now := utcnow in
          ret (<[sensor_type := Reading value (default "" (cfg_unit config)) now]>
                 sensor_data)
        else ret sensor_data
      else if String.eqb data_type "holding_register_float" then
        let* values := SchneiderModiconClient.read_holding_registers client address 2 in
        if truthy_seq values && (length (default [] values) =? 2)%nat then
          let* v0 := lift (from_option Return (Raise IndexError) (default [] values !! 0%nat)) in
          let* v1 := lift (from_option Return (Raise IndexError) (default [] values !! 1%nat)) in
          let combined := Z.lor (Z.shiftl v0 16) v1 in
          let* packed := lift (pack_field fmt_I combined) in
          let* value := lift (unpack_f packed) in
          let* now := utcnow in
          ret (<[sensor_type := Reading (PyFloat value) (default "" (cfg_unit config)) now]>
                 sensor_data)
        else ret sensor_data
      else ret sensor_data
  | None => ret sensor_data
  end.

Definition _read_schneider_sensor_data (client : nat)
    (sensor_config : list (string * sensor_cfg)) : M (option (gmap string reading)) :=
  let* sensor_data := for_each sensor_config (schneider_item client) ∅ in
  ret (if truthy_dict sensor_data then Some sensor_data else None).

Definition read_sensor_data_from_plc (factory_id machine_id : string)
    (sensor_config : list (string * sensor_cfg)) : M (option (gmap string reading)) :=
  let* connections := gets active_connections in
  match connections !! factory_id with
  | None => ret None
  | Some connection =>
      let client := conn_client connection in
      try_except
        (if String.eqb (conn_type connection) "siemens" then
           _read_siemens_sensor_data client sensor_config
         else if String.eqb (conn_type connection) "schneider" then
           _read_schneider_sensor_data client sensor_config
         else ret None)
        (fun _ => ret None)
  end.

Definition severity_map : gmap string Z :=
  <["low" := 1]> (<["medium" := 2]> (<["high" := 3]> (<["critical" := 4]> ∅))).

(** [severity_map.get(alert_data.get('severity', 'low'), 1)]: the lookup
    hashes its key, which raises [TypeError] for a list and for a dict; a
    key that is no string is equal to none of the four. *)
Definition severity_value (alert_data : alert) : result Z :=
  let severity := default (JStr "low") (alert_severity alert_data) in
  if hashable severity then
    match severity with
    | JStr s => Return (default 1 (severity_map !! s))
    | _ => Return 1
    end
  else Raise TypeError.

Definition _write_siemens_alert (client : nat) (alert_data : alert) : M bool :=
  let db_number := 100 in
  let address := 0 in
  let* severity := lift (severity_value alert_data) in
  let* alert_bytes := lift (struct_pack [(fmt_H, 1); (fmt_H, severity)]) in
  SiemensS7Client.write_db client db_number address alert_bytes.

(** The severity is looked up before the first register is written. *)
Definition _write_schneider_alert (client : nat) (alert_data : alert) : M bool :=
  let alert_register := 1000 in
  let severity_register := 1001 in
  let* severity := lift (severity_value alert_data) in
  let* active := SchneiderModiconClient.write_single_register client alert_register 1 in
  if negb active then ret false
  else SchneiderModiconClient.write_single_register client severity_register severity.

(** With a connection of another type the source falls off the end and
    returns [None], which its caller takes as false. *)
Definition write_alert_to_plc (factory_id : string) (alert_data : alert) : M bool :=
  let* connections := gets active_connections in
  match connections !! factory_id with
  | None => ret false
  | Some connection =>
      let client := conn_client connection in
      try_except
        (if String.eqb (conn_type connection) "siemens" then
           _write_siemens_alert client alert_data
         else if String.eqb (conn_type connection) "schneider" then
           _write_schneider_alert client alert_data
         else ret false)
        (fun _ => ret false)
  end.

(** The entries are visited in the order of the map, not in Python's
    insertion order; the order only decides which entry reads the clock
    first. *)
Definition get_connection_status : M (gmap string status_entry) :=
  let* connections := gets active_connections in
  for_each (map_to_list connections)
    (fun item status =>
       let factory_id := item.1 in
       let connection := item.2 in
       let* now := utcnow in
       ret (<[factory_id := StatusEntry (conn_type connection) true
                              (conn_connected_at connection) now]> status))
    ∅.

Definition test_plc_communication (factory_id : string) : M test_result :=
  let* connections := gets active_connections in
  match connections !! factory_id with
  | None => ret (TestResult false NotConnectedToPLC None)
  | Some connection =>
      let client := conn_client connection in
      try_except
        (let* success :=
           if String.eqb (conn_type connection) "siemens" then
             let* test_data := SiemensS7Client.read_db client 1 0 4 in
             ret (bool_decide (is_Some test_data))
           else if String.eqb (conn_type connection) "schneider" then
             let* test_data := SchneiderModiconClient.read_holding_registers client 0 1 in
             ret (bool_decide (is_Some test_data))
           else ret false in
         let* now := utcnow in
         ret (TestResult success (if success then TestSuccessful else TestFailed) (Some now)))
        (fun e =>
           let* now := utcnow in
           ret (TestResult false (TestFailedWith e) (Some now)))
  end.

End PLCIntegrationService.

(** ** Vocabulary of the statements *)

(** The operations of the two transports as data, so that statements can
    range over all of them and over sequences of them. *)
Inductive s7_call :=
| ReadDb (db_number start size : Z)
| WriteDb (db_number start : Z) (data : bytes).

Inductive modbus_call :=
| ReadHoldingRegisters (address count : Z)
| WriteSingleRegister (address value : Z)
| WriteMultipleRegisters (address : Z) (values : list Z).

Inductive transport_call :=
| OnSiemens (op : s7_call)
| OnSchneider (op : modbus_call).

(** One call; the boolean says whether the caller got a result (data that
    is not [None], or [True]). *)
Definition perform (self : nat) (call : transport_call) : M bool :=
  match call with
  | OnSiemens (ReadDb db_number start size) =>
      let* r := SiemensS7Client.read_db self db_number start size in
      ret (bool_decide (is_Some r))
  | OnSiemens (WriteDb db_number start data) =>
      SiemensS7Client.write_db self db_number start data
  | OnSchneider (ReadHoldingRegisters address count) =>
      let* r := SchneiderModiconClient.read_holding_registers self address count in
      ret (bool_decide (is_Some r))
  | OnSchneider (WriteSingleRegister address value) =>
      SchneiderModiconClient.write_single_register self address value
  | OnSchneider (WriteMultipleRegisters address values) =>
      SchneiderModiconClient.write_multiple_registers self address values
  end.

(** A sequence of Modbus calls on one client, results dropped. *)
Definition perform_all (self : nat) (calls : list modbus_call) : M unit :=
  for_each calls (fun call _ => let* _ := perform self (OnSchneider call) in ret tt) tt.

(** The call is a method of the class of the object. *)
Definition method_of (o : object) (call : transport_call) : Prop :=
  match o, call with
  | Siemens _, OnSiemens _ => True
  | Schneider _, OnSchneider _ => True
  | _, _ => False
  end.

(** The client object says it is connected and holds socket [s]. *)
Definition connected_on (o : object) (s : nat) : Prop :=
  match o with
  | Siemens c => s7_connected c = true /\ s7_socket c = Some s
  | Schneider c => mb_connected c = true /\ mb_socket c = Some s
  end.

(** The coming request/response exchange fails at the socket: [send]
    raises, or [send] goes through and [recv] raises. *)
Definition exchange_fails (evs : list net_event) : Prop :=
  match evs with
  | Done _ :: Done _ :: _ => False
  | _ => True
  end.

(** Only the network side of the world differs: events were consumed and
    frames were sent. *)
Definition only_io (w w' : world) : Prop :=
  heap w' = heap w /\ open_sockets w' = open_sockets w /\ clock w' = clock w /\
  factories w' = factories w /\ registry w' = registry w.

(** The length that an S7 read response declares for its payload: the
    big-endian 16-bit number in bytes 23 and 24. *)
Definition declared_length (response : bytes) : Z := be_int (slice response 23 25).

(** The S7 read response is one from which [data] is taken. *)
Definition s7_accepted (response data : bytes) : Prop :=
  (25 <= length response)%nat /\
  response !! 21%nat = Some xff /\
  25 + declared_length response <= Z.of_nat (length response) /\
  data = slice response 25 (25 + declared_length response).

(** The register words of a Modbus read response: [byte_count / 2]
    big-endian 16-bit words from offset 9 on, [byte_count] being byte 8. *)
Definition register_words (response : bytes) : list Z :=
  (fun i => be_int (slice response (9 + i * 2) (11 + i * 2)))
    <$> range (be_int (slice response 8 9) / 2).

(** The transaction id field of a Modbus TCP frame. *)
Definition transaction_id_of (frame : bytes) : Z := be_int (take 2 frame).

(** The vendor that [connect_to_factory_plcs] picks for a factory row. *)
Inductive vendor := VSiemens | VSchneider.

Definition vendor_name (v : vendor) : string :=
  match v with VSiemens => "siemens" | VSchneider => "schneider" end.

Definition vendor_of (factory : Factory) : option vendor :=
  if truthy_str (plc_type factory) && truthy_str (plc_ip factory) then
    if String.prefix "siemens" (default "" (plc_type factory)) then Some VSiemens
    else if String.prefix "schneider" (default "" (plc_type factory)) then Some VSchneider
    else None
  else None.

(** The answer to the ISO connection request says "accepted". *)
Definition handshake_accepted (response : bytes) : bool :=
  (6 <=? length response)%nat &&
  match response !! 5%nat with
  | Some b => int_of_byte b =? 0xD0
  | None => false
  end.

(** What the network lets a transport connect attempt do.  Siemens: the TCP
    connect, the send of the connection request and the receive go through
    and the answer accepts.  Schneider: the TCP connect goes through.
    Everything else is a socket error, a timeout or a rejected handshake. *)
Definition transport_connects (v : vendor) (evs : list net_event) : bool :=
  match v, evs with
  | VSiemens, Done _ :: Done _ :: Done response :: _ => handshake_accepted response
  | VSchneider, Done _ :: _ => true
  | _, _ => false
  end.

(** The severity of the alert is one of the four names of the mapping. *)
Definition known_severity (alert_data : alert) : Prop :=
  exists s : string, alert_severity alert_data = Some (JStr s) /\
                     s ∈ ["low"; "medium"; "high"; "critical"].

(** The severity of the alert is missing, or it is a value that a dict can
    look up (a string, a number, a boolean or null) and is none of the four
    names. *)
Definition unknown_severity (alert_data : alert) : Prop :=
  match alert_severity alert_data with
  | None => True
  | Some severity => hashable severity = true /\ ~ known_severity alert_data
  end.

(** What the spec says of [connect] on a factory that is connected already:
    success is reported and the connection is the one from before. *)
Definition reconnect_is_noop (factory_id : string) (w : world) : Prop :=
  let r := PLCIntegrationService.connect_to_factory_plcs factory_id w in
  (exists results, r.2 = Return results /\ results !! factory_id = Some true) /\
  active_connections r.1 !! factory_id = active_connections w !! factory_id.

(** The body of the decoding loop of [_parse_read_registers_response], and
    the word that it appends for index [i]. *)
Definition word_step (response : bytes) (i : Z) (values : list Z) : result (list Z) :=
  result_bind (struct_unpack [fmt_H] (slice response (9 + i * 2) (11 + i * 2)))
    (fun t => match t with
              | value :: _ => Return (values ++ [value])
              | [] => Raise IndexError
              end).

Definition word_at (response : bytes) (i : Z) : Z :=
  be_int (slice response (9 + i * 2) (11 + i * 2)).

(** The Modbus read response is one that is decoded: the header is there,
    the function code carries no error flag, and the registers that
    [byte_count] announces are all there. *)
Definition modbus_accepted (response : bytes) : Prop :=
  (9 <= length response)%nat /\
  (exists fc, response !! 7%nat = Some fc /\ Z.testbit (int_of_byte fc) 7 = false) /\
  9 + 2 * (be_int (slice response 8 9) / 2) <= Z.of_nat (length response).

(** The events that are left after one request/response exchange: [send]
    takes one, and [recv] one more when [send] went through. *)
Definition after_exchange (evs : list net_event) : list net_event :=
  match evs with
  | Done _ :: evs' => drop 1 evs'
  | _ => drop 1 evs
  end.

(** The coming exchange goes through and the answer to the Modbus write
    has at least eight bytes and no error flag (bit 0x80) in its function
    code, the byte at offset 7. *)
Definition write_acknowledged (evs : list net_event) : bool :=
  match evs with
  | Done _ :: Done response :: _ =>
      (8 <=? length response)%nat &&
      match response !! 7%nat with
      | Some func_code => negb (Z.testbit (int_of_byte func_code) 7)
      | None => false
      end
  | _ => false
  end.

(** The coming exchange goes through and the answer to the S7 write has at
    least 22 bytes and the status 0xFF at offset 21. *)
Definition s7_write_acknowledged (evs : list net_event) : bool :=
  match evs with
  | Done _ :: Done response :: _ =>
      (22 <=? length response)%nat &&
      match response !! 21%nat with
      | Some status => int_of_byte status =? 0xFF
      | None => false
      end
  | _ => false
  end.

(** The layout of a Modbus request that [_build_modbus_request] packs:
    transaction id, protocol id, length, unit id, function code, address,
    data. *)
Definition modbus_request_fmt : list fmt :=
  [fmt_H; fmt_H; fmt_H; fmt_B; fmt_B; fmt_H; fmt_H].

(** The coming S7 read yields no data: the exchange fails at the socket, or
    the response is not accepted, or the payload taken from it is empty. *)
Definition s7_no_data (evs : list net_event) : Prop :=
  match evs with
  | Done _ :: Done response :: _ => forall data, s7_accepted response data -> data = []
  | _ => True
  end.

(** The same for a Modbus read of holding registers. *)
Definition modbus_no_data (evs : list net_event) : Prop :=
  match evs with
  | Done _ :: Done response :: _ => modbus_accepted response -> register_words response = []
  | _ => True
  end.

(** Nothing comes through: every socket call times out or errors. *)
Definition silent (evs : list net_event) : Prop := Forall (eq Fails) evs.

(** ** Vocabulary of the further statements *)

(** The value fits the field of a [struct] format. *)
Definition fits (fv : fmt * Z) : Prop := 0 <= fv.2 < 2 ^ (8 * Z.of_nat (fmt_size fv.1)).

(** The layout of the header that [_build_modbus_write_multiple_request]
    packs: as [modbus_request_fmt], with the quantity of registers and the
    byte count at the end. *)
Definition modbus_write_multiple_fmt : list fmt :=
  [fmt_H; fmt_H; fmt_H; fmt_B; fmt_B; fmt_H; fmt_H; fmt_B].

(** What the spec says of [write_alert] on a Schneider connection: the
    frames that the call sends are two writes of a single register
    (function 6), of 1 to register 1000 and of [severity] to register
    1001. *)
Definition writes_both_registers (severity : Z) (factory_id : string)
    (alert_data : alert) (w : world) : Prop :=
  let r := PLCIntegrationService.write_alert_to_plc factory_id alert_data w in
  exists first second tid1 tid2 unit_id,
    wire r.1 = wire w ++ [first; second] /\
    struct_unpack modbus_request_fmt first = Return [tid1; 0; 6; unit_id; 6; 1000; 1] /\
    struct_unpack modbus_request_fmt second
      = Return [tid2; 0; 6; unit_id; 6; 1001; severity].

(** What the claim says of an alert whose severity is none of the four
    names: the frames that [write_alert] sends for it are the ones that it
    sends for severity "low". *)
Definition written_as_low (factory_id : string) (alert_data : alert) (w : world) : Prop :=
  wire (PLCIntegrationService.write_alert_to_plc factory_id alert_data w).1
  = wire (PLCIntegrationService.write_alert_to_plc factory_id
            (Alert (Some (JStr "low"))) w).1.

(** What a registry entry can see of a client object: its class, under the
    name that [active_connections] uses, its [connected] flag and its
    socket. *)
Definition class_of (o : object) : string :=
  match o with Siemens _ => "siemens" | Schneider _ => "schneider" end.

Definition is_connected (o : object) : bool :=
  match o with Siemens c => s7_connected c | Schneider c => mb_connected c end.

Definition socket_of (o : object) : option nat :=
  match o with Siemens c => s7_socket c | Schneider c => mb_socket c end.

Definition shape (o : object) : string * bool * option nat :=
  (class_of o, is_connected o, socket_of o).

(** The second world has the registry and the open sockets of the first,
    and its client objects have the class, the [connected] flag and the
    socket that they have in the first. *)
Definition same_shape (w w' : world) : Prop :=
  registry w' = registry w /\
  open_sockets w' = open_sockets w /\
  forall r, shape <$> heap w' !! r = shape <$> heap w !! r.

(** The reference is held for the factory by one of the three dicts. *)
Definition registered (w : world) (factory_id : string) (r : nat) : Prop :=
  siemens_clients w !! factory_id = Some r \/
  schneider_clients w !! factory_id = Some r \/
  exists conn, active_connections w !! factory_id = Some conn /\ conn_client conn = r.

(** The registry is consistent: an ActiveConnection names a connected client
    of its type that the vendor dict of that type holds for the same
    factory; the vendor dicts hold objects of their class; no object is
    held for two factories; and a socket that an object holds is open and is
    held by that object only. *)
Record consistent (w : world) : Prop := Consistent {
  active_is_live :
    forall factory_id conn,
      active_connections w !! factory_id = Some conn ->
      exists o s,
        heap w !! conn_client conn = Some o /\
        class_of o = conn_type conn /\
        connected_on o s /\
        match o with
        | Siemens _ => siemens_clients w !! factory_id = Some (conn_client conn)
        | Schneider _ => schneider_clients w !! factory_id = Some (conn_client conn)
        end;
  siemens_class :
    forall factory_id r,
      siemens_clients w !! factory_id = Some r -> exists c, heap w !! r = Some (Siemens c);
  schneider_class :
    forall factory_id r,
      schneider_clients w !! factory_id = Some r -> exists c, heap w !! r = Some (Schneider c);
  one_factory :
    forall factory_id factory_id' r,
      registered w factory_id r -> registered w factory_id' r -> factory_id = factory_id';
  sockets_owned :
    forall r o s,
      heap w !! r = Some o -> socket_of o = Some s ->
      s ∈ open_sockets w /\
      forall r' o', heap w !! r' = Some o' -> socket_of o' = Some s -> r' = r;
}.

(** The calls of the facade as data. *)
Inductive api_call :=
| Connect (factory_id : string)
| Disconnect (factory_id : string)
| ReadSensors (factory_id machine_id : string) (sensor_config : list (string * sensor_cfg))
| WriteAlert (factory_id : string) (alert_data : alert)
| TestCommunication (factory_id : string)
| ConnectionStatus.

Definition discard {A} (m : M A) : M unit := let* _ := m in ret tt.

Definition api (call : api_call) : M unit :=
  match call with
  | Connect factory_id => discard (PLCIntegrationService.connect_to_factory_plcs factory_id)
  | Disconnect factory_id => PLCIntegrationService.disconnect_factory_plcs factory_id
  | ReadSensors factory_id machine_id sensor_config =>
      discard (PLCIntegrationService.read_sensor_data_from_plc
                 factory_id machine_id sensor_config)
  | WriteAlert factory_id alert_data =>
      discard (PLCIntegrationService.write_alert_to_plc factory_id alert_data)
  | TestCommunication factory_id =>
      discard (PLCIntegrationService.test_plc_communication factory_id)
  | ConnectionStatus => discard PLCIntegrationService.get_connection_status
  end.

(** [PLCIntegrationService()]: the three dicts are empty and no client
    object exists; the database, the network and the clock are any. *)
Definition fresh_service (evs : list net_event) (now : nat)
    (rows : gmap string Factory) : world :=
  {| net := evs; wire := []; open_sockets := ∅; heap := ∅; clock := now;
     factories := rows; siemens_clients := ∅; schneider_clients := ∅;
     active_connections := ∅ |}.

(** What the world outside the service can do between two calls: the
    network will behave in another way, rows of the database change, time
    passes. *)
Definition outside (evs : list net_event) (now : nat) (rows : gmap string Factory)
    (w : world) : world :=
  {| net := evs; wire := wire w; open_sockets := open_sockets w; heap := heap w;
     clock := now; factories := rows; siemens_clients := siemens_clients w;
     schneider_clients := schneider_clients w;
     active_connections := active_connections w |}.

(** The worlds that a service can be in: it is constructed, then calls of
    the facade and changes of the outside world follow one another. *)
Inductive reachable : world -> Prop :=
| reachable_fresh evs now rows : reachable (fresh_service evs now rows)
| reachable_call call w : reachable w -> reachable (api call w).1
| reachable_outside evs now rows w : reachable w -> reachable (outside evs now rows w).

(** The vendor of the class of a client object, and the [connect] and
    [disconnect] methods that a call on the object dispatches to. *)
Definition object_vendor (o : object) : vendor :=
  match o with Siemens _ => VSiemens | Schneider _ => VSchneider end.

Definition connect_of (o : object) (self : nat) : M bool :=
  match o with
  | Siemens _ => SiemensS7Client.connect self
  | Schneider _ => SchneiderModiconClient.connect self
  end.

Definition disconnect_of (o : object) (self : nat) : M unit :=
  match o with
  | Siemens _ => SiemensS7Client.disconnect self
  | Schneider _ => SchneiderModiconClient.disconnect self
  end.

(** The object after [disconnect]: no socket, not connected, the other
    fields as they were. *)
Definition closed (o : object) : object :=
  match o with
  | Siemens c =>
      Siemens (SiemensS7Client.with_connected false (SiemensS7Client.with_socket None c))
  | Schneider c =>
      Schneider (SchneiderModiconClient.with_connected false
                   (SchneiderModiconClient.with_socket None c))
  end.

(** The sockets that the object holds: one or none. *)
Definition sockets_of (o : object) : gset nat :=
  match socket_of o with Some s => {[s]} | None => ∅ end.

(** The client objects that the vendor dicts hold for the factory. *)
Definition vendor_clients (w : world) (factory_id : string) : list nat :=
  option_list (siemens_clients w !! factory_id) ++
  option_list (schneider_clients w !! factory_id).

(** What [_read_schneider_sensor_data] stores for a sensor, told from the
    response on the wire: for a [holding_register] the first register word
    times the scale factor; for a [holding_register_float] the binary32
    number in the four payload bytes, which must be two registers. *)
Definition schneider_value (config : sensor_cfg) (response : bytes) (value : json) : Prop :=
  let data_type := default "holding_register" (cfg_data_type config) in
  if String.eqb data_type "holding_register" then
    exists word scale_factor,
      register_words response !! 0%nat = Some word /\
      default (JNum (PyFloat 1)) (cfg_scale_factor config) = JNum scale_factor /\
      value = JNum (py_mul (PyInt word) scale_factor)
  else
    data_type = "holding_register_float" /\
    length (register_words response) = 2%nat /\
    exists x, unpack_f (slice response 9 13) = Return x /\ value = JNum (PyFloat x).

(** The scale factor of the sensor is absent (then it is 1.0) or a number. *)
Definition numeric_scale (config : sensor_cfg) : Prop :=
  exists n, default (JNum (PyFloat 1)) (cfg_scale_factor config) = JNum n.

(** The scale factor of the sensor is one that an [int] cannot be
    multiplied with: [None] or a dict. *)
Definition scale_raises (config : sensor_cfg) : Prop :=
  cfg_scale_factor config = Some JNull \/
  exists fields, cfg_scale_factor config = Some (JObj fields).

(** ** The byte codec *)

(** The source decodes sensor values and never encodes one.  Its decoders
    are [unpack_f] ("Real32"), [unpack_h] ("Int16"), the product of a
    register word with the scale factor, [py_mul] ("HoldingRegisterScaled"),
    and the combination of two register words that follows
    ("HoldingRegisterFloat32"). *)















(** ** Concrete inputs *)

(** A Siemens client that is connected on socket 0, and one for Schneider. *)
Definition s7_live : s7_client :=
  {| s7_ip_address := "192.168.1.100"; s7_rack := 0; s7_slot := 1;
     s7_socket := Some 0%nat; s7_connected := true; s7_connection_id := 0 |}.

Definition modicon_live : modicon_client :=
  {| mb_ip_address := "192.168.1.101"; mb_port := 502; mb_unit_id := 1;
     mb_socket := Some 0%nat; mb_connected := true; mb_transaction_id := 0 |}.

(** A world with that one client object, at reference 0 and registered for
    factory ["f1"], and a network that will do [evs]. *)
Definition world_of (o : object) (evs : list net_event) : world :=
  {| net := evs; wire := []; open_sockets := {[0%nat]}; heap := {[0%nat := o]};
     clock := 7%nat;
     factories :=
       {["f1" := {| plc_type := Some match o with
                                     | Siemens _ => "siemens_s7"
                                     | Schneider _ => "schneider_modicon"
                                     end;
                    plc_ip := Some "192.168.1.100"; plc_port := None |}]};
     siemens_clients := match o with Siemens _ => {["f1" := 0%nat]} | _ => ∅ end;
     schneider_clients := match o with Schneider _ => {["f1" := 0%nat]} | _ => ∅ end;
     active_connections :=
       {["f1" := {| conn_type := match o with
                                 | Siemens _ => "siemens"
                                 | Schneider _ => "schneider"
                                 end;
                    conn_client := 0%nat; conn_connected_at := 3%nat |}]} |}.

(** S7 read responses: status 0xFF, then a payload of four bytes (the REAL
    25.0), and one that declares and carries two bytes only. *)
Definition s7_response (declared : list byte) (payload : bytes) : bytes :=
  repeat x00 21 ++ [xff; x04] ++ declared ++ payload.

Definition response_real_25 : bytes := s7_response [x00; x04] [x41; xc8; x00; x00].

Definition response_two_bytes : bytes := s7_response [x00; x02] [x41; xc8].

(** The answer of a PLC that accepts the ISO connection request. *)
Definition connection_confirm : bytes := [x03; x00; x00; x16; x11; xd0; x00; x01].

(** A Modbus answer to a write of one register that echoes function 6. *)
Definition write_ack : bytes :=
  [x00; x01; x00; x00; x00; x06; x01; x06; x03; xe8; x00; x01].

(** A Modbus exception answer to a write of one register: function 6 with
    the error flag, exception code 2. *)
Definition write_nak : bytes := [x00; x01; x00; x00; x00; x03; x01; x86; x02].

(** An S7 answer to a write with the status 0xFF at offset 21. *)
Definition s7_write_ok : bytes := repeat x00 21 ++ [xff].

(** A machine with two REAL sensors in data block 1. *)
Definition two_reals : list (string * sensor_cfg) :=
  [ ("pressure",
     {| cfg_db_number := Some 1; cfg_address := Some 4; cfg_data_type := Some "real";
        cfg_scale_factor := None; cfg_unit := Some "bar" |});
    ("temperature",
     {| cfg_db_number := Some 1; cfg_address := Some 0; cfg_data_type := None;
        cfg_scale_factor := None; cfg_unit := Some "C" |}) ].

(** A Modbus read answer with one register of value 230. *)
Definition one_register_230 : bytes :=
  [x00; x01; x00; x00; x00; x05; x01; x03; x02; x00; xe6].

(** A Schneider client that has made 65535 requests on its connection. *)
Definition modicon_worn : modicon_client :=
  {| mb_ip_address := "192.168.1.101"; mb_port := 502; mb_unit_id := 1;
     mb_socket := Some 0%nat; mb_connected := true; mb_transaction_id := 65535 |}.

(** A Modbus read answer with two registers that hold the REAL 25.0, and
    a sensor that is configured as such a float at address 10. *)
Definition two_registers_25 : bytes :=
  [x00; x01; x00; x00; x00; x07; x01; x03; x04; x41; xc8; x00; x00].

Definition float_sensor : sensor_cfg :=
  {| cfg_db_number := None; cfg_address := Some 10;
     cfg_data_type := Some "holding_register_float";
     cfg_scale_factor := None; cfg_unit := Some "C" |}.

(** A sensor whose configuration has ['scale_factor': null]. *)
Definition unscaled_sensor : sensor_cfg :=
  {| cfg_db_number := None; cfg_address := Some 1000;
     cfg_data_type := Some "holding_register";
     cfg_scale_factor := Some JNull; cfg_unit := Some "V" |}.

(** A database with a Siemens factory ["f1"] and a Schneider factory
    ["f2"]; a service that has connected to the first, the network letting
    the Siemens transport connect, send its connection request and receive
    the confirmation; and the service after it has connected to the second
    too, the network letting the Schneider transport connect. *)
Definition two_factories : gmap string Factory :=
  {[ "f1" := {| plc_type := Some "siemens_s7"; plc_ip := Some "192.168.1.100";
                plc_port := None |};
     "f2" := {| plc_type := Some "schneider_modicon"; plc_ip := Some "192.168.1.101";
                plc_port := Some 502 |} ]}.

Definition siemens_connected : world :=
  (api (Connect "f1")
     (fresh_service [Done []; Done []; Done connection_confirm; Done []] 0
        two_factories)).1.

Definition both_connected : world := (api (Connect "f2") siemens_connected).1.

(** * Properties *)

(** ** Bytes and [struct] *)

Section Bytes.

Lemma int_of_byte_range (b : byte) : 0 <= int_of_byte b < 256.
Proof.
  unfold int_of_byte. pose proof (Byte.to_N_bounded b). lia.
Qed.

Lemma byte_of_int_of_byte (b : byte) : byte_of_int (int_of_byte b) = Return b.
Proof.
  unfold byte_of_int. pose proof (int_of_byte_range b) as Hr.
  replace ((0 <=? int_of_byte b) && (int_of_byte b <? 256)) with true
    by (symmetry; apply andb_true_iff; lia).
  unfold int_of_byte. rewrite N2Z.id, Byte.of_to_N. reflexivity.
Qed.

Lemma byte_of_int_Return (v : Z) (b : byte) :
  byte_of_int v = Return b -> int_of_byte b = v.
Proof.
  unfold byte_of_int.
  destruct ((0 <=? v) && (v <? 256)) eqn:Hv; [|discriminate].
  apply andb_true_iff in Hv as [H0 H1].
  destruct (Byte.of_N (Z.to_N v)) as [b'|] eqn:Hb; [|discriminate].
  intros [= <-]. apply Byte.to_of_N in Hb. unfold int_of_byte. lia.
Qed.

Lemma byte_of_int_ok (v : Z) :
  0 <= v < 256 -> exists b, byte_of_int v = Return b /\ int_of_byte b = v.
Proof.
  intros Hv. unfold byte_of_int.
  replace ((0 <=? v) && (v <? 256)) with true by (symmetry; apply andb_true_iff; lia).
  destruct (Byte.of_N (Z.to_N v)) as [b|] eqn:Hb.
  - exists b. split; [reflexivity|]. apply Byte.to_of_N in Hb. unfold int_of_byte. lia.
  - apply Byte.of_N_None_iff in Hb. lia.
Qed.

Lemma be_int_from (acc : Z) (b : bytes) :
  fold_left (fun a x => a * 256 + int_of_byte x) b acc
  = acc * 256 ^ Z.of_nat (length b) + be_int b.
Proof.
  unfold be_int. revert acc. induction b as [|x b IH]; intros acc.
  - simpl. lia.
  - cbn [fold_left length]. rewrite IH, (IH (0 * 256 + int_of_byte x)).
    rewrite Nat2Z.inj_succ, Z.pow_succ_r by lia. lia.
Qed.

Lemma be_int_cons (x : byte) (b : bytes) :
  be_int (x :: b) = int_of_byte x * 256 ^ Z.of_nat (length b) + be_int b.
Proof. unfold be_int at 1. cbn [fold_left]. rewrite be_int_from. lia. Qed.

Lemma be_int_range (b : bytes) : 0 <= be_int b < 256 ^ Z.of_nat (length b).
Proof.
  induction b as [|x b IH].
  - cbn. lia.
  - rewrite be_int_cons. cbn [length]. rewrite Nat2Z.inj_succ, Z.pow_succ_r by lia.
    pose proof (int_of_byte_range x). nia.
Qed.

Lemma be_int_pair (hi lo : byte) :
  be_int [hi; lo] = int_of_byte hi * 256 + int_of_byte lo.
Proof. unfold be_int. cbn. lia. Qed.

Lemma land_255 (v : Z) : Z.land v 255 = v mod 256.
Proof. change 255 with (Z.ones 8). rewrite Z.land_ones by lia. reflexivity. Qed.

(** The bytes that [be_bytes] lists are those of [v mod 256^n]. *)
Lemma bytearray_be_bytes (n : nat) (v : Z) :
  exists b, bytearray (be_bytes n v) = Return b /\ length b = n /\
            be_int b = v mod 256 ^ Z.of_nat n.
Proof.
  induction n as [|n IH].
  - exists []. cbn. rewrite Z.mod_1_r. auto.
  - destruct IH as (b & Hb & Hlen & Hval).
    cbn [be_bytes bytearray].
    destruct (byte_of_int_ok (Z.land (Z.shiftr v (8 * Z.of_nat n)) 255)) as (x & Hx & Hxv).
    { rewrite land_255. apply Z.mod_pos_bound. lia. }
    exists (x :: b). rewrite Hx. cbn [result_bind]. unfold result_map. rewrite Hb.
    cbn [result_bind length]. split; [reflexivity|]. split; [congruence|].
    rewrite be_int_cons, Hxv, Hval, Hlen, land_255.
    rewrite Z.shiftr_div_pow2 by lia.
    rewrite Nat2Z.inj_succ, Z.pow_succ_r by lia.
    replace (2 ^ (8 * Z.of_nat n)) with (256 ^ Z.of_nat n)
      by (change 256 with (2 ^ 8); rewrite <- Z.pow_mul_r by lia; reflexivity).
    assert (0 < 256 ^ Z.of_nat n) by (apply Z.pow_pos_nonneg; lia).
    rewrite (Z.mul_comm 256), Z.rem_mul_r by lia. lia.
Qed.

Lemma pack_field_Return (f : fmt) (v : Z) (b : bytes) :
  pack_field f v = Return b -> length b = fmt_size f /\ be_int b = v.
Proof.
  unfold pack_field.
  destruct ((0 <=? v) && (v <? 2 ^ (8 * Z.of_nat (fmt_size f)))) eqn:Hv; [|discriminate].
  apply andb_true_iff in Hv as [H0 H1].
  destruct (bytearray_be_bytes (fmt_size f) v) as (b' & Hb & Hlen & Hval).
  rewrite Hb. intros [= <-]. split; [exact Hlen|].
  rewrite Hval. apply Z.mod_small.
  replace (256 ^ Z.of_nat (fmt_size f)) with (2 ^ (8 * Z.of_nat (fmt_size f)))
    by (change 256 with (2 ^ 8); rewrite <- Z.pow_mul_r by lia; reflexivity).
  lia.
Qed.

Lemma pack_field_ok (f : fmt) (v : Z) :
  0 <= v < 2 ^ (8 * Z.of_nat (fmt_size f)) -> exists b, pack_field f v = Return b.
Proof.
  intros Hv. unfold pack_field.
  replace ((0 <=? v) && (v <? 2 ^ (8 * Z.of_nat (fmt_size f)))) with true
    by (symmetry; apply andb_true_iff; lia).
  destruct (bytearray_be_bytes (fmt_size f) v) as (b & -> & _). eauto.
Qed.

(** Unpacking what [struct.pack] built gives the fields back. *)
Lemma struct_pack_unpack (fields : list (fmt * Z)) (b : bytes) :
  struct_pack fields = Return b ->
  length b = sum_list (map fmt_size fields.*1) /\
  unpack_fields fields.*1 b = fields.*2.
Proof.
  revert b. induction fields as [|[f v] fields IH]; intros b.
  - cbn. intros [= <-]. auto.
  - cbn [struct_pack]. destruct (pack_field f v) as [x|] eqn:Hx; [|discriminate].
    cbn [result_bind]. unfold result_map.
    destruct (struct_pack fields) as [rest|] eqn:Hrest; [|discriminate].
    cbn [result_bind]. intros [= <-].
    apply pack_field_Return in Hx as [Hlen Hval].
    destruct (IH rest eq_refl) as [IHlen IHval].
    cbn [fmap list_fmap map sum_list fst snd unpack_fields].
    change (list_fmap _ _ fst fields) with (fields.*1).
    change (list_fmap _ _ snd fields) with (fields.*2).
    rewrite length_app, <- Hlen, take_app_length, drop_app_length.
    rewrite Hval, IHval, IHlen. auto.
Qed.

Lemma struct_pack_unpack_Return (fields : list (fmt * Z)) (b : bytes) :
  struct_pack fields = Return b ->
  struct_unpack fields.*1 b = Return fields.*2.
Proof.
  intros H. apply struct_pack_unpack in H as [Hlen Hval].
  unfold struct_unpack. rewrite Hlen, Nat.eqb_refl, Hval. reflexivity.
Qed.

(** The first field of a packed frame, when it is a 16-bit one. *)
Lemma struct_pack_first_H (v : Z) (rest : list (fmt * Z)) (b tail : bytes) :
  struct_pack ((fmt_H, v) :: rest) = Return b -> be_int (take 2 (b ++ tail)) = v.
Proof.
  cbn [struct_pack]. destruct (pack_field fmt_H v) as [x|] eqn:Hx; [|discriminate].
  cbn [result_bind]. unfold result_map.
  destruct (struct_pack rest) as [r|]; [|discriminate].
  cbn [result_bind]. intros [= <-].
  apply pack_field_Return in Hx as [Hlen Hval]. cbn in Hlen.
  rewrite <- app_assoc, <- Hlen, take_app_length. exact Hval.
Qed.

Lemma lor_shiftl_8 (hi lo : Z) :
  0 <= lo < 256 -> Z.lor (Z.shiftl hi 8) lo = hi * 256 + lo.
Proof.
  intros Hlo. rewrite <- Z.add_nocarry_lor.
  - rewrite Z.shiftl_mul_pow2 by lia. reflexivity.
  - apply Z.bits_inj'. intros n Hn. rewrite Z.land_spec, Z.bits_0.
    destruct (Z.lt_ge_cases n 8) as [Hlt|Hge].
    + rewrite Z.shiftl_spec_low by lia. reflexivity.
    + rewrite (Z.bits_above_log2 lo n), andb_false_r; [reflexivity|lia|].
      destruct (Z.eq_dec lo 0) as [->|Hne]; [cbn; lia|].
      apply Z.log2_lt_pow2; [lia|].
      apply Z.lt_le_trans with (2 ^ 8); [lia|].
      apply Z.pow_le_mono_r; lia.
Qed.

(** Bit 7 of a byte, as the source tests it. *)
Lemma truthy_land_128 (b : byte) :
  truthy (Z.land (int_of_byte b) 0x80) = Z.testbit (int_of_byte b) 7.
Proof. destruct b; reflexivity. Qed.

Lemma slice_pair (b : bytes) (i : nat) (x y : byte) :
  b !! i = Some x -> b !! S i = Some y ->
  slice b (Z.of_nat i) (Z.of_nat i + 2) = [x; y].
Proof.
  intros Hx Hy. unfold slice.
  replace (Z.to_nat (Z.of_nat i + 2 - Z.of_nat i)) with 2%nat by lia.
  rewrite Nat2Z.id, (drop_S _ _ _ Hx), (drop_S _ _ _ Hy). reflexivity.
Qed.

End Bytes.

(** ** Running the model in proofs *)

Ltac unfold_m :=
  cbv [bind ret raise try_except lift gets modify next_event socket_send socket_recv
       socket_connect socket_close socket_socket get_s7 put_s7 get_modicon put_modicon
       new_object utcnow set_net set_wire set_open_sockets set_heap set_clock
       set_siemens_clients set_schneider_clients set_active_connections] in *.

Ltac proj_step :=
  cbn [net wire open_sockets heap clock factories siemens_clients schneider_clients
       active_connections fst snd negb] in *.

Ltac proj := proj_step; repeat (progress rewrite lookup_insert_eq; proj_step).

(** Case analysis on the innermost scrutinee of the goal, reusing what is
    known of it already. *)
Ltac split_match :=
  match goal with
  | H : ?x = _ |- context [match ?x with _ => _ end] => rewrite H
  | |- context [match ?x with _ => _ end] =>
      lazymatch x with
      | context [match _ with _ => _ end] => fail
      | _ => destruct x eqn:?
      end
  end.

Ltac run := unfold_m; proj; repeat (split_match; proj).

(** ** The Siemens transport *)

Section Siemens.

Import SiemensS7Client.

Lemma int_of_byte_255 (b : byte) : int_of_byte b = 0xFF -> b = xff.
Proof.
  intros H. pose proof (byte_of_int_of_byte b) as Hb. rewrite H in Hb.
  cbv in Hb. congruence.
Qed.

Lemma _parse_read_response_spec (response : bytes) :
  exists r, _parse_read_response response = Return r /\
            forall data, r = Some data <-> s7_accepted response data.
Proof.
  unfold _parse_read_response, s7_accepted.
  destruct (length response <? 25)%nat eqn:Hlen.
  { apply Nat.ltb_lt in Hlen. exists None. split; [reflexivity|].
    intros data. split; [discriminate|]. intros [? _]. lia. }
  apply Nat.ltb_ge in Hlen.
  destruct (lookup_lt_is_Some_2 response 21) as [b21 H21]; [lia|].
  destruct (lookup_lt_is_Some_2 response 23) as [b23 H23]; [lia|].
  destruct (lookup_lt_is_Some_2 response 24) as [b24 H24]; [lia|].
  unfold getitem. rewrite H21, H23, H24. cbn [result_bind].
  assert (Hdl : Z.lor (Z.shiftl (int_of_byte b23) 8) (int_of_byte b24)
                = declared_length response).
  { unfold declared_length.
    pose proof (slice_pair response 23 b23 b24 H23 H24) as Hs.
    change (slice response 23 25 = [b23; b24]) in Hs. rewrite Hs, be_int_pair.
    apply lor_shiftl_8, int_of_byte_range. }
  rewrite Hdl.
  destruct (int_of_byte b21 =? 255) eqn:Hst.
  - apply Z.eqb_eq, int_of_byte_255 in Hst. subst b21.
    destruct (Z.of_nat (length response) >=? 25 + declared_length response) eqn:Hge.
    + eexists. split; [reflexivity|]. intros data.
      rewrite Z.geb_le in Hge. split.
      * intros [= <-]. auto.
      * intros (_ & _ & _ & ->). reflexivity.
    + exists None. split; [reflexivity|]. intros data. split; [discriminate|].
      intros (_ & _ & Hle & _).
      apply Z.geb_le in Hle. congruence.
  - exists None. split; [reflexivity|]. intros data. split; [discriminate|].
    intros (_ & Hff & _). injection Hff as ->.
    discriminate.
Qed.

Lemma read_db_only_io self db_number start size w :
  only_io w (read_db self db_number start size w).1.
Proof. unfold read_db, only_io, registry. run; done. Qed.

Lemma write_db_only_io self db_number start data w :
  only_io w (write_db self db_number start data w).1.
Proof. unfold write_db, only_io, registry. run; done. Qed.

(** [read_db] never raises, and data come from an accepted response only. *)
Lemma read_db_returns self c db_number start size w :
  heap w !! self = Some (Siemens c) ->
  exists r,
    (read_db self db_number start size w).2 = Return r /\
    forall data, r = Some data ->
      exists sent response rest,
        net w = Done sent :: Done response :: rest /\ s7_accepted response data.
Proof.
  intros Hself. unfold read_db. run; (eexists; split; [reflexivity|]).
  all: intros d' Hd; try discriminate.
  match goal with
  | H : _parse_read_response ?a = Return ?o |- _ =>
      destruct (_parse_read_response_spec a) as (r' & Hr' & Hiff);
      rewrite H in Hr'; injection Hr' as <-
  end.
  do 3 eexists. split; [reflexivity|]. apply Hiff, Hd.
Qed.

End Siemens.

(** C3 (as amended): an S7 read never raises; it yields data only from a
    response of at least 25 bytes whose status byte at offset 21 is 0xFF and
    which holds the payload it declares, and the data are then the payload
    bytes from offset 25 on, as many as bytes 23-24 of the response declare
    (the length asked for in the request is not compared with it).  For
    every other response, and when the exchange does not take place, it
    yields [None]. *)
Theorem read_db_yields_declared_payload
    (self : nat) (c : s7_client) (db_number start size : Z) (w : world)
    (Hself : heap w !! self = Some (Siemens c)) :
  exists r,
    (SiemensS7Client.read_db self db_number start size w).2 = Return r /\
    (forall data, r = Some data ->
       exists sent response rest,
         net w = Done sent :: Done response :: rest /\ s7_accepted response data) /\
    (forall s frame sent response rest,
       s7_connected c = true -> s7_socket c = Some s ->
       SiemensS7Client._build_read_request db_number start size = Return frame ->
       net w = Done sent :: Done response :: rest ->
       forall data, r = Some data <-> s7_accepted response data).
Proof.
  destruct (read_db_returns self c db_number start size w Hself) as (r & Hr & Hsound).
  exists r. split; [exact Hr|]. split; [exact Hsound|].
  intros s frame sent response rest Hc Hs Hframe Hnet data.
  revert Hr. unfold SiemensS7Client.read_db. run; try discriminate.
  all: try match goal with
       | H : negb ?b = true, H' : ?b = true |- _ => rewrite H' in H; discriminate
       end.
  all: simplify_eq.
  all: intros [= <-].
  all: match goal with
       | H : SiemensS7Client._parse_read_response ?a = _ |- _ =>
           destruct (_parse_read_response_spec a) as (r' & Hr' & Hiff);
           rewrite H in Hr'; simplify_eq
       end.
  apply Hiff.
Qed.

(** ** The Modbus transport *)

Section Modbus.

Import SchneiderModiconClient.

Lemma word_step_Return response i values r :
  word_step response i values = Return r ->
  r = values ++ [word_at response i] /\
  length (slice response (9 + i * 2) (11 + i * 2)) = 2%nat.
Proof.
  unfold word_step, word_at, struct_unpack.
  change (sum_list (map fmt_size [fmt_H])) with 2%nat.
  destruct (length (slice response (9 + i * 2) (11 + i * 2)) =? 2)%nat eqn:Hlen;
    [|discriminate].
  apply Nat.eqb_eq in Hlen. cbn [result_bind unpack_fields fmt_size].
  intros [= <-]. rewrite take_ge by lia. split; [reflexivity|lia].
Qed.

Lemma words_Return response items values r :
  for_result items (word_step response) values = Return r ->
  r = values ++ (word_at response <$> items) /\
  Forall (fun i => length (slice response (9 + i * 2) (11 + i * 2)) = 2%nat) items.
Proof.
  revert values. induction items as [|i items IH]; intros values.
  - cbn. intros [= <-]. rewrite app_nil_r. auto.
  - cbn [for_result]. destruct (word_step response i values) as [v|] eqn:Hstep;
      [|discriminate].
    cbn [result_bind]. intros Hrest.
    apply word_step_Return in Hstep as [-> Hlen].
    apply IH in Hrest as [-> Hall].
    rewrite <- app_assoc. auto.
Qed.

Lemma word_step_ok response i values :
  length (slice response (9 + i * 2) (11 + i * 2)) = 2%nat ->
  word_step response i values = Return (values ++ [word_at response i]).
Proof.
  intros Hi. unfold word_step, word_at, struct_unpack.
  change (sum_list (map fmt_size [fmt_H])) with 2%nat.
  rewrite Hi. cbn [Nat.eqb result_bind unpack_fields fmt_size].
  rewrite take_ge by lia. reflexivity.
Qed.

Lemma words_ok response items values :
  Forall (fun i => length (slice response (9 + i * 2) (11 + i * 2)) = 2%nat) items ->
  for_result items (word_step response) values
  = Return (values ++ (word_at response <$> items)).
Proof.
  intros Hall. revert values. induction Hall as [|i items Hi _ IH]; intros values.
  - cbn. rewrite app_nil_r. reflexivity.
  - cbn [for_result]. rewrite (word_step_ok _ _ _ Hi). cbn [result_bind].
    rewrite IH, <- app_assoc. reflexivity.
Qed.

Lemma slice_length_2 (response : bytes) (i : Z) :
  0 <= i ->
  (length (slice response (9 + i * 2) (11 + i * 2)) = 2%nat
   <-> 11 + i * 2 <= Z.of_nat (length response)).
Proof.
  intros Hi. unfold slice. rewrite length_take, length_drop. lia.
Qed.

Lemma _parse_read_registers_response_short (response : bytes) :
  (length response < 9)%nat -> _parse_read_registers_response response = Return None.
Proof.
  intros H. unfold _parse_read_registers_response.
  apply Nat.ltb_lt in H. rewrite H. reflexivity.
Qed.

Lemma _parse_read_registers_response_long (response : bytes) (fc : byte) :
  (9 <= length response)%nat -> response !! 7%nat = Some fc ->
  _parse_read_registers_response response =
    if Z.testbit (int_of_byte fc) 7 then Return None
    else result_map Some
           (for_result (range (be_int (slice response 8 9) / 2)) (word_step response) []).
Proof.
  intros Hlen H7.
  do 9 (destruct response as [|? response]; [cbn in Hlen; lia|]).
  cbn in H7. injection H7 as ->.
  unfold _parse_read_registers_response.
  replace (length _ <? 9)%nat with false by (symmetry; apply Nat.ltb_ge; exact Hlen).
  rewrite <- truthy_land_128. reflexivity.
Qed.

Lemma _parse_read_registers_response_error (response : bytes) (fc : byte) :
  response !! 7%nat = Some fc -> Z.testbit (int_of_byte fc) 7 = true ->
  _parse_read_registers_response response = Return None.
Proof.
  intros H7 Hbit. destruct (Nat.lt_ge_cases (length response) 9) as [Hs|Hl].
  - apply _parse_read_registers_response_short, Hs.
  - rewrite (_parse_read_registers_response_long response fc Hl H7), Hbit. reflexivity.
Qed.

Lemma _parse_read_registers_response_spec (response : bytes) (values : list Z) :
  _parse_read_registers_response response = Return (Some values)
  <-> modbus_accepted response /\ values = register_words response.
Proof.
  unfold modbus_accepted, register_words.
  destruct (Nat.lt_ge_cases (length response) 9) as [Hs|Hl].
  { rewrite _parse_read_registers_response_short by exact Hs.
    split; [discriminate|]. intros [[? _] _]. lia. }
  destruct (lookup_lt_is_Some_2 response 7) as [fc H7]; [lia|].
  rewrite (_parse_read_registers_response_long response fc Hl H7).
  set (n := be_int (slice response 8 9) / 2).
  assert (Hn : 0 <= n).
  { apply Z.div_pos; [|lia]. apply be_int_range. }
  assert (Hall : 9 + 2 * n <= Z.of_nat (length response) <->
                 Forall (fun i => length (slice response (9 + i * 2) (11 + i * 2)) = 2%nat)
                        (range n)).
  { unfold range. rewrite Forall_seqZ. split.
    - intros Hle i Hi. apply slice_length_2; lia.
    - intros Hi. destruct (Z.eq_dec n 0) as [->|Hne]; [lia|].
      specialize (Hi (n - 1) ltac:(lia)). apply slice_length_2 in Hi; lia. }
  destruct (Z.testbit (int_of_byte fc) 7) eqn:Hbit.
  { split; [discriminate|]. intros [(_ & (fc' & Hfc' & Hb) & _) _]. congruence. }
  unfold result_map. split.
  - destruct (for_result (range n) (word_step response) []) as [vs|] eqn:Hvs;
      [|discriminate].
    cbn [result_bind]. intros [= <-].
    apply words_Return in Hvs as [-> Hf]. rewrite app_nil_l.
    split; [|reflexivity]. split; [exact Hl|]. split; [eauto|]. apply Hall, Hf.
  - intros [(_ & _ & Hle) ->]. apply Hall in Hle.
    rewrite (words_ok response (range n) [] Hle). reflexivity.
Qed.

(** [read_holding_registers] never raises, and register values come from an
    accepted response only. *)
Lemma read_holding_registers_returns self c address count w :
  heap w !! self = Some (Schneider c) ->
  exists r,
    (read_holding_registers self address count w).2 = Return r /\
    forall values, r = Some values ->
      exists sent response rest,
        net w = Done sent :: Done response :: rest /\
        modbus_accepted response /\ values = register_words response.
Proof.
  intros Hself.
  unfold read_holding_registers, next_transaction, _build_modbus_request.
  run; (eexists; split; [reflexivity|]); intros values Hv; try discriminate.
  subst.
  match goal with
  | H : _parse_read_registers_response ?a = Return _ |- _ =>
      apply _parse_read_registers_response_spec in H as [Hacc ->]
  end.
  do 3 eexists. split; [reflexivity|]. auto.
Qed.

(** The exchange of [read_holding_registers] on a connected client whose
    ids fit their fields, when the request goes out and an answer comes
    back: the request is on the wire, and the result is what the answer
    decodes to, [None] standing in for a decode error. *)
Lemma read_holding_registers_connected self c s address count sent response rest w :
  heap w !! self = Some (Schneider c) ->
  mb_connected c = true -> mb_socket c = Some s ->
  0 <= mb_transaction_id c + 1 < 65536 -> 0 <= mb_unit_id c < 256 ->
  0 <= address < 65536 -> 0 <= count < 65536 ->
  net w = Done sent :: Done response :: rest ->
  let r := read_holding_registers self address count w in
  exists request,
    struct_unpack modbus_request_fmt request
      = Return [mb_transaction_id c + 1; 0; 6; mb_unit_id c; 3; address; count] /\
    wire r.1 = wire w ++ [request] /\
    r.2 = Return match _parse_read_registers_response response with
                 | Return values => values
                 | Raise _ => None
                 end.
Proof.
  intros Hself Hconn Hsock Htid Hunit Haddr Hcount Hnet.
  assert (Hpack : exists f,
    struct_pack [(fmt_H, mb_transaction_id c + 1); (fmt_H, 0); (fmt_H, 6);
                 (fmt_B, mb_unit_id c); (fmt_B, 3); (fmt_H, address); (fmt_H, count)]
      = Return f).
  { cbn [struct_pack].
    destruct (pack_field_ok fmt_H (mb_transaction_id c + 1)) as [b1 ->]; [cbn; lia|].
    destruct (pack_field_ok fmt_H 0) as [b2 ->]; [cbn; lia|].
    destruct (pack_field_ok fmt_H 6) as [b3 ->]; [cbn; lia|].
    destruct (pack_field_ok fmt_B (mb_unit_id c)) as [b4 ->]; [cbn; lia|].
    destruct (pack_field_ok fmt_B 3) as [b5 ->]; [cbn; lia|].
    destruct (pack_field_ok fmt_H address) as [b6 ->]; [cbn; lia|].
    destruct (pack_field_ok fmt_H count) as [b7 ->]; [cbn; lia|].
    cbn. eauto. }
  destruct Hpack as [f Hf]. exists f.
  split; [exact (struct_pack_unpack_Return _ _ Hf)|].
  unfold read_holding_registers, next_transaction, _build_modbus_request.
  cbn zeta. run; try discriminate.
  all: try match goal with
       | H : negb (mb_connected _) = true |- _ => rewrite Hconn in H; discriminate
       end.
  all: cbn [with_transaction_id mb_transaction_id mb_unit_id mb_socket mb_connected] in *.
  all: try congruence.
  all: split; congruence.
Qed.

End Modbus.

(** C7: a Modbus read never raises, and whatever it returns as register
    values comes from an answer that is accepted.  On a connected client
    whose ids fit their fields, when the request goes out and an answer
    comes back, the request that went out is the read (function 3) of
    [count] registers from [address]; an answer shorter than the header of
    nine bytes, or whose function-code byte has the bit 0x80 set, makes
    the read return [None]; and the read returns register values exactly
    when the answer is accepted, the values being [byte_count / 2]
    big-endian 16-bit words taken from offset 9 of the answer.  The three
    facts hold of the decoder on any answer as well. *)
Theorem read_holding_registers_decodes_register_words
    (self : nat) (c : modicon_client) (address count : Z) (w : world)
    (Hself : heap w !! self = Some (Schneider c)) :
  let r := SchneiderModiconClient.read_holding_registers self address count w in
  (exists result,
     r.2 = Return result /\
     forall values, result = Some values ->
       exists sent response rest,
         net w = Done sent :: Done response :: rest /\
         modbus_accepted response /\ values = register_words response) /\
  (forall s sent response rest,
     mb_connected c = true -> mb_socket c = Some s ->
     0 <= mb_transaction_id c + 1 < 65536 -> 0 <= mb_unit_id c < 256 ->
     0 <= address < 65536 -> 0 <= count < 65536 ->
     net w = Done sent :: Done response :: rest ->
     (exists request,
        wire r.1 = wire w ++ [request] /\
        struct_unpack modbus_request_fmt request
          = Return [mb_transaction_id c + 1; 0; 6; mb_unit_id c; 3; address; count]) /\
     ((length response < 9)%nat -> r.2 = Return None) /\
     (forall fc,
        response !! 7%nat = Some fc -> Z.testbit (int_of_byte fc) 7 = true ->
        r.2 = Return None) /\
     (forall values,
        r.2 = Return (Some values)
        <-> modbus_accepted response /\ values = register_words response)) /\
  (forall response,
     (length response < 9)%nat ->
     SchneiderModiconClient._parse_read_registers_response response = Return None) /\
  (forall response fc,
     response !! 7%nat = Some fc -> Z.testbit (int_of_byte fc) 7 = true ->
     SchneiderModiconClient._parse_read_registers_response response = Return None) /\
  (forall response values,
     SchneiderModiconClient._parse_read_registers_response response = Return (Some values)
     <-> modbus_accepted response /\ values = register_words response).
Proof.
  cbn zeta. split; [|split; [|split; [|split]]].
  - apply (read_holding_registers_returns self c address count w Hself).
  - intros s sent response rest Hconn Hsock Htid Hunit Haddr Hcount Hnet.
    destruct (read_holding_registers_connected self c s address count sent response rest w
                Hself Hconn Hsock Htid Hunit Haddr Hcount Hnet)
      as (request & Hrequest & Hwire & Hres).
    cbn zeta in Hwire, Hres. split; [eauto|]. rewrite Hres. split; [|split].
    + intros Hshort. rewrite _parse_read_registers_response_short by exact Hshort.
      reflexivity.
    + intros fc H7 Hbit.
      rewrite (_parse_read_registers_response_error response fc H7 Hbit). reflexivity.
    + intros values. rewrite <- _parse_read_registers_response_spec.
      destruct (SchneiderModiconClient._parse_read_registers_response response);
        split; congruence.
  - apply _parse_read_registers_response_short.
  - apply _parse_read_registers_response_error.
  - apply _parse_read_registers_response_spec.
Qed.

(** C3 (counterexample): a read of four bytes that is answered with status
    0xFF and a declared payload of two bytes returns those two bytes, not
    four. *)
Lemma read_db_returns_the_declared_two_bytes :
  let w := world_of (Siemens s7_live) [Done []; Done response_two_bytes] in
  exists data,
    (SiemensS7Client.read_db 0 1 0 4 w).2 = Return (Some data) /\
    Z.of_nat (length data) <> 4.
Proof. exists [x41; xc8]. split; [vm_compute; reflexivity|cbn; lia]. Qed.

(** ** No operation tears the connection down *)

(** C4 (as amended): when the exchange of a transport operation (S7 read or
    write, Modbus read or write) fails at the socket, the operation reports
    failure and the client stays as connected as it was: its [connected]
    flag is still true, it still holds its socket, and the socket is still
    open. *)
Theorem failed_exchange_leaves_client_connected
    (self : nat) (o : object) (s : nat) (call : transport_call) (w : world)
    (Hself : heap w !! self = Some o)
    (Hcall : method_of o call)
    (Hconn : connected_on o s)
    (Hopen : s ∈ open_sockets w)
    (Hfail : exchange_fails (net w)) :
  let r := perform self call w in
  r.2 = Return false /\
  (exists o', heap r.1 !! self = Some o' /\ connected_on o' s) /\
  s ∈ open_sockets r.1.
Proof.
  destruct (net w) as [|[|sent] [|[|response] rest]] eqn:Hnet;
    cbn in Hfail; try contradiction.
  all: destruct o as [c|c], call as [[]|[]]; cbn in Hcall; try contradiction;
    destruct Hconn as [Hc Hs].
  all: unfold perform, SiemensS7Client.read_db, SiemensS7Client.write_db,
         SchneiderModiconClient.read_holding_registers,
         SchneiderModiconClient.write_single_register,
         SchneiderModiconClient.write_multiple_registers,
         SchneiderModiconClient.next_transaction,
         SchneiderModiconClient._build_modbus_request,
         SchneiderModiconClient._build_modbus_write_multiple_request.
  all: run; try discriminate.
  all: (split; [reflexivity|]); (split; [|assumption]).
  all: eexists; (split; [first [eassumption | reflexivity]|]).
  all: cbn; auto.
Qed.

(** C4 (counterexample): the receive of an S7 read times out; the client is
    still marked connected and its socket is still open. *)
Lemma read_timeout_keeps_connection :
  let w := world_of (Siemens s7_live) [Done []; Fails] in
  let r := perform 0 (OnSiemens (ReadDb 1 0 4)) w in
  r.2 = Return false /\
  exists c, heap r.1 !! 0%nat = Some (Siemens c) /\
            s7_connected c = true /\ s7_socket c = Some 0%nat /\
            0%nat ∈ open_sockets r.1.
Proof.
  split; [vm_compute; reflexivity|].
  exists s7_live. split; [vm_compute; reflexivity|].
  split; [reflexivity|]. split; [reflexivity|].
  vm_compute. reflexivity.
Qed.

Lemma failed_exchange_leaves_client_connected_witness :
  let w := world_of (Schneider modicon_live) [Done []; Fails] in
  let r := perform 0 (OnSchneider (WriteSingleRegister 1000 1)) w in
  r.2 = Return false /\
  (exists o', heap r.1 !! 0%nat = Some o' /\ connected_on o' 0) /\
  0%nat ∈ open_sockets r.1.
Proof.
  apply (failed_exchange_leaves_client_connected 0 (Schneider modicon_live) 0).
  - reflexivity.
  - exact I.
  - split; reflexivity.
  - vm_compute. reflexivity.
  - exact I.
Defined.

(** ** Modbus transaction ids *)

Section TransactionIds.

Import SchneiderModiconClient.

(** One Modbus call on a connected client: the transaction id goes up by
    one, and the frame that is sent, if one is, carries the new id. *)
Lemma modbus_call_step self c call w :
  heap w !! self = Some (Schneider c) ->
  mb_connected c = true ->
  let r := perform self (OnSchneider call) w in
  exists b frames,
    r.2 = Return b /\
    wire r.1 = wire w ++ frames /\
    (frames = [] \/
     exists f, frames = [f] /\ transaction_id_of f = mb_transaction_id c + 1) /\
    heap r.1 = <[self := Schneider (with_transaction_id (mb_transaction_id c + 1) c)]>
                 (heap w).
Proof.
  intros Hself Hconn. destruct call.
  all: unfold perform, read_holding_registers, write_single_register,
         write_multiple_registers, next_transaction, _build_modbus_request,
         _build_modbus_write_multiple_request.
  all: run; try discriminate.
  all: try match goal with
       | H : negb (mb_connected _) = true |- _ => rewrite Hconn in H; discriminate
       end.
  all: do 2 eexists; (split; [reflexivity|]).
  all: first [ split; [symmetry; apply app_nil_r|]; split; [left; reflexivity|reflexivity]
             | split; [reflexivity|]; split; [|reflexivity] ].
  all: right; eexists; split; [reflexivity|]; unfold transaction_id_of.
  all: match goal with
       | H : struct_pack ((fmt_H, _) :: _) = Return ?a |- context [take 2 (?a ++ ?t)] =>
           apply (struct_pack_first_H _ _ a t) in H; exact H
       | H : struct_pack ((fmt_H, _) :: _) = Return ?a |- context [take 2 ?a] =>
           apply (struct_pack_first_H _ _ a []) in H; rewrite app_nil_r in H; exact H
       end.
Qed.

Lemma perform_all_cons self call calls w :
  perform_all self (call :: calls) w =
  match perform self (OnSchneider call) w with
  | (w', Return _) => perform_all self calls w'
  | (w', Raise e) => (w', Raise e)
  end.
Proof.
  unfold perform_all. cbn [for_each]. unfold bind, ret.
  destruct (perform self (OnSchneider call) w) as [w' [b|e]]; reflexivity.
Qed.

Lemma transaction_ids_of_calls self calls : forall c w,
  heap w !! self = Some (Schneider c) ->
  mb_connected c = true ->
  let w' := (perform_all self calls w).1 in
  exists frames c',
    wire w' = wire w ++ frames /\
    StronglySorted Z.lt (transaction_id_of <$> frames) /\
    Forall (fun f => mb_transaction_id c < transaction_id_of f
                     <= mb_transaction_id c + Z.of_nat (length calls)) frames /\
    heap w' !! self = Some (Schneider c') /\
    mb_connected c' = true /\
    mb_transaction_id c' = mb_transaction_id c + Z.of_nat (length calls).
Proof.
  induction calls as [|call calls IH]; intros c w Hself Hconn.
  - exists [], c. cbn. rewrite app_nil_r, Z.add_0_r.
    repeat split; auto. constructor.
  - cbn zeta. rewrite perform_all_cons.
    destruct (modbus_call_step self c call w Hself Hconn)
      as (b & frames1 & Hres & Hwire & Hframes & Hheap).
    cbn zeta in *.
    destruct (perform self (OnSchneider call) w) as [w1 r1]. cbn [fst snd] in *.
    subst r1.
    set (c1 := with_transaction_id (mb_transaction_id c + 1) c) in *.
    assert (Hself1 : heap w1 !! self = Some (Schneider c1))
      by (rewrite Hheap, lookup_insert_eq; reflexivity).
    destruct (IH c1 w1 Hself1 Hconn) as (frames & c' & Hw & Hsorted & Hall & Hc' & Hcc & Htid).
    cbn zeta in *. cbn [mb_transaction_id c1 with_transaction_id] in Hall, Htid.
    exists (frames1 ++ frames), c'.
    split; [rewrite Hw, Hwire, app_assoc; reflexivity|].
    assert (Hall' : Forall (fun f => mb_transaction_id c + 1 < transaction_id_of f
                         <= mb_transaction_id c + Z.of_nat (length (call :: calls))) frames).
    { eapply Forall_impl; [exact Hall|]. cbn [length]. intros f Hf. cbn beta in Hf. lia. }
    split; [|split; [|split; [exact Hc'|split; [exact Hcc|cbn [length]; lia]]]].
    + destruct Hframes as [->|(f & -> & Hf)]; [exact Hsorted|].
      cbn [app fmap list_fmap]. constructor; [exact Hsorted|].
      rewrite Hf. apply Forall_fmap. eapply Forall_impl; [exact Hall'|].
      intros g Hg. cbn beta in *. unfold compose. lia.
    + apply Forall_app. split.
      * destruct Hframes as [->|(f & -> & Hf)]; [constructor|].
        constructor; [|constructor]. rewrite Hf. cbn [length]. lia.
      * eapply Forall_impl; [exact Hall'|]. intros g Hg. cbn beta in *. lia.
Qed.

End TransactionIds.

(** C9: on one connected Modbus client, every operation
    ([read_holding_registers], [write_single_register],
    [write_multiple_registers]) moves the transaction id on by exactly one
    before its request, and over any sequence of operations the ids of the
    frames that go on the wire increase strictly. *)
Theorem transaction_ids_increase_strictly
    (self : nat) (c : modicon_client) (calls : list modbus_call) (w : world)
    (Hself : heap w !! self = Some (Schneider c))
    (Hconn : mb_connected c = true) :
  (forall call,
     let r := perform self (OnSchneider call) w in
     (exists c', heap r.1 !! self = Some (Schneider c') /\
                 mb_transaction_id c' = mb_transaction_id c + 1) /\
     (forall f, wire r.1 = wire w ++ [f] ->
                transaction_id_of f = mb_transaction_id c + 1)) /\
  (let w' := (perform_all self calls w).1 in
   exists frames c',
     wire w' = wire w ++ frames /\
     StronglySorted Z.lt (transaction_id_of <$> frames) /\
     Forall (fun f => mb_transaction_id c < transaction_id_of f) frames /\
     heap w' !! self = Some (Schneider c') /\
     mb_transaction_id c' = mb_transaction_id c + Z.of_nat (length calls)).
Proof.
  split.
  - intros call. cbn zeta.
    destruct (modbus_call_step self c call w Hself Hconn)
      as (b & frames & Hres & Hwire & Hframes & Hheap).
    cbn zeta in *. split.
    + eexists. rewrite Hheap, lookup_insert_eq. split; reflexivity.
    + intros f Hf. rewrite Hwire in Hf. apply app_inv_head in Hf.
      destruct Hframes as [->|(f' & -> & Hf')]; [discriminate|].
      injection Hf as <-. exact Hf'.
  - cbn zeta.
    destruct (transaction_ids_of_calls self calls c w Hself Hconn)
      as (frames & c' & Hw & Hsorted & Hall & Hc' & _ & Htid).
    exists frames, c'. repeat split; auto.
    eapply Forall_impl; [exact Hall|]. intros f Hf. cbn beta in Hf. lia.
Qed.

(** ** Alerts *)

Section Alerts.

Import PLCIntegrationService.

Lemma severity_value_known :
  severity_value (Alert (Some (JStr "low"))) = Return 1 /\
  severity_value (Alert (Some (JStr "medium"))) = Return 2 /\
  severity_value (Alert (Some (JStr "high"))) = Return 3 /\
  severity_value (Alert (Some (JStr "critical"))) = Return 4.
Proof. repeat split; vm_compute; reflexivity. Qed.

Lemma severity_map_lookup (s : string) :
  severity_map !! s =
    if decide (s = "low") then Some 1
    else if decide (s = "medium") then Some 2
    else if decide (s = "high") then Some 3
    else if decide (s = "critical") then Some 4
    else None.
Proof.
  unfold severity_map.
  repeat (rewrite lookup_insert; destruct (decide (_ = s)) as [<-|?];
          [reflexivity|]; destruct (decide (s = _)); [congruence|]).
  apply lookup_empty.
Qed.

(** A severity that can be looked up, or none, gives one of the four
    values. *)
Lemma severity_value_hashable (alert_data : alert) :
  match alert_severity alert_data with
  | Some severity => hashable severity = true
  | None => True
  end ->
  exists v, severity_value alert_data = Return v /\
            (v = 1 \/ v = 2 \/ v = 3 \/ v = 4).
Proof.
  unfold severity_value.
  destruct (alert_severity alert_data) as [severity|]; cbn [default from_option id].
  - intros Hh. destruct severity as [| | |name| |]; try discriminate Hh;
      cbn [hashable]; try (exists 1; split; [reflexivity|auto]).
    rewrite severity_map_lookup.
    repeat (destruct (decide _); [cbn; eauto 10|]). cbn. eauto.
  - intros _. cbn [hashable]. rewrite severity_map_lookup. cbn. eauto.
Qed.

Lemma severity_value_unknown (alert_data : alert) :
  unknown_severity alert_data -> severity_value alert_data = Return 1.
Proof.
  unfold unknown_severity, severity_value.
  destruct (alert_severity alert_data) as [severity|] eqn:Hs; cbn [default from_option id];
    [|intros _; vm_compute; reflexivity].
  intros [Hh Hunknown]. destruct severity as [| | |s| |]; try discriminate Hh;
    cbn [hashable]; try reflexivity.
  rewrite severity_map_lookup.
  assert (Hnot : forall name, name ∈ ["low"; "medium"; "high"; "critical"] -> s <> name).
  { intros name Hin ->. apply Hunknown. exists name. auto. }
  repeat (destruct (decide (s = _)) as [Heq|_];
          [exfalso; revert Heq; apply Hnot;
           repeat first [apply list_elem_of_here | apply list_elem_of_further]|]).
  reflexivity.
Qed.

Lemma severity_value_unhashable (severity : json) :
  hashable severity = false -> severity_value (Alert (Some severity)) = Raise TypeError.
Proof. unfold severity_value. cbn. intros ->. reflexivity. Qed.

(** An alert whose severity cannot be looked up is written nowhere:
    [TypeError] is raised before the first request, and the facade turns
    it into [False]. *)
Lemma write_alert_to_plc_unhashable factory_id severity w :
  hashable severity = false ->
  write_alert_to_plc factory_id (Alert (Some severity)) w = (w, Return false).
Proof.
  intros Hx. unfold write_alert_to_plc, _write_siemens_alert, _write_schneider_alert.
  rewrite (severity_value_unhashable severity Hx). run; reflexivity.
Qed.

End Alerts.

Section AlertFrames.

Import PLCIntegrationService.

Lemma s7_parse_write_response_eq (response : bytes) :
  SiemensS7Client._parse_write_response response
  = Return ((22 <=? length response)%nat &&
            match response !! 21%nat with
            | Some status => int_of_byte status =? 0xFF
            | None => false
            end).
Proof.
  unfold SiemensS7Client._parse_write_response.
  destruct (length response <? 22)%nat eqn:Hlen.
  - apply Nat.ltb_lt in Hlen.
    replace (22 <=? length response)%nat with false by (symmetry; apply Nat.leb_gt; lia).
    reflexivity.
  - apply Nat.ltb_ge in Hlen.
    replace (22 <=? length response)%nat with true by (symmetry; apply Nat.leb_le; lia).
    destruct (lookup_lt_is_Some_2 response 21) as [status H21]; [lia|].
    unfold getitem. rewrite H21. reflexivity.
Qed.

Lemma modbus_parse_write_response_eq (response : bytes) :
  SchneiderModiconClient._parse_write_response response
  = Return ((8 <=? length response)%nat &&
            match response !! 7%nat with
            | Some func_code => negb (Z.testbit (int_of_byte func_code) 7)
            | None => false
            end).
Proof.
  unfold SchneiderModiconClient._parse_write_response.
  destruct (length response <? 8)%nat eqn:Hlen.
  - apply Nat.ltb_lt in Hlen.
    replace (8 <=? length response)%nat with false by (symmetry; apply Nat.leb_gt; lia).
    reflexivity.
  - apply Nat.ltb_ge in Hlen.
    replace (8 <=? length response)%nat with true by (symmetry; apply Nat.leb_le; lia).
    destruct (lookup_lt_is_Some_2 response 7) as [func_code H7]; [lia|].
    unfold getitem. rewrite H7. cbn [result_map result_bind andb].
    rewrite truthy_land_128. reflexivity.
Qed.

Lemma write_acknowledged_true (evs : list net_event) :
  write_acknowledged evs = true
  <-> exists sent response rest fc,
        evs = Done sent :: Done response :: rest /\
        (8 <= length response)%nat /\
        response !! 7%nat = Some fc /\ Z.testbit (int_of_byte fc) 7 = false.
Proof.
  unfold write_acknowledged. split.
  - destruct evs as [|[|sent] [|[|response] rest]]; try discriminate.
    intros H. apply andb_true_iff in H as [Hlen H7]. apply Nat.leb_le in Hlen.
    destruct (response !! 7%nat) as [fc|] eqn:Hfc; [|discriminate].
    apply negb_true_iff in H7. exists sent, response, rest, fc. auto.
  - intros (sent & response & rest & fc & -> & Hlen & -> & Hbit).
    rewrite Hbit. apply Nat.leb_le in Hlen. rewrite Hlen. reflexivity.
Qed.

(** What [write_single_register] does on a connected client whose ids fit
    their fields: one frame goes on the wire, and the result is whether
    the exchange went through with an answer free of the error flag. *)
Lemma write_single_register_connected self c s address value w :
  heap w !! self = Some (Schneider c) ->
  mb_connected c = true -> mb_socket c = Some s ->
  0 <= mb_transaction_id c + 1 < 65536 -> 0 <= mb_unit_id c < 256 ->
  0 <= address < 65536 -> 0 <= value < 65536 ->
  let r := SchneiderModiconClient.write_single_register self address value w in
  exists f,
    struct_unpack modbus_request_fmt f
      = Return [mb_transaction_id c + 1; 0; 6; mb_unit_id c; 6; address; value] /\
    wire r.1 = wire w ++ [f] /\
    r.2 = Return (write_acknowledged (net w)) /\
    net r.1 = after_exchange (net w) /\
    heap r.1 = <[self := Schneider (SchneiderModiconClient.with_transaction_id
                                      (mb_transaction_id c + 1) c)]> (heap w).
Proof.
  intros Hself Hconn Hsock Htid Hunit Haddr Hval.
  assert (Hpack : exists f,
    struct_pack [(fmt_H, mb_transaction_id c + 1); (fmt_H, 0); (fmt_H, 6);
                 (fmt_B, mb_unit_id c); (fmt_B, 6); (fmt_H, address); (fmt_H, value)]
      = Return f).
  { cbn [struct_pack].
    destruct (pack_field_ok fmt_H (mb_transaction_id c + 1)) as [b1 ->]; [cbn; lia|].
    destruct (pack_field_ok fmt_H 0) as [b2 ->]; [cbn; lia|].
    destruct (pack_field_ok fmt_H 6) as [b3 ->]; [cbn; lia|].
    destruct (pack_field_ok fmt_B (mb_unit_id c)) as [b4 ->]; [cbn; lia|].
    destruct (pack_field_ok fmt_B 6) as [b5 ->]; [cbn; lia|].
    destruct (pack_field_ok fmt_H address) as [b6 ->]; [cbn; lia|].
    destruct (pack_field_ok fmt_H value) as [b7 ->]; [cbn; lia|].
    cbn. eauto. }
  destruct Hpack as [f Hf]. exists f.
  split; [exact (struct_pack_unpack_Return _ _ Hf)|].
  unfold SchneiderModiconClient.write_single_register,
    SchneiderModiconClient.next_transaction,
    SchneiderModiconClient._build_modbus_request, write_acknowledged, after_exchange.
  cbn zeta. run; try discriminate.
  all: try match goal with
       | H : negb (mb_connected _) = true |- _ => rewrite Hconn in H; discriminate
       end.
  all: try match goal with
       | H : SchneiderModiconClient._parse_write_response _ = _ |- _ =>
           rewrite modbus_parse_write_response_eq in H
       end.
  all: cbn [SchneiderModiconClient.with_transaction_id mb_transaction_id mb_unit_id
            mb_socket mb_connected] in *.
  all: try congruence.
  all: repeat split; try reflexivity; try congruence.
  all: match goal with
       | H : Return _ = Return ?a, E : _ !! 7%nat = _ |- Return ?a = _ =>
           rewrite E in H; symmetry; exact H
       end.
Qed.

(** The facade looks the connection up and picks the helper by the type
    recorded in it; whatever the helper raises becomes [False]. *)
Lemma write_alert_to_plc_dispatch factory_id alert_data conn w :
  active_connections w !! factory_id = Some conn ->
  write_alert_to_plc factory_id alert_data w
  = try_except
      (if String.eqb (conn_type conn) "siemens" then
         _write_siemens_alert (conn_client conn) alert_data
       else if String.eqb (conn_type conn) "schneider" then
         _write_schneider_alert (conn_client conn) alert_data
       else ret false)
      (fun _ => ret false) w.
Proof.
  intros Hconn. unfold write_alert_to_plc, bind, gets. rewrite Hconn. reflexivity.
Qed.

(** The facade on a connected Siemens client: one write request goes out,
    to data block 100 at offset 0, with the two words 1 and the severity
    value as its data. *)
Lemma write_alert_siemens factory_id alert_data conn c s v w :
  active_connections w !! factory_id = Some conn ->
  conn_type conn = "siemens" ->
  heap w !! conn_client conn = Some (Siemens c) ->
  s7_connected c = true -> s7_socket c = Some s ->
  severity_value alert_data = Return v ->
  v = 1 \/ v = 2 \/ v = 3 \/ v = 4 ->
  let r := write_alert_to_plc factory_id alert_data w in
  exists frame,
    wire r.1 = wire w ++ [frame] /\
    r.2 = Return (s7_write_acknowledged (net w)) /\
    length frame = 38%nat /\
    int_of_byte <$> frame !! 17%nat = Some 5 /\
    int_of_byte <$> frame !! 26%nat = Some 100 /\
    be_int (slice frame 28 31) = 0 /\
    struct_unpack [fmt_H; fmt_H] (drop 34 frame) = Return [1; v].
Proof.
  intros Hconn Htype Hself Hc Hs Hsev Hv. cbn zeta.
  rewrite (write_alert_to_plc_dispatch _ _ _ _ Hconn), Htype.
  change ("siemens" =? "siemens")%string with true. cbv iota.
  unfold _write_siemens_alert. rewrite Hsev.
  destruct Hv as [-> | [-> | [-> | ->]]].
  all: match goal with
       | |- context [bind (lift (Return ?x)) ?k] =>
           change (bind (lift (Return x)) k) with (k x)
       end; cbv beta.
  all: match goal with
       | |- context [struct_pack ?l] =>
           let d := eval vm_compute in (struct_pack l) in
           change (struct_pack l) with d
       end.
  all: unfold SiemensS7Client.write_db, s7_write_acknowledged; run.
  all: try match goal with
       | H : negb (s7_connected _) = true |- _ => rewrite Hc in H; discriminate
       end.
  all: try match goal with
       | H : SiemensS7Client._build_write_request _ _ _ = Raise _ |- _ =>
           vm_compute in H; discriminate
       end.
  all: try match goal with
       | H : SiemensS7Client._parse_write_response _ = _ |- _ =>
           rewrite s7_parse_write_response_eq in H
       end.
  all: try congruence.
  all: match goal with
       | H : SiemensS7Client._build_write_request _ _ _ = Return _ |- _ =>
           vm_compute in H; injection H as <-
       end.
  all: eexists; split; [reflexivity|]; split;
    [first [congruence
           |match goal with
            | H : Return _ = Return ?a, E : _ !! 21%nat = _ |- Return ?a = _ =>
                rewrite E in H; symmetry; exact H
            end]|].
  all: repeat split; vm_compute; reflexivity.
Qed.

(** The facade on a connected Schneider client whose next two transaction
    ids fit: the first request writes 1 to register 1000; the second, sent
    only when the first is acknowledged, writes the severity value to
    register 1001. *)
Lemma write_alert_schneider factory_id alert_data conn c s v w :
  active_connections w !! factory_id = Some conn ->
  conn_type conn = "schneider" ->
  heap w !! conn_client conn = Some (Schneider c) ->
  mb_connected c = true -> mb_socket c = Some s ->
  0 <= mb_transaction_id c -> mb_transaction_id c + 2 < 65536 ->
  0 <= mb_unit_id c < 256 ->
  severity_value alert_data = Return v ->
  v = 1 \/ v = 2 \/ v = 3 \/ v = 4 ->
  let r := write_alert_to_plc factory_id alert_data w in
  exists first,
    struct_unpack modbus_request_fmt first
      = Return [mb_transaction_id c + 1; 0; 6; mb_unit_id c; 6; 1000; 1] /\
    if write_acknowledged (net w) then
      exists second,
        struct_unpack modbus_request_fmt second
          = Return [mb_transaction_id c + 2; 0; 6; mb_unit_id c; 6; 1001; v] /\
        wire r.1 = wire w ++ [first; second] /\
        r.2 = Return (write_acknowledged (after_exchange (net w)))
    else wire r.1 = wire w ++ [first] /\ r.2 = Return false.
Proof.
  intros Hconn Htype Hself Hc Hs Ht0 Ht2 Hu Hsev Hv. cbn zeta.
  rewrite (write_alert_to_plc_dispatch _ _ _ _ Hconn), Htype.
  change ("schneider" =? "siemens")%string with false.
  change ("schneider" =? "schneider")%string with true. cbv iota.
  unfold _write_schneider_alert. rewrite Hsev.
  match goal with
  | |- context [bind (lift (Return ?x)) ?k] =>
      change (bind (lift (Return x)) k) with (k x)
  end; cbv beta.
  unfold try_except.
  destruct (write_single_register_connected (conn_client conn) c s 1000 1 w Hself Hc Hs)
    as (f1 & Hf1 & Hw1 & Hr1 & Hn1 & Hh1); try lia.
  cbn zeta in *. unfold bind. cbn beta.
  destruct (SchneiderModiconClient.write_single_register (conn_client conn) 1000 1 w)
    as [w1 r1].
  cbn [fst snd] in *. subst r1. exists f1. split; [exact Hf1|].
  destruct (write_acknowledged (net w)); cbn [negb].
  - set (c1 := SchneiderModiconClient.with_transaction_id (mb_transaction_id c + 1) c) in *.
    destruct (write_single_register_connected (conn_client conn) c1 s 1001 v w1)
      as (f2 & Hf2 & Hw2 & Hr2 & _);
      cbn [c1 mb_connected mb_socket mb_transaction_id mb_unit_id
           SchneiderModiconClient.with_transaction_id];
      try lia; try assumption.
    { rewrite Hh1. apply lookup_insert_eq. }
    cbn zeta in Hw2, Hr2.
    destruct (SchneiderModiconClient.write_single_register (conn_client conn) 1001 v w1)
      as [w2 r2].
    cbn [fst snd] in *. subst r2. exists f2. split.
    + cbn [mb_transaction_id mb_unit_id c1 SchneiderModiconClient.with_transaction_id] in Hf2.
      replace (mb_transaction_id c + 2) with (mb_transaction_id c + 1 + 1) by lia.
      exact Hf2.
    + cbn [fst snd]. rewrite Hw2, Hw1, <- app_assoc, Hn1. auto.
  - unfold ret. cbn [fst snd]. auto.
Qed.

End AlertFrames.

(** C6 (counterexample): on a healthy Schneider connection the alert of
    severity "critical" does not reach register 1001 when the PLC answers
    the write of register 1000 with an exception; an alert whose severity
    is a list reaches no register at all; and neither does any alert once
    the transaction id no longer fits its field. *)
Lemma refused_alert_leaves_severity_unwritten :
  ~ writes_both_registers 4 "f1" (Alert (Some (JStr "critical")))
      (world_of (Schneider modicon_live) [Done []; Done write_nak; Done []; Done write_ack]) /\
  (forall v,
     ~ writes_both_registers v "f1" (Alert (Some (JArr [])))
         (world_of (Schneider modicon_live)
            [Done []; Done write_ack; Done []; Done write_ack])) /\
  ~ writes_both_registers 4 "f1" (Alert (Some (JStr "critical")))
      (world_of (Schneider modicon_worn) [Done []; Done write_ack; Done []; Done write_ack]).
Proof.
  unfold writes_both_registers. repeat split.
  - intros (first & second & tid1 & tid2 & unit_id & Hwire & _).
    vm_compute in Hwire. discriminate.
  - intros v (first & second & tid1 & tid2 & unit_id & Hwire & _).
    vm_compute in Hwire. discriminate.
  - intros (first & second & tid1 & tid2 & unit_id & Hwire & _).
    vm_compute in Hwire. discriminate.
Qed.

(** C6 (as amended): severity is encoded low = 1, medium = 2, high = 3,
    critical = 4, for every alert whose severity is missing or can be
    looked up.  Through an active connection to a connected Siemens client
    [write_alert] sends one write request to data block 100 at offset 0
    whose data are the two big-endian 16-bit words 1 and the severity
    value, and returns whether the answer has the status 0xFF.  Through an
    active connection to a connected Schneider client whose next two
    transaction ids fit, its first request writes 1 to holding register
    1000; only when that write is acknowledged does a second request write
    the severity value to register 1001, and the result is whether that one
    is acknowledged too; otherwise the result is false and only the first
    request was sent. *)
Theorem write_alert_encodes_severity
    (factory_id : string) (alert_data : alert) (conn : connection) (o : object)
    (s : nat) (w : world)
    (Hactive : active_connections w !! factory_id = Some conn)
    (Hclient : heap w !! conn_client conn = Some o)
    (Htype : conn_type conn = class_of o)
    (Hconn : connected_on o s)
    (Hfit : match o with
            | Siemens _ => True
            | Schneider c =>
                0 <= mb_transaction_id c /\ mb_transaction_id c + 2 < 65536 /\
                0 <= mb_unit_id c < 256
            end)
    (Hhashable : match alert_severity alert_data with
                 | Some severity => hashable severity = true
                 | None => True
                 end) :
  let r := PLCIntegrationService.write_alert_to_plc factory_id alert_data w in
  (PLCIntegrationService.severity_value (Alert (Some (JStr "low"))) = Return 1 /\
   PLCIntegrationService.severity_value (Alert (Some (JStr "medium"))) = Return 2 /\
   PLCIntegrationService.severity_value (Alert (Some (JStr "high"))) = Return 3 /\
   PLCIntegrationService.severity_value (Alert (Some (JStr "critical"))) = Return 4) /\
  exists v,
    PLCIntegrationService.severity_value alert_data = Return v /\
    match o with
    | Siemens _ =>
        exists frame,
          wire r.1 = wire w ++ [frame] /\
          r.2 = Return (s7_write_acknowledged (net w)) /\
          length frame = 38%nat /\
          int_of_byte <$> frame !! 17%nat = Some 5 /\
          int_of_byte <$> frame !! 26%nat = Some 100 /\
          be_int (slice frame 28 31) = 0 /\
          struct_unpack [fmt_H; fmt_H] (drop 34 frame) = Return [1; v]
    | Schneider c =>
        exists first,
          struct_unpack modbus_request_fmt first
            = Return [mb_transaction_id c + 1; 0; 6; mb_unit_id c; 6; 1000; 1] /\
          if write_acknowledged (net w) then
            exists second,
              struct_unpack modbus_request_fmt second
                = Return [mb_transaction_id c + 2; 0; 6; mb_unit_id c; 6; 1001; v] /\
              wire r.1 = wire w ++ [first; second] /\
              r.2 = Return (write_acknowledged (after_exchange (net w)))
          else wire r.1 = wire w ++ [first] /\ r.2 = Return false
    end.
Proof.
  cbn zeta. split; [apply severity_value_known|].
  destruct (severity_value_hashable alert_data Hhashable) as (v & Hsev & Hv).
  exists v. split; [exact Hsev|].
  destruct o as [c|c]; destruct Hconn as [Hc Hs]; cbn [class_of] in Htype.
  - exact (write_alert_siemens factory_id alert_data conn c s v w
             Hactive Htype Hclient Hc Hs Hsev Hv).
  - destruct Hfit as (Ht0 & Ht2 & Hu).
    exact (write_alert_schneider factory_id alert_data conn c s v w
             Hactive Htype Hclient Hc Hs Ht0 Ht2 Hu Hsev Hv).
Qed.

Lemma write_alert_encodes_severity_witness :
  let c := modicon_live in
  let w := world_of (Schneider c) [Done []; Done write_ack; Done []; Done write_ack] in
  let r := PLCIntegrationService.write_alert_to_plc "f1" (Alert (Some (JStr "critical"))) w in
  exists first second,
    struct_unpack modbus_request_fmt first = Return [1; 0; 6; 1; 6; 1000; 1] /\
    struct_unpack modbus_request_fmt second = Return [2; 0; 6; 1; 6; 1001; 4] /\
    wire r.1 = wire w ++ [first; second] /\
    r.2 = Return true.
Proof.
  cbn zeta.
  pose proof (write_alert_encodes_severity "f1" (Alert (Some (JStr "critical")))
                (Connection "schneider" 0 3) (Schneider modicon_live) 0
                (world_of (Schneider modicon_live)
                   [Done []; Done write_ack; Done []; Done write_ack])) as H.
  cbn zeta in H.
  destruct H as [_ (v & Hv & first & Hfirst & Hrest)].
  - reflexivity.
  - reflexivity.
  - reflexivity.
  - split; reflexivity.
  - cbn. lia.
  - reflexivity.
  - vm_compute in Hv. injection Hv as <-.
    change (write_acknowledged
              (net (world_of (Schneider modicon_live)
                      [Done []; Done write_ack; Done []; Done write_ack]))) with true in Hrest.
    destruct Hrest as (second & Hsecond & Hwire & Hres).
    exists first, second. split; [exact Hfirst|]. split; [exact Hsecond|].
    split; [exact Hwire|]. rewrite Hres. vm_compute. reflexivity.
Defined.

(** C10 (counterexample): on a healthy Siemens connection an alert whose
    severity is a list is not written as one of severity "low" is: the
    lookup raises, nothing is sent and the result is false. *)
Lemma unhashable_severity_is_rejected :
  let w := world_of (Siemens s7_live) [Done []; Done s7_write_ok] in
  ~ written_as_low "f1" (Alert (Some (JArr []))) w /\
  PLCIntegrationService.write_alert_to_plc "f1" (Alert (Some (JArr []))) w
  = (w, Return false) /\
  (PLCIntegrationService.write_alert_to_plc "f1" (Alert (Some (JStr "low"))) w).2
  = Return true.
Proof.
  cbn zeta. split; [|split].
  - unfold written_as_low. intros H. vm_compute in H. discriminate.
  - vm_compute. reflexivity.
  - vm_compute. reflexivity.
Qed.

(** C10 (as amended): an alert whose severity is missing, or is a string, a
    number, a boolean or null that is none of low, medium, high and
    critical, is not rejected: its severity is encoded as 1, and
    [write_alert] does with it exactly what it does with an alert of
    severity "low".  Through an active connection to a connected Siemens
    client that is one write request to data block 100 at offset 0 with
    the words 1 and 1; through one to a connected Schneider client whose
    next two transaction ids fit, a write of 1 to register 1000 and, once
    that is acknowledged, a write of 1 to register 1001.  An alert whose
    severity is a list or a dict is rejected instead: the result is false
    and nothing is sent. *)
Theorem unknown_severity_is_written_as_low
    (factory_id : string) (alert_data : alert) (conn : connection) (o : object)
    (s : nat) (w : world)
    (Hunknown : unknown_severity alert_data)
    (Hactive : active_connections w !! factory_id = Some conn)
    (Hclient : heap w !! conn_client conn = Some o)
    (Htype : conn_type conn = class_of o)
    (Hconn : connected_on o s)
    (Hfit : match o with
            | Siemens _ => True
            | Schneider c =>
                0 <= mb_transaction_id c /\ mb_transaction_id c + 2 < 65536 /\
                0 <= mb_unit_id c < 256
            end) :
  let r := PLCIntegrationService.write_alert_to_plc factory_id alert_data w in
  PLCIntegrationService.severity_value alert_data = Return 1 /\
  r = PLCIntegrationService.write_alert_to_plc factory_id (Alert (Some (JStr "low"))) w /\
  match o with
  | Siemens _ =>
      exists frame,
        wire r.1 = wire w ++ [frame] /\
        r.2 = Return (s7_write_acknowledged (net w)) /\
        length frame = 38%nat /\
        int_of_byte <$> frame !! 17%nat = Some 5 /\
        int_of_byte <$> frame !! 26%nat = Some 100 /\
        be_int (slice frame 28 31) = 0 /\
        struct_unpack [fmt_H; fmt_H] (drop 34 frame) = Return [1; 1]
  | Schneider c =>
      exists first,
        struct_unpack modbus_request_fmt first
          = Return [mb_transaction_id c + 1; 0; 6; mb_unit_id c; 6; 1000; 1] /\
        if write_acknowledged (net w) then
          exists second,
            struct_unpack modbus_request_fmt second
              = Return [mb_transaction_id c + 2; 0; 6; mb_unit_id c; 6; 1001; 1] /\
            wire r.1 = wire w ++ [first; second] /\
            r.2 = Return (write_acknowledged (after_exchange (net w)))
        else wire r.1 = wire w ++ [first] /\ r.2 = Return false
  end /\
  forall severity,
    hashable severity = false ->
    PLCIntegrationService.write_alert_to_plc factory_id (Alert (Some severity)) w
    = (w, Return false).
Proof.
  cbn zeta. pose proof (severity_value_unknown alert_data Hunknown) as Hsev.
  split; [exact Hsev|]. split; [|split].
  - unfold PLCIntegrationService.write_alert_to_plc,
      PLCIntegrationService._write_siemens_alert,
      PLCIntegrationService._write_schneider_alert.
    rewrite Hsev. replace (PLCIntegrationService.severity_value (Alert (Some (JStr "low"))))
      with (Return (A := Z) 1) by (symmetry; apply severity_value_known).
    reflexivity.
  - destruct o as [c|c]; destruct Hconn as [Hc Hs]; cbn [class_of] in Htype.
    + exact (write_alert_siemens factory_id alert_data conn c s 1 w
               Hactive Htype Hclient Hc Hs Hsev (or_introl eq_refl)).
    + destruct Hfit as (Ht0 & Ht2 & Hu).
      exact (write_alert_schneider factory_id alert_data conn c s 1 w
               Hactive Htype Hclient Hc Hs Ht0 Ht2 Hu Hsev (or_introl eq_refl)).
  - intros severity Hx. apply write_alert_to_plc_unhashable, Hx.
Qed.

Lemma unknown_severity_is_written_as_low_witness :
  let alert_data := Alert (Some (JStr "urgent")) in
  let w := world_of (Siemens s7_live) [Done []; Done s7_write_ok] in
  let r := PLCIntegrationService.write_alert_to_plc "f1" alert_data w in
  PLCIntegrationService.severity_value alert_data = Return 1 /\
  r = PLCIntegrationService.write_alert_to_plc "f1" (Alert (Some (JStr "low"))) w /\
  (exists frame,
     wire r.1 = wire w ++ [frame] /\
     r.2 = Return (s7_write_acknowledged (net w)) /\
     length frame = 38%nat /\
     int_of_byte <$> frame !! 17%nat = Some 5 /\
     int_of_byte <$> frame !! 26%nat = Some 100 /\
     be_int (slice frame 28 31) = 0 /\
     struct_unpack [fmt_H; fmt_H] (drop 34 frame) = Return [1; 1]) /\
  forall severity,
    hashable severity = false ->
    PLCIntegrationService.write_alert_to_plc "f1" (Alert (Some severity)) w
    = (w, Return false).
Proof.
  cbn zeta.
  apply (unknown_severity_is_written_as_low "f1" (Alert (Some (JStr "urgent")))
           (Connection "siemens" 0 3) (Siemens s7_live) 0
           (world_of (Siemens s7_live) [Done []; Done s7_write_ok])).
  - split; [reflexivity|]. intros (name & Hname & Hin). injection Hname as <-.
    rewrite !elem_of_cons, elem_of_nil in Hin. intuition discriminate.
  - reflexivity.
  - reflexivity.
  - reflexivity.
  - split; reflexivity.
  - exact I.
Defined.

(** ** Connecting a factory *)

Section Connect.

Import PLCIntegrationService.

(** [connect] of the Siemens client succeeds exactly when the network
    lets the three socket calls through and the handshake is accepted; it
    touches its own object and the sockets only. *)
Lemma s7_connect_spec self c w :
  heap w !! self = Some (Siemens c) ->
  let r := SiemensS7Client.connect self w in
  r.2 = Return (transport_connects VSiemens (net w)) /\
  registry r.1 = registry w /\ clock r.1 = clock w /\ factories r.1 = factories w /\
  exists c', heap r.1 = <[self := Siemens c']> (heap w) /\
             s7_connected c' = transport_connects VSiemens (net w).
Proof.
  intros Hself. cbn zeta.
  unfold SiemensS7Client.connect, SiemensS7Client._send_connection_request,
    SiemensS7Client.disconnect, transport_connects, handshake_accepted, getitem, registry.
  run.
  all: try match goal with
       | H : bytearray SiemensS7Client.iso_cr = Raise _ |- _ =>
           vm_compute in H; discriminate
       end.
  all: try discriminate.
  all: cbn [SiemensS7Client.with_socket SiemensS7Client.with_connected
            s7_socket s7_connected andb] in *.
  all: try congruence.
  all: rewrite ?insert_insert_eq.
  all: repeat split; try reflexivity; try (eexists; split; reflexivity).
Qed.

Lemma modicon_connect_spec self c w :
  heap w !! self = Some (Schneider c) ->
  let r := SchneiderModiconClient.connect self w in
  r.2 = Return (transport_connects VSchneider (net w)) /\
  registry r.1 = registry w /\ clock r.1 = clock w /\ factories r.1 = factories w /\
  exists c', heap r.1 = <[self := Schneider c']> (heap w) /\
             mb_connected c' = transport_connects VSchneider (net w).
Proof.
  intros Hself. cbn zeta.
  unfold SchneiderModiconClient.connect, SchneiderModiconClient.disconnect,
    transport_connects, registry.
  run.
  all: try discriminate.
  all: cbn [SchneiderModiconClient.with_socket SchneiderModiconClient.with_connected
            mb_socket mb_connected] in *.
  all: try congruence.
  all: rewrite ?insert_insert_eq.
  all: repeat split; try reflexivity; try (eexists; split; reflexivity).
Qed.

(** What [connect_to_factory_plcs] does for a factory row that names a
    vendor, whether the factory is registered already or not. *)
Lemma connect_to_factory_plcs_spec factory_id factory v w :
  factories w !! factory_id = Some factory ->
  vendor_of factory = Some v ->
  let r := connect_to_factory_plcs factory_id w in
  let ref := fresh (dom (heap w)) in
  (forall x, x ∈ dom (heap w) -> heap r.1 !! x = heap w !! x) /\
  if transport_connects v (net w) then
    r.2 = Return {[factory_id := true]} /\
    active_connections r.1
      = <[factory_id := Connection (vendor_name v) ref (clock w)]> (active_connections w) /\
    siemens_clients r.1
      = match v with
        | VSiemens => <[factory_id := ref]> (siemens_clients w)
        | VSchneider => siemens_clients w
        end /\
    schneider_clients r.1
      = match v with
        | VSiemens => schneider_clients w
        | VSchneider => <[factory_id := ref]> (schneider_clients w)
        end
  else
    r.2 = Return {[factory_id := false]} /\ registry r.1 = registry w.
Proof.
  intros Hfac Hv. cbn zeta.
  assert (Hfresh : fresh (dom (heap w)) ∉ dom (heap w)) by apply is_fresh.
  assert (Hframe : forall o' (h : gmap nat object),
             h = <[fresh (dom (heap w)) := o']> (heap w) ->
             forall x, x ∈ dom (heap w) -> h !! x = heap w !! x).
  { intros o' h -> x Hx. apply lookup_insert_ne. intros <-. contradiction. }
  unfold connect_to_factory_plcs. unfold_m. proj. rewrite Hfac.
  unfold vendor_of in Hv.
  destruct (truthy_str (plc_type factory) && truthy_str (plc_ip factory)); [|discriminate].
  destruct (String.prefix "siemens" (default "" (plc_type factory))).
  - injection Hv as <-.
    match goal with
    | |- context [SiemensS7Client.connect ?r ?w0] =>
        destruct (s7_connect_spec r (SiemensS7Client.__init__ (default "" (plc_ip factory))) w0)
          as (Hres & Hreg & Hclock & Hfacs & c' & Hheap & Hconn);
          [cbn; apply lookup_insert_eq|];
        destruct (SiemensS7Client.connect r w0) as [w1 r1]
    end.
    cbn [fst snd net heap clock] in *. subst r1. unfold registry in Hreg. cbn in Hreg.
    injection Hreg as Hs Hm Ha. rewrite insert_insert_eq in Hheap.
    destruct (transport_connects VSiemens (net w)); proj.
    + rewrite insert_empty. split; [eauto|]. cbn [vendor_name]. rewrite Hclock, Hs, Hm, Ha. auto.
    + rewrite insert_empty. split; [eauto|]. unfold registry. rewrite Hs, Hm, Ha. auto.
  - destruct (String.prefix "schneider" (default "" (plc_type factory))); [|discriminate].
    injection Hv as <-.
    match goal with
    | |- context [SchneiderModiconClient.connect ?r ?w0] =>
        match goal with
        | |- context [<[r := Schneider ?c0]> _] =>
            destruct (modicon_connect_spec r c0 w0)
              as (Hres & Hreg & Hclock & Hfacs & c' & Hheap & Hconn);
              [cbn; apply lookup_insert_eq|]
        end;
        destruct (SchneiderModiconClient.connect r w0) as [w1 r1]
    end.
    cbn [fst snd net heap clock] in *. subst r1. unfold registry in Hreg. cbn in Hreg.
    injection Hreg as Hs Hm Ha. rewrite insert_insert_eq in Hheap.
    destruct (transport_connects VSchneider (net w)); proj.
    + rewrite insert_empty. split; [eauto|]. cbn [vendor_name]. rewrite Hclock, Hs, Hm, Ha. auto.
    + rewrite insert_empty. split; [eauto|]. unfold registry. rewrite Hs, Hm, Ha. auto.
Qed.

End Connect.

(** C5: when the transport connect attempt for a factory fails (socket
    error, timeout or rejected handshake), the call reports failure for the
    factory and the registry is as it was: neither an ActiveConnection nor a
    vendor-client entry is registered by the call. *)
Theorem failed_connect_registers_nothing
    (factory_id : string) (factory : Factory) (v : vendor) (w : world)
    (Hfactory : factories w !! factory_id = Some factory)
    (Hvendor : vendor_of factory = Some v)
    (Hfails : transport_connects v (net w) = false) :
  let r := PLCIntegrationService.connect_to_factory_plcs factory_id w in
  r.2 = Return {[factory_id := false]} /\
  registry r.1 = registry w /\
  (active_connections w !! factory_id = None ->
   active_connections r.1 !! factory_id = None /\
   siemens_clients r.1 !! factory_id = siemens_clients w !! factory_id /\
   schneider_clients r.1 !! factory_id = schneider_clients w !! factory_id).
Proof.
  cbn zeta.
  destruct (connect_to_factory_plcs_spec factory_id factory v w Hfactory Hvendor)
    as [_ H]. cbn zeta in H. rewrite Hfails in H. destruct H as [Hres Hreg].
  split; [exact Hres|]. split; [exact Hreg|].
  unfold registry in Hreg. injection Hreg as -> -> ->. auto.
Qed.

Lemma failed_connect_registers_nothing_witness :
  let w := World [Done []; Done []; Fails] [] ∅ ∅ 0%nat
             {["f1" := {| plc_type := Some "siemens_s7"; plc_ip := Some "192.168.1.100";
                          plc_port := Some 102 |}]} ∅ ∅ ∅ in
  let r := PLCIntegrationService.connect_to_factory_plcs "f1" w in
  r.2 = Return {["f1" := false]} /\
  registry r.1 = registry w /\
  (active_connections w !! "f1" = None ->
   active_connections r.1 !! "f1" = None /\
   siemens_clients r.1 !! "f1" = siemens_clients w !! "f1" /\
   schneider_clients r.1 !! "f1" = schneider_clients w !! "f1").
Proof.
  cbn zeta.
  apply (failed_connect_registers_nothing "f1"
           {| plc_type := Some "siemens_s7"; plc_ip := Some "192.168.1.100";
              plc_port := Some 102 |} VSiemens).
  - reflexivity.
  - reflexivity.
  - reflexivity.
Defined.

(** C1 (as amended): [connect] on a factory that has an ActiveConnection
    already (and whose row names a vendor) makes a fresh transport connect
    attempt with a newly constructed client.  Afterwards exactly one
    ActiveConnection exists for the factory and the client objects that
    existed before are untouched.  If the attempt succeeds the result is
    true and the ActiveConnection is a new one, on the new client; if it
    fails the result is false and the registry, with the connection from
    before, is unchanged. *)
Theorem reconnect_replaces_or_keeps_connection
    (factory_id : string) (conn : connection) (factory : Factory) (v : vendor) (w : world)
    (Hactive : active_connections w !! factory_id = Some conn)
    (Hfactory : factories w !! factory_id = Some factory)
    (Hvendor : vendor_of factory = Some v) :
  let r := PLCIntegrationService.connect_to_factory_plcs factory_id w in
  (exists! conn', active_connections r.1 !! factory_id = Some conn') /\
  (forall x, x ∈ dom (heap w) -> heap r.1 !! x = heap w !! x) /\
  if transport_connects v (net w) then
    r.2 = Return {[factory_id := true]} /\
    active_connections r.1 !! factory_id
      = Some (Connection (vendor_name v) (fresh (dom (heap w))) (clock w)) /\
    fresh (dom (heap w)) ∉ dom (heap w)
  else
    r.2 = Return {[factory_id := false]} /\
    registry r.1 = registry w /\
    active_connections r.1 !! factory_id = Some conn.
Proof.
  cbn zeta.
  destruct (connect_to_factory_plcs_spec factory_id factory v w Hfactory Hvendor)
    as [Hheap H]. cbn zeta in H.
  assert (Hone : forall c0, active_connections
                     (PLCIntegrationService.connect_to_factory_plcs factory_id w).1
                     !! factory_id = Some c0 ->
                 exists! conn', active_connections
                     (PLCIntegrationService.connect_to_factory_plcs factory_id w).1
                     !! factory_id = Some conn').
  { intros c0 Hc0. exists c0. split; [exact Hc0|]. intros c1 Hc1. congruence. }
  destruct (transport_connects v (net w)).
  - destruct H as (Hres & Hact & _).
    assert (Hnew : active_connections
                     (PLCIntegrationService.connect_to_factory_plcs factory_id w).1
                     !! factory_id
                   = Some (Connection (vendor_name v) (fresh (dom (heap w))) (clock w)))
      by (rewrite Hact; apply lookup_insert_eq).
    split; [eapply Hone, Hnew|]. split; [exact Hheap|].
    split; [exact Hres|]. split; [exact Hnew|]. apply is_fresh.
  - destruct H as (Hres & Hreg).
    assert (Hsame : active_connections
                      (PLCIntegrationService.connect_to_factory_plcs factory_id w).1
                      !! factory_id = Some conn).
    { unfold registry in Hreg. injection Hreg as _ _ ->. exact Hactive. }
    split; [eapply Hone, Hsame|]. split; [exact Hheap|]. auto.
Qed.

Lemma reconnect_replaces_or_keeps_connection_witness :
  let w := world_of (Siemens s7_live) [Done []; Done []; Done connection_confirm] in
  let r := PLCIntegrationService.connect_to_factory_plcs "f1" w in
  (exists! conn', active_connections r.1 !! "f1" = Some conn') /\
  (forall x, x ∈ dom (heap w) -> heap r.1 !! x = heap w !! x) /\
  r.2 = Return {["f1" := true]} /\
  active_connections r.1 !! "f1"
    = Some (Connection "siemens" (fresh (dom (heap w))) (clock w)) /\
  fresh (dom (heap w)) ∉ dom (heap w).
Proof.
  cbn zeta.
  pose proof (reconnect_replaces_or_keeps_connection "f1"
                (Connection "siemens" 0 3)
                {| plc_type := Some "siemens_s7"; plc_ip := Some "192.168.1.100";
                   plc_port := None |}
                VSiemens
                (world_of (Siemens s7_live) [Done []; Done []; Done connection_confirm]))
    as H.
  cbn zeta in H. apply H; reflexivity.
Defined.

(** C1 (counterexample): the factory is connected already.  When the PLC
    accepts the second attempt the ActiveConnection is replaced by another
    one; when the second attempt is refused the call reports failure.  In
    neither case is the call a no-op that reports success. *)
Lemma reconnect_is_not_a_noop :
  ~ reconnect_is_noop "f1"
      (world_of (Siemens s7_live) [Done []; Done []; Done connection_confirm]) /\
  ~ reconnect_is_noop "f1" (world_of (Siemens s7_live) [Fails]).
Proof.
  unfold reconnect_is_noop. split.
  - intros [_ Hsame]. vm_compute in Hsame. discriminate.
  - intros [(results & Hres & Htrue) _].
    vm_compute in Hres. injection Hres as <-.
    vm_compute in Htrue. discriminate.
Qed.

(** ** Sensor batches *)

Section Batches.

Import PLCIntegrationService.

(** No exception leaves the facade. *)
Lemma read_sensor_data_from_plc_never_raises factory_id machine_id sensor_config w :
  exists r, (read_sensor_data_from_plc factory_id machine_id sensor_config w).2 = Return r.
Proof.
  unfold read_sensor_data_from_plc. unfold_m. proj.
  destruct (active_connections w !! factory_id) as [connection|]; [|eauto].
  match goal with
  | |- context [let (_, _) := ?body in _] => destruct body as [w' [r|e]]
  end; eauto.
Qed.

(** An empty result is never handed out as a dict. *)
Lemma read_sensor_data_from_plc_not_empty factory_id machine_id sensor_config w m :
  (read_sensor_data_from_plc factory_id machine_id sensor_config w).2 = Return (Some m) ->
  m <> ∅.
Proof.
  unfold read_sensor_data_from_plc, _read_siemens_sensor_data,
    _read_schneider_sensor_data, truthy_dict.
  run; try discriminate.
  all: intros [= <-]; intros ->.
  all: match goal with
       | H : negb (size ∅ =? 0)%nat = true |- _ => rewrite map_size_empty in H; discriminate
       end.
Qed.

Lemma read_db_no_data client c db_number start size w :
  heap w !! client = Some (Siemens c) ->
  s7_no_data (net w) ->
  exists w' r,
    SiemensS7Client.read_db client db_number start size w = (w', Return r) /\
    truthy_seq r = false /\ only_io w w'.
Proof.
  intros Hself Hno.
  pose proof (read_db_only_io client db_number start size w) as Hio.
  destruct (read_db_returns client c db_number start size w Hself)
    as (r & Hr & Hsound).
  destruct (SiemensS7Client.read_db client db_number start size w) as [w' r'].
  cbn [fst snd] in *. subst r'. exists w', r. split; [reflexivity|].
  split; [|exact Hio].
  destruct r as [[|b data]|]; try reflexivity.
  destruct (Hsound _ eq_refl) as (sent & response & rest & Hnet & Hacc).
  rewrite Hnet in Hno. cbn in Hno. apply Hno in Hacc. discriminate.
Qed.

(** A Siemens sensor whose read yields no data is left out, nothing is
    raised, and the loop goes on with the sensors after it. *)
Lemma siemens_item_no_data client c item rest sensor_data w :
  heap w !! client = Some (Siemens c) ->
  s7_no_data (net w) ->
  exists w',
    siemens_item client item sensor_data w = (w', Return sensor_data) /\
    only_io w w' /\
    for_each (item :: rest) (siemens_item client) sensor_data w
    = for_each rest (siemens_item client) sensor_data w'.
Proof.
  intros Hself Hno.
  assert (Hitem : exists w', siemens_item client item sensor_data w = (w', Return sensor_data)
                             /\ only_io w w').
  { assert (Hrefl : only_io w w) by (unfold only_io; auto).
    unfold siemens_item.
    destruct (cfg_db_number item.2) as [db_number|]; [|unfold ret; eauto].
    destruct (cfg_address item.2) as [address|]; [|unfold ret; eauto].
    destruct (String.eqb _ "real").
    { destruct (read_db_no_data client c db_number address 4 w Hself Hno)
        as (w' & r & Hrun & Hr & Hio).
      unfold bind. rewrite Hrun, Hr. unfold ret. eauto. }
    destruct (String.eqb _ "int"); [|unfold ret; eauto].
    destruct (read_db_no_data client c db_number address 2 w Hself Hno)
      as (w' & r & Hrun & Hr & Hio).
    unfold bind. rewrite Hrun, Hr. unfold ret. eauto. }
  destruct Hitem as (w' & Hitem & Hio). exists w'. split; [exact Hitem|].
  split; [exact Hio|]. cbn [for_each]. unfold bind. rewrite Hitem. reflexivity.
Qed.

Lemma read_holding_registers_no_data client c address count w :
  heap w !! client = Some (Schneider c) ->
  modbus_no_data (net w) ->
  exists w' r,
    SchneiderModiconClient.read_holding_registers client address count w = (w', Return r) /\
    truthy_seq r = false.
Proof.
  intros Hself Hno.
  destruct (read_holding_registers_returns client c address count w Hself)
    as (r & Hr & Hsound).
  destruct (SchneiderModiconClient.read_holding_registers client address count w) as [w' r'].
  cbn [fst snd] in *. subst r'. exists w', r. split; [reflexivity|].
  destruct r as [[|v values]|]; try reflexivity.
  destruct (Hsound _ eq_refl) as (sent & response & rest & Hnet & Hacc & Hwords).
  rewrite Hnet in Hno. cbn in Hno. rewrite <- Hwords in Hno. apply Hno in Hacc. discriminate.
Qed.

(** The same for a Schneider sensor. *)
Lemma schneider_item_no_data client c item rest sensor_data w :
  heap w !! client = Some (Schneider c) ->
  modbus_no_data (net w) ->
  exists w',
    schneider_item client item sensor_data w = (w', Return sensor_data) /\
    for_each (item :: rest) (schneider_item client) sensor_data w
    = for_each rest (schneider_item client) sensor_data w'.
Proof.
  intros Hself Hno.
  assert (Hitem : exists w', schneider_item client item sensor_data w
                             = (w', Return sensor_data)).
  { unfold schneider_item.
    destruct (cfg_address item.2) as [address|]; [|unfold ret; eauto].
    destruct (String.eqb _ "holding_register").
    { destruct (read_holding_registers_no_data client c address 1 w Hself Hno)
        as (w' & r & Hrun & Hr).
      unfold bind. rewrite Hrun, Hr. unfold ret. eauto. }
    destruct (String.eqb _ "holding_register_float"); [|unfold ret; eauto].
    destruct (read_holding_registers_no_data client c address 2 w Hself Hno)
      as (w' & r & Hrun & Hr).
    unfold bind. rewrite Hrun, Hr. cbn [andb]. unfold ret. eauto. }
  destruct Hitem as (w' & Hitem). exists w'. split; [exact Hitem|].
  cbn [for_each]. unfold bind. rewrite Hitem. reflexivity.
Qed.

(** On a silent network a sensor adds nothing, whatever the client. *)
Lemma siemens_item_silent client item sensor_data w :
  silent (net w) ->
  exists w' r,
    siemens_item client item sensor_data w = (w', r) /\ silent (net w') /\
    (r = Return sensor_data \/ exists e, r = Raise e).
Proof.
  unfold silent. intros Hsilent.
  destruct (net w) as [|ev evs] eqn:Hnet.
  2: apply Forall_cons in Hsilent as [<- Hsilent].
  all: unfold siemens_item, SiemensS7Client.read_db, truthy_seq; run.
  all: do 2 eexists; (split; [reflexivity|]); proj; rewrite ?Hnet.
  all: split; [first [assumption | constructor; assumption | constructor]|].
  all: eauto.
Qed.

Lemma schneider_item_silent client item sensor_data w :
  silent (net w) ->
  exists w' r,
    schneider_item client item sensor_data w = (w', r) /\ silent (net w') /\
    (r = Return sensor_data \/ exists e, r = Raise e).
Proof.
  unfold silent. intros Hsilent.
  destruct (net w) as [|ev evs] eqn:Hnet.
  2: apply Forall_cons in Hsilent as [<- Hsilent].
  all: unfold schneider_item, SchneiderModiconClient.read_holding_registers,
         SchneiderModiconClient.next_transaction,
         SchneiderModiconClient._build_modbus_request, truthy_seq; run.
  all: cbn [andb] in *; try discriminate.
  all: do 2 eexists; (split; [reflexivity|]); proj; rewrite ?Hnet.
  all: split; [first [assumption | constructor; assumption | constructor]|].
  all: eauto.
Qed.

Lemma for_each_silent {X} (body : X -> gmap string reading -> M (gmap string reading))
    (items : list X) (sensor_data : gmap string reading) :
  (forall x acc w, silent (net w) ->
     exists w' r, body x acc w = (w', r) /\ silent (net w') /\
                  (r = Return acc \/ exists e, r = Raise e)) ->
  forall w, silent (net w) ->
    (for_each items body sensor_data w).2 = Return sensor_data \/
    exists e, (for_each items body sensor_data w).2 = Raise e.
Proof.
  intros Hbody. induction items as [|x items IH]; intros w Hsilent.
  - left. reflexivity.
  - cbn [for_each]. unfold bind.
    destruct (Hbody x sensor_data w Hsilent) as (w' & r & -> & Hs' & [->|[e ->]]).
    + apply IH, Hs'.
    + right. eauto.
Qed.

(** When every socket call fails the facade returns [None]. *)
Lemma silent_network_reads_nothing factory_id machine_id sensor_config w :
  silent (net w) ->
  (read_sensor_data_from_plc factory_id machine_id sensor_config w).2 = Return None.
Proof.
  intros Hsilent.
  unfold read_sensor_data_from_plc, _read_siemens_sensor_data, _read_schneider_sensor_data.
  unfold bind at 1, gets.
  destruct (active_connections w !! factory_id) as [connection|]; [|reflexivity].
  unfold try_except.
  destruct (String.eqb (conn_type connection) "siemens").
  - unfold bind.
    destruct (for_each_silent (siemens_item (conn_client connection)) sensor_config ∅
                (fun x acc w0 => siemens_item_silent _ x acc w0) w Hsilent) as [H|[e H]];
      destruct (for_each sensor_config _ ∅ w) as [w' r]; cbn [snd] in H; subst r;
      reflexivity.
  - destruct (String.eqb (conn_type connection) "schneider"); [|reflexivity].
    unfold bind.
    destruct (for_each_silent (schneider_item (conn_client connection)) sensor_config ∅
                (fun x acc w0 => schneider_item_silent _ x acc w0) w Hsilent) as [H|[e H]];
      destruct (for_each sensor_config _ ∅ w) as [w' r]; cbn [snd] in H; subst r;
      reflexivity.
Qed.

End Batches.

(** C2 (the failing input, run): two REAL sensors on a connected Siemens
    client.  The PLC answers the first read with status 0xFF and a payload
    of two bytes, and would answer the second with the REAL 25.0.  The call
    returns [None] and puts one request only on the wire: the batch stops at
    the first sensor.  When instead the first read times out, the second
    sensor is read and is the only entry of the result. *)
Theorem short_payload_aborts_the_batch :
  (let w := world_of (Siemens s7_live)
              [Done []; Done response_two_bytes; Done []; Done response_real_25] in
   let r := PLCIntegrationService.read_sensor_data_from_plc "f1" "m1" two_reals w in
   r.2 = Return None /\ length (wire r.1) = 1%nat) /\
  (let w := world_of (Siemens s7_live)
              [Done []; Fails; Done []; Done response_real_25] in
   let r := PLCIntegrationService.read_sensor_data_from_plc "f1" "m1" two_reals w in
   exists m, r.2 = Return (Some m) /\
             m !! "temperature" = Some (Reading (PyFloat 25) "C" 7) /\
             m !! "pressure" = None /\
             length (wire r.1) = 2%nat).
Proof.
  split.
  - split; vm_compute; reflexivity.
  - cbn zeta. eexists. split; [vm_compute; reflexivity|].
    repeat split; vm_compute; reflexivity.
Qed.

(** ** The statements at concrete inputs *)

Lemma read_db_yields_declared_payload_witness :
  let w := world_of (Siemens s7_live) [Done []; Done response_real_25] in
  heap w !! 0%nat = Some (Siemens s7_live) /\
  exists r,
    (SiemensS7Client.read_db 0 1 0 4 w).2 = Return r /\
    (forall data, r = Some data ->
       exists sent response rest,
         net w = Done sent :: Done response :: rest /\ s7_accepted response data) /\
    (forall s frame sent response rest,
       s7_connected s7_live = true -> s7_socket s7_live = Some s ->
       SiemensS7Client._build_read_request 1 0 4 = Return frame ->
       net w = Done sent :: Done response :: rest ->
       forall data, r = Some data <-> s7_accepted response data).
Proof.
  cbn zeta. split; [reflexivity|].
  apply (read_db_yields_declared_payload 0 s7_live 1 0 4
           (world_of (Siemens s7_live) [Done []; Done response_real_25])).
  reflexivity.
Defined.

Lemma read_holding_registers_decodes_register_words_witness :
  let w := world_of (Schneider modicon_live) [Done []; Done one_register_230] in
  let r := SchneiderModiconClient.read_holding_registers 0 1000 1 w in
  heap w !! 0%nat = Some (Schneider modicon_live) /\
  r.2 = Return (Some [230]) /\
  exists request,
    wire r.1 = wire w ++ [request] /\
    struct_unpack modbus_request_fmt request = Return [1; 0; 6; 1; 3; 1000; 1].
Proof.
  cbn zeta. split; [reflexivity|].
  destruct (read_holding_registers_decodes_register_words 0 modicon_live 1000 1
              (world_of (Schneider modicon_live) [Done []; Done one_register_230])
              eq_refl) as (_ & Hexchange & _).
  destruct (Hexchange 0%nat [] one_register_230 [])
    as (Hrequest & _ & _ & Hvalues); try reflexivity; try (cbn; lia).
  split; [|exact Hrequest].
  apply Hvalues. split; [|vm_compute; reflexivity].
  split; [cbn; lia|]. split; [|vm_compute; discriminate].
  eexists. split; reflexivity.
Defined.

Lemma transaction_ids_increase_strictly_witness :
  let w := world_of (Schneider modicon_live)
             [Done []; Done one_register_230; Done []; Done write_ack] in
  let calls := [ReadHoldingRegisters 1000 1; WriteSingleRegister 1000 1] in
  let w' := (perform_all 0 calls w).1 in
  exists frames c',
    wire w' = wire w ++ frames /\
    StronglySorted Z.lt (transaction_id_of <$> frames) /\
    Forall (fun f => mb_transaction_id modicon_live < transaction_id_of f) frames /\
    heap w' !! 0%nat = Some (Schneider c') /\
    mb_transaction_id c' = mb_transaction_id modicon_live + Z.of_nat (length calls).
Proof.
  cbn zeta.
  apply (transaction_ids_increase_strictly 0 modicon_live
           [ReadHoldingRegisters 1000 1; WriteSingleRegister 1000 1]
           (world_of (Schneider modicon_live)
              [Done []; Done one_register_230; Done []; Done write_ack])).
  - reflexivity.
  - reflexivity.
Defined.

(** The two decoding scenarios of the specification. *)
Example real32_bytes_decode_to_25 :
  unpack_f [x41; xc8; x00; x00] = Return 25%float.
Proof. vm_compute. reflexivity. Qed.

Example register_230_reads_as_230 :
  let w := world_of (Schneider modicon_live) [Done []; Done one_register_230] in
  (SchneiderModiconClient.read_holding_registers 0 1000 1 w).2 = Return (Some [230]).
Proof. vm_compute. reflexivity. Qed.

Example register_230_scaled_by_a_tenth :
  py_mul (PyInt 230) (PyFloat 0x1.999999999999ap-4) = PyFloat 23.
Proof. vm_compute. reflexivity. Qed.

Example int16_bytes_decode_signed :
  unpack_h [xff; xfe] = Return (-2) /\ unpack_h [xff] = Raise StructError.
Proof. split; reflexivity. Qed.
(** ** Request frames *)

Section Frames.

Lemma bytearray_Return (l : list Z) (b : bytes) :
  bytearray l = Return b -> int_of_byte <$> b = l.
Proof.
  revert b. induction l as [|v l IH]; intros b.
  - cbn. intros [= <-]. reflexivity.
  - cbn [bytearray]. destruct (byte_of_int v) as [x|] eqn:Hx; [|discriminate].
    cbn [result_bind]. unfold result_map.
    destruct (bytearray l) as [b'|]; [|discriminate].
    cbn [result_bind]. intros [= <-].
    apply byte_of_int_Return in Hx. cbn. rewrite (IH b' eq_refl), Hx. reflexivity.
Qed.

Lemma bytearray_ok (l : list Z) :
  Forall (fun v => 0 <= v < 256) l -> exists b, bytearray l = Return b.
Proof.
  induction 1 as [|v l Hv _ [b Hb]].
  - exists []. reflexivity.
  - destruct (byte_of_int_ok v Hv) as (x & Hx & _).
    exists (x :: b). cbn [bytearray]. rewrite Hx. cbn [result_bind].
    unfold result_map. rewrite Hb. reflexivity.
Qed.

Lemma bytearray_iff (l : list Z) :
  (exists b, bytearray l = Return b) <-> Forall (fun v => 0 <= v < 256) l.
Proof.
  split; [|apply bytearray_ok].
  intros [b Hb]. apply bytearray_Return in Hb. subst l.
  apply Forall_fmap, Forall_forall. intros x _. apply int_of_byte_range.
Qed.

Lemma shiftr_8_range (v : Z) : 0 <= Z.shiftr v 8 < 256 <-> 0 <= v < 65536.
Proof.
  rewrite Z.shiftr_div_pow2 by lia. change (2 ^ 8) with 256.
  pose proof (Z_div_mod_eq_full v 256). pose proof (Z.mod_pos_bound v 256 ltac:(lia)).
  lia.
Qed.

Lemma shiftr_16_range (v : Z) : 0 <= v < 65536 -> Z.shiftr v 16 = 0.
Proof.
  intros Hv. rewrite Z.shiftr_div_pow2 by lia. change (2 ^ 16) with 65536.
  apply Z.div_small. lia.
Qed.

Lemma land_255_range (v : Z) : 0 <= Z.land v 255 < 256.
Proof. rewrite land_255. apply Z.mod_pos_bound. lia. Qed.

Lemma be_int_three (b1 b2 b3 : byte) :
  be_int [b1; b2; b3] = int_of_byte b1 * 65536 + int_of_byte b2 * 256 + int_of_byte b3.
Proof. unfold be_int. cbn. lia. Qed.

Lemma start_bytes (start : Z) :
  0 <= start < 65536 ->
  Z.shiftr start 16 * 65536 + Z.shiftr start 8 * 256 + Z.land start 255 = start.
Proof.
  intros H. rewrite shiftr_16_range by lia.
  rewrite Z.shiftr_div_pow2, land_255 by lia. change (2 ^ 8) with 256.
  pose proof (Z_div_mod_eq_full start 256). lia.
Qed.

Lemma size_bytes (size : Z) :
  0 <= size < 65536 -> 0 * 65536 + Z.shiftr size 8 * 256 + Z.land size 255 = size.
Proof.
  intros H. rewrite Z.shiftr_div_pow2, land_255 by lia. change (2 ^ 8) with 256.
  pose proof (Z_div_mod_eq_full size 256). lia.
Qed.

End Frames.

Lemma build_read_request_iff (db_number start size : Z) :
  (exists frame, SiemensS7Client._build_read_request db_number start size = Return frame)
  <-> 0 <= db_number < 256 /\ 0 <= start < 65536 /\ 0 <= size < 65536.
Proof.
  unfold SiemensS7Client._build_read_request.
  rewrite bytearray_iff, !Forall_cons, Forall_nil.
  rewrite (shiftr_8_range start), (shiftr_8_range size).
  pose proof (land_255_range start). pose proof (land_255_range size).
  split.
  - intros H'. decompose [and] H'. lia.
  - intros (Hd & Hs & Hz). rewrite (shiftr_16_range start Hs).
    repeat (split; [lia|]). exact I.
Qed.

(** X1: [_build_read_request] builds a frame exactly when the data block
    number fits one byte and the start address and the size fit 16 bits
    (the address is written as three bytes of which the upper two are not
    masked); the frame then has 34 bytes and carries the three arguments at
    offsets 26, 28-30 and 31-33. *)
Theorem build_read_request_bounds (db_number start size : Z) :
  ((exists frame, SiemensS7Client._build_read_request db_number start size = Return frame)
   <-> 0 <= db_number < 256 /\ 0 <= start < 65536 /\ 0 <= size < 65536) /\
  (forall frame,
     SiemensS7Client._build_read_request db_number start size = Return frame ->
     length frame = 34%nat /\
     int_of_byte <$> frame !! 26%nat = Some db_number /\
     be_int (slice frame 28 31) = start /\
     be_int (slice frame 31 34) = size).
Proof.
  split; [apply build_read_request_iff|].
  intros frame Hframe.
  destruct (proj1 (build_read_request_iff db_number start size) (ex_intro _ frame Hframe))
    as (Hd & Hs & Hz).
  unfold SiemensS7Client._build_read_request in Hframe.
  apply bytearray_Return in Hframe.
  do 34 (destruct frame as [|? frame]; [discriminate|]).
  destruct frame; [|discriminate].
  injection Hframe as Hframe. simplify_eq.
  split; [reflexivity|]. split; [reflexivity|].
  match goal with
  | |- be_int (slice ?l 28 31) = _ /\ be_int (slice ?l 31 34) = _ =>
      let x := eval vm_compute in (slice l 28 31) in
      let y := eval vm_compute in (slice l 31 34) in
      change (slice l 28 31) with x; change (slice l 31 34) with y
  end.
  rewrite !be_int_three.
  repeat match goal with H : int_of_byte ?b = _ |- _ => rewrite H; clear H end.
  split; [apply start_bytes|apply size_bytes]; assumption.
Qed.

Lemma build_write_request_iff (db_number start : Z) (data : bytes) :
  (exists frame, SiemensS7Client._build_write_request db_number start data = Return frame)
  <-> 0 <= db_number < 256 /\ 0 <= start < 65536 /\ (length data <= 224)%nat.
Proof.
  unfold SiemensS7Client._build_write_request, result_map.
  set (size := Z.of_nat (length data)).
  match goal with
  | |- context [bytearray ?l] =>
      assert (Hiff : (exists b, bytearray l = Return b)
                     <-> 0 <= db_number < 256 /\ 0 <= start < 65536 /\ (length data <= 224)%nat)
  end.
  { rewrite bytearray_iff, !Forall_cons, Forall_nil.
    rewrite (shiftr_8_range start), (shiftr_8_range size).
    pose proof (land_255_range start). pose proof (land_255_range size).
    split.
    - intros H'. decompose [and] H'. lia.
    - intros (Hd & Hs & Hz). rewrite (shiftr_16_range start Hs).
      repeat (split; [lia|]). exact I. }
  rewrite <- Hiff. split.
  - intros [frame Hframe]. destruct (bytearray _) as [b|]; [eauto|discriminate].
  - intros [b ->]. cbn. eauto.
Qed.

(** X2: [_build_write_request] builds a frame exactly when the data block
    number fits one byte, the start address fits 16 bits and the data have
    at most 224 bytes (the TPKT length byte is 0x1F plus the data length);
    the frame is then a header of 34 bytes that carries the arguments,
    followed by the data unchanged. *)
Theorem build_write_request_bounds (db_number start : Z) (data : bytes) :
  ((exists frame, SiemensS7Client._build_write_request db_number start data = Return frame)
   <-> 0 <= db_number < 256 /\ 0 <= start < 65536 /\ (length data <= 224)%nat) /\
  (forall frame,
     SiemensS7Client._build_write_request db_number start data = Return frame ->
     length frame = (34 + length data)%nat /\
     drop 34 frame = data /\
     int_of_byte <$> frame !! 3%nat = Some (0x1F + Z.of_nat (length data)) /\
     int_of_byte <$> frame !! 26%nat = Some db_number /\
     be_int (slice frame 28 31) = start /\
     be_int (slice frame 31 34) = Z.of_nat (length data)).
Proof.
  split; [apply build_write_request_iff|].
  intros frame Hframe.
  destruct (proj1 (build_write_request_iff db_number start data) (ex_intro _ frame Hframe))
    as (Hd & Hs & Hz).
  unfold SiemensS7Client._build_write_request, result_map in Hframe.
  destruct (bytearray _) as [header|] eqn:Hheader; [|discriminate].
  cbn in Hframe. injection Hframe as <-.
  apply bytearray_Return in Hheader.
  do 34 (destruct header as [|? header]; [discriminate|]).
  destruct header; [|discriminate].
  injection Hheader as Hheader.
  set (size := Z.of_nat (length data)) in *.
  assert (Hsize : 0 <= size < 65536) by lia.
  simplify_eq.
  split; [reflexivity|]. split; [reflexivity|].
  split; [cbn; congruence|]. split; [reflexivity|].
  match goal with
  | |- be_int (slice (?l ++ _) 28 31) = _ /\ _ =>
      let x := eval vm_compute in (slice l 28 31) in
      let y := eval vm_compute in (slice l 31 34) in
      change (slice (l ++ data) 28 31) with x; change (slice (l ++ data) 31 34) with y
  end.
  rewrite !be_int_three.
  repeat match goal with H : int_of_byte ?b = _ |- _ => rewrite H; clear H end.
  split; [apply start_bytes|apply size_bytes]; assumption.
Qed.

(** X3: with arguments for which no request can be built, [read_db] and
    [write_db] hand nothing to the socket: the result is [None] or [False]
    and the world is what it was. *)
Theorem unbuildable_request_sends_nothing
    (self : nat) (c : s7_client) (db_number start : Z) (w : world)
    (Hself : heap w !! self = Some (Siemens c)) :
  (forall size,
     ~ (0 <= db_number < 256 /\ 0 <= start < 65536 /\ 0 <= size < 65536) ->
     SiemensS7Client.read_db self db_number start size w = (w, Return None)) /\
  (forall data,
     ~ (0 <= db_number < 256 /\ 0 <= start < 65536 /\ (length data <= 224)%nat) ->
     SiemensS7Client.write_db self db_number start data w = (w, Return false)).
Proof.
  split.
  - intros size Hbad. rewrite <- build_read_request_iff in Hbad.
    unfold SiemensS7Client.read_db. run; try reflexivity.
    all: exfalso; apply Hbad; eauto.
  - intros data Hbad. rewrite <- build_write_request_iff in Hbad.
    unfold SiemensS7Client.write_db. run; try reflexivity.
    all: exfalso; apply Hbad; eauto.
Qed.

Lemma unbuildable_request_sends_nothing_witness :
  let w := world_of (Siemens s7_live) [Done []; Done response_real_25] in
  SiemensS7Client.read_db 0 1 65536 4 w = (w, Return None) /\
  SiemensS7Client.write_db 0 256 0 [x00; x01] w = (w, Return false).
Proof.
  cbn zeta.
  destruct (unbuildable_request_sends_nothing 0 s7_live 1 65536
              (world_of (Siemens s7_live) [Done []; Done response_real_25]) eq_refl)
    as [Hread _].
  destruct (unbuildable_request_sends_nothing 0 s7_live 256 0
              (world_of (Siemens s7_live) [Done []; Done response_real_25]) eq_refl)
    as [_ Hwrite].
  split; [apply Hread; lia|apply Hwrite; lia].
Defined.

(** ** Writes *)

Section Writes.

Lemma s7_parse_write_response_spec (response : bytes) :
  exists ok, SiemensS7Client._parse_write_response response = Return ok /\
             (ok = true <-> (22 <= length response)%nat /\ response !! 21%nat = Some xff).
Proof.
  unfold SiemensS7Client._parse_write_response.
  destruct (length response <? 22)%nat eqn:Hlen.
  { apply Nat.ltb_lt in Hlen. exists false. split; [reflexivity|].
    split; [discriminate|]. intros [? _]. lia. }
  apply Nat.ltb_ge in Hlen.
  destruct (lookup_lt_is_Some_2 response 21) as [b21 H21]; [lia|].
  unfold getitem, result_map. rewrite H21. cbn [result_bind].
  eexists. split; [reflexivity|]. rewrite Z.eqb_eq. split.
  - intros H. apply int_of_byte_255 in H. subst. auto.
  - intros [_ [= ->]]. reflexivity.
Qed.

Lemma modbus_parse_write_response_spec (response : bytes) :
  exists ok, SchneiderModiconClient._parse_write_response response = Return ok /\
             (ok = true <->
              (8 <= length response)%nat /\
              exists fc, response !! 7%nat = Some fc /\ Z.testbit (int_of_byte fc) 7 = false).
Proof.
  unfold SchneiderModiconClient._parse_write_response.
  destruct (length response <? 8)%nat eqn:Hlen.
  { apply Nat.ltb_lt in Hlen. exists false. split; [reflexivity|].
    split; [discriminate|]. intros [? _]. lia. }
  apply Nat.ltb_ge in Hlen.
  destruct (lookup_lt_is_Some_2 response 7) as [b7 H7]; [lia|].
  unfold getitem, result_map. rewrite H7. cbn [result_bind].
  eexists. split; [reflexivity|]. rewrite truthy_land_128, negb_true_iff. split.
  - intros H. split; [exact Hlen|]. eauto.
  - intros [_ (fc & [= <-] & Hbit)]. exact Hbit.
Qed.

End Writes.

(** X4: an S7 write never raises.  It reports success only when the
    exchange goes through and the response has at least 22 bytes with the
    status byte 0xFF at offset 21, and on a connected client with a request
    that can be built it reports success exactly then and puts that one
    request on the wire. *)
Theorem write_db_succeeds_on_status_ff
    (self : nat) (c : s7_client) (db_number start : Z) (data : bytes) (w : world)
    (Hself : heap w !! self = Some (Siemens c)) :
  let r := SiemensS7Client.write_db self db_number start data w in
  exists ok,
    r.2 = Return ok /\
    (ok = true ->
       exists sent response rest,
         net w = Done sent :: Done response :: rest /\
         (22 <= length response)%nat /\ response !! 21%nat = Some xff) /\
    (forall s frame sent response rest,
       s7_connected c = true -> s7_socket c = Some s ->
       SiemensS7Client._build_write_request db_number start data = Return frame ->
       net w = Done sent :: Done response :: rest ->
       wire r.1 = wire w ++ [frame] /\
       (ok = true <-> (22 <= length response)%nat /\ response !! 21%nat = Some xff)).
Proof.
  cbn zeta. unfold SiemensS7Client.write_db. run.
  all: (eexists; split; [reflexivity|]); (split; [|intros; simplify_eq]).
  all: try (intros; discriminate).
  all: try match goal with
       | H : negb ?b = true, H' : ?b = true |- _ => rewrite H' in H; discriminate
       end.
  all: match goal with
       | H : SiemensS7Client._parse_write_response ?a = _ |- _ =>
           destruct (s7_parse_write_response_spec a) as (ok' & Hok' & Hiff);
           rewrite H in Hok'; simplify_eq
       end.
  - intros Hok. do 3 eexists. split; [reflexivity|]. apply Hiff, Hok.
  - split; [reflexivity|apply Hiff].
Qed.

Lemma write_db_succeeds_on_status_ff_witness :
  let w := world_of (Siemens s7_live) [Done []; Done response_real_25] in
  let r := SiemensS7Client.write_db 0 100 0 [x00; x01; x00; x04] w in
  exists ok,
    r.2 = Return ok /\
    (ok = true ->
       exists sent response rest,
         net w = Done sent :: Done response :: rest /\
         (22 <= length response)%nat /\ response !! 21%nat = Some xff) /\
    (forall s frame sent response rest,
       s7_connected s7_live = true -> s7_socket s7_live = Some s ->
       SiemensS7Client._build_write_request 100 0 [x00; x01; x00; x04] = Return frame ->
       net w = Done sent :: Done response :: rest ->
       wire r.1 = wire w ++ [frame] /\
       (ok = true <-> (22 <= length response)%nat /\ response !! 21%nat = Some xff)).
Proof.
  cbn zeta.
  apply (write_db_succeeds_on_status_ff 0 s7_live 100 0 [x00; x01; x00; x04]
           (world_of (Siemens s7_live) [Done []; Done response_real_25])).
  reflexivity.
Defined.

(** ** Modbus frames *)

Section ModbusFrames.

Import SchneiderModiconClient.

Lemma pack_field_iff (f : fmt) (v : Z) :
  (exists b, pack_field f v = Return b) <-> fits (f, v).
Proof.
  unfold fits. cbn [fst snd]. split; [|apply pack_field_ok].
  intros [b Hb]. unfold pack_field in Hb.
  destruct ((0 <=? v) && (v <? 2 ^ (8 * Z.of_nat (fmt_size f)))) eqn:Hv; [|discriminate].
  apply andb_true_iff in Hv as [H0 H1]. lia.
Qed.

Lemma struct_pack_iff (fields : list (fmt * Z)) :
  (exists b, struct_pack fields = Return b) <-> Forall fits fields.
Proof.
  induction fields as [|[f v] fields IH].
  - split; [constructor|]. intros _. exists []. reflexivity.
  - rewrite Forall_cons, <- IH, <- pack_field_iff. cbn [struct_pack]. unfold result_map. split.
    + intros [b Hb]. destruct (pack_field f v) as [x|]; [|discriminate].
      cbn [result_bind] in Hb. destruct (struct_pack fields) as [rest|]; [|discriminate].
      eauto.
    + intros [[x ->] [rest ->]]. cbn. eauto.
Qed.

Lemma struct_pack_Raise_iff (fields : list (fmt * Z)) :
  (exists e, struct_pack fields = Raise e) <-> ~ Forall fits fields.
Proof.
  rewrite <- struct_pack_iff. destruct (struct_pack fields) as [b|e].
  - split; [intros [e [=]]|]. intros H. exfalso. apply H. eauto.
  - split; [|eauto]. intros _ [b [=]].
Qed.


Lemma struct_pack_length (fields : list (fmt * Z)) (b : bytes) :
  struct_pack fields = Return b -> length b = sum_list (fmt_size <$> fields.*1).
Proof. intros H. apply struct_pack_unpack in H as [H _]. exact H. Qed.

Lemma fits_H (v : Z) : fits (fmt_H, v) <-> 0 <= v < 65536.
Proof. reflexivity. Qed.

Lemma fits_B (v : Z) : fits (fmt_B, v) <-> 0 <= v < 256.
Proof. reflexivity. Qed.

End ModbusFrames.

(** X5: [_build_modbus_request] packs a frame exactly when the transaction
    id, the address and the data fit 16 bits and the unit id and the
    function code fit one byte; the frame has 12 bytes and unpacks to the
    seven fields that went in, with protocol id 0 and length 6. *)
Theorem build_modbus_request_round_trip
    (self : nat) (c : modicon_client) (function_code address data : Z) (w : world)
    (Hself : heap w !! self = Some (Schneider c)) :
  let r := SchneiderModiconClient._build_modbus_request self function_code address data w in
  r.1 = w /\
  ((exists frame, r.2 = Return frame)
   <-> 0 <= mb_transaction_id c < 65536 /\ 0 <= mb_unit_id c < 256 /\
       0 <= function_code < 256 /\ 0 <= address < 65536 /\ 0 <= data < 65536) /\
  (forall frame,
     r.2 = Return frame ->
     length frame = 12%nat /\
     struct_unpack modbus_request_fmt frame
       = Return [mb_transaction_id c; 0; 6; mb_unit_id c; function_code; address; data]).
Proof.
  cbn zeta. unfold SchneiderModiconClient._build_modbus_request. unfold_m. proj.
  rewrite Hself. cbn [fst snd]. split; [reflexivity|]. split.
  - rewrite struct_pack_iff, !Forall_cons, Forall_nil, !fits_H, !fits_B. intuition lia.
  - intros frame Hframe. split.
    + apply struct_pack_length in Hframe. exact Hframe.
    + apply struct_pack_unpack_Return in Hframe. exact Hframe.
Qed.

Lemma build_modbus_request_round_trip_witness :
  let w := world_of (Schneider modicon_live) [] in
  let r := SchneiderModiconClient._build_modbus_request 0 3 1000 2 w in
  r.1 = w /\
  ((exists frame, r.2 = Return frame)
   <-> 0 <= mb_transaction_id modicon_live < 65536 /\ 0 <= mb_unit_id modicon_live < 256 /\
       0 <= 3 < 256 /\ 0 <= 1000 < 65536 /\ 0 <= 2 < 65536) /\
  (forall frame,
     r.2 = Return frame ->
     length frame = 12%nat /\
     struct_unpack modbus_request_fmt frame
       = Return [mb_transaction_id modicon_live; 0; 6; mb_unit_id modicon_live; 3; 1000; 2]).
Proof.
  cbn zeta.
  apply (build_modbus_request_round_trip 0 modicon_live 3 1000 2
           (world_of (Schneider modicon_live) [])).
  reflexivity.
Defined.

Section ModbusWords.

Lemma struct_pack_words_iff (values : list Z) :
  (exists b, struct_pack (map (fun value => (fmt_H, value)) values) = Return b)
  <-> Forall (fun v => 0 <= v < 65536) values.
Proof.
  rewrite struct_pack_iff, Forall_map. apply Forall_iff. intros v. apply fits_H.
Qed.

Lemma words_fmt_fields (values : list Z) :
  (map (fun value => (fmt_H, value)) values).*1 = (fun _ => fmt_H) <$> values /\
  (map (fun value => (fmt_H, value)) values).*2 = values.
Proof.
  induction values as [|v values [IH1 IH2]]; [auto|].
  cbn. cbn in IH1, IH2. rewrite IH1, IH2. auto.
Qed.

End ModbusWords.


(** X6: [_build_modbus_write_multiple_request] packs a frame exactly when
    the transaction id and the address fit 16 bits, the unit id fits one
    byte, there are at most 127 values (the byte count is one byte) and
    every value fits 16 bits.  The frame is a header of 13 bytes (length
    field 7 + 2n, function 0x10, quantity n, byte count 2n) followed by the
    values as big-endian 16-bit words, and unpacking gives them back. *)
Theorem build_write_multiple_round_trip
    (self : nat) (c : modicon_client) (address : Z) (values : list Z) (w : world)
    (Hself : heap w !! self = Some (Schneider c)) :
  let r := SchneiderModiconClient._build_modbus_write_multiple_request self address values w in
  let n := Z.of_nat (length values) in
  r.1 = w /\
  ((exists frame, r.2 = Return frame)
   <-> 0 <= mb_transaction_id c < 65536 /\ 0 <= mb_unit_id c < 256 /\
       0 <= address < 65536 /\ (length values <= 127)%nat /\
       Forall (fun v => 0 <= v < 65536) values) /\
  (forall frame,
     r.2 = Return frame ->
     length frame = (13 + 2 * length values)%nat /\
     struct_unpack modbus_write_multiple_fmt (take 13 frame)
       = Return [mb_transaction_id c; 0; 7 + n * 2; mb_unit_id c; 0x10; address; n; n * 2] /\
     struct_unpack ((fun _ => fmt_H) <$> values) (drop 13 frame) = Return values).
Proof.
  cbn zeta. unfold SchneiderModiconClient._build_modbus_write_multiple_request.
  unfold_m. proj. rewrite Hself.
  set (n := Z.of_nat (length values)).
  set (header_fields := [(fmt_H, mb_transaction_id c); (fmt_H, 0); (fmt_H, 7 + n * 2);
                         (fmt_B, mb_unit_id c); (fmt_B, 16); (fmt_H, address);
                         (fmt_H, n); (fmt_B, n * 2)]).
  assert (Hheader : (exists b, struct_pack header_fields = Return b)
                    <-> 0 <= mb_transaction_id c < 65536 /\ 0 <= mb_unit_id c < 256 /\
                        0 <= address < 65536 /\ (length values <= 127)%nat).
  { unfold header_fields.
    rewrite struct_pack_iff, !Forall_cons, Forall_nil, !fits_H, !fits_B. intuition lia. }
  pose proof (struct_pack_words_iff values) as Hwords.
  destruct (struct_pack header_fields) as [header|e] eqn:Hh.
  - destruct (struct_pack (map (fun value => (fmt_H, value)) values)) as [data|e] eqn:Hd;
      cbn [fst snd].
    + split; [reflexivity|]. split.
      * split; [intros _|eauto].
        destruct (proj1 Hheader (ex_intro _ _ eq_refl)) as (? & ? & ? & ?).
        pose proof (proj1 Hwords (ex_intro _ _ eq_refl)). auto.
      * intros frame [= <-].
        pose proof (struct_pack_length _ _ Hh) as Hlen. cbn in Hlen.
        pose proof (struct_pack_length _ _ Hd) as Hlend.
        destruct (words_fmt_fields values) as [Hf1 Hf2].
        rewrite Hf1 in Hlend.
        assert (Hsum : sum_list (fmt_size <$> ((fun _ : Z => fmt_H) <$> values))
                       = (2 * length values)%nat).
        { clear. induction values; cbn in *; lia. }
        rewrite Hsum in Hlend.
        split; [rewrite length_app; lia|].
        rewrite <- Hlen at 1. rewrite take_app_length.
        rewrite <- Hlen, drop_app_length.
        split.
        -- apply struct_pack_unpack_Return in Hh. exact Hh.
        -- apply struct_pack_unpack_Return in Hd. rewrite Hf1, Hf2 in Hd. exact Hd.
    + cbn [fst snd]. split; [reflexivity|]. split; [|intros frame [=]].
      split; [intros [frame [=]]|]. intros (_ & _ & _ & _ & Hv).
      apply Hwords in Hv as [b [=]].
  - cbn [fst snd]. split; [reflexivity|]. split; [|intros frame [=]].
    split; [intros [frame [=]]|]. intros (H1 & H2 & H3 & H4 & _).
    destruct (proj2 Hheader (conj H1 (conj H2 (conj H3 H4)))) as [b [=]].
Qed.

Lemma build_write_multiple_round_trip_witness :
  let w := world_of (Schneider modicon_live) [] in
  let r := SchneiderModiconClient._build_modbus_write_multiple_request 0 1000 [1; 4] w in
  r.1 = w /\
  ((exists frame, r.2 = Return frame)
   <-> 0 <= mb_transaction_id modicon_live < 65536 /\ 0 <= mb_unit_id modicon_live < 256 /\
       0 <= 1000 < 65536 /\ (length [1; 4] <= 127)%nat /\
       Forall (fun v => 0 <= v < 65536) [1; 4]) /\
  (forall frame,
     r.2 = Return frame ->
     length frame = (13 + 2 * length [1; 4])%nat /\
     struct_unpack modbus_write_multiple_fmt (take 13 frame)
       = Return [mb_transaction_id modicon_live; 0; 7 + Z.of_nat (length [1; 4]) * 2;
                 mb_unit_id modicon_live; 0x10; 1000; Z.of_nat (length [1; 4]);
                 Z.of_nat (length [1; 4]) * 2] /\
     struct_unpack ((fun _ => fmt_H) <$> [1; 4]) (drop 13 frame) = Return [1; 4]).
Proof.
  cbn zeta.
  apply (build_write_multiple_round_trip 0 modicon_live 1000 [1; 4]
           (world_of (Schneider modicon_live) [])).
  reflexivity.
Defined.

(** ** Modbus writes and the transaction counter *)

Section ModbusWrites.

Import SchneiderModiconClient.




Lemma words_pack_ok (values : list Z) :
  Forall (fun v => 0 <= v < 65536) values ->
  exists data, struct_pack (map (fun value => (fmt_H, value)) values) = Return data /\
               struct_unpack ((fun _ => fmt_H) <$> values) data = Return values.
Proof.
  intros Hv. apply struct_pack_words_iff in Hv as [data Hd]. exists data.
  split; [exact Hd|]. apply struct_pack_unpack_Return in Hd.
  destruct (words_fmt_fields values) as [Hf1 Hf2]. rewrite Hf1, Hf2 in Hd. exact Hd.
Qed.

End ModbusWrites.

(** X7: on a connected client whose next transaction id, unit id and
    address fit their fields, with at most 127 values that each fit 16
    bits, [write_multiple_registers] sends one frame: a 13-byte header with
    the incremented transaction id, function code 0x10, the quantity and
    the byte count, followed by the values as 16-bit words.  It returns
    true exactly when the request goes out and an answer comes back that
    has at least 8 bytes and no error flag (bit 0x80) in its function-code
    byte, and false otherwise; it consumes the events of one exchange and
    leaves the client with the incremented transaction id. *)
Theorem write_multiple_registers_connected
    (self : nat) (c : modicon_client) (s : nat) (address : Z) (values : list Z) (w : world)
    (Hself : heap w !! self = Some (Schneider c))
    (Hconn : mb_connected c = true) (Hsock : mb_socket c = Some s)
    (Htid : 0 <= mb_transaction_id c + 1 < 65536) (Hunit : 0 <= mb_unit_id c < 256)
    (Haddr : 0 <= address < 65536) (Hlen : (length values <= 127)%nat)
    (Hvalues : Forall (fun v => 0 <= v < 65536) values) :
  let r := SchneiderModiconClient.write_multiple_registers self address values w in
  let n := Z.of_nat (length values) in
  exists f,
    struct_unpack modbus_write_multiple_fmt (take 13 f)
      = Return [mb_transaction_id c + 1; 0; 7 + n * 2; mb_unit_id c; 0x10; address; n; n * 2] /\
    struct_unpack ((fun _ => fmt_H) <$> values) (drop 13 f) = Return values /\
    wire r.1 = wire w ++ [f] /\
    r.2 = Return (write_acknowledged (net w)) /\
    (r.2 = Return true <->
     exists sent response rest fc,
       net w = Done sent :: Done response :: rest /\
       (8 <= length response)%nat /\
       response !! 7%nat = Some fc /\ Z.testbit (int_of_byte fc) 7 = false) /\
    net r.1 = after_exchange (net w) /\
    heap r.1 = <[self := Schneider (SchneiderModiconClient.with_transaction_id
                                      (mb_transaction_id c + 1) c)]> (heap w).
Proof.
  cbn zeta. set (n := Z.of_nat (length values)).
  enough (Hmain : exists f,
    struct_unpack modbus_write_multiple_fmt (take 13 f)
      = Return [mb_transaction_id c + 1; 0; 7 + n * 2; mb_unit_id c; 0x10; address; n; n * 2] /\
    struct_unpack ((fun _ => fmt_H) <$> values) (drop 13 f) = Return values /\
    wire (SchneiderModiconClient.write_multiple_registers self address values w).1
    = wire w ++ [f] /\
    (SchneiderModiconClient.write_multiple_registers self address values w).2
    = Return (write_acknowledged (net w)) /\
    net (SchneiderModiconClient.write_multiple_registers self address values w).1
    = after_exchange (net w) /\
    heap (SchneiderModiconClient.write_multiple_registers self address values w).1
    = <[self := Schneider (SchneiderModiconClient.with_transaction_id
                             (mb_transaction_id c + 1) c)]> (heap w)).
  { destruct Hmain as (f & H1 & H2 & H3 & H4 & H5 & H6). exists f.
    split; [exact H1|]. split; [exact H2|]. split; [exact H3|]. split; [exact H4|].
    split; [|auto]. rewrite H4, <- write_acknowledged_true.
    split; [intros [= ->]; reflexivity|intros ->; reflexivity]. }
  assert (Hheader : exists header,
    struct_pack [(fmt_H, mb_transaction_id c + 1); (fmt_H, 0); (fmt_H, 7 + n * 2);
                 (fmt_B, mb_unit_id c); (fmt_B, 16); (fmt_H, address);
                 (fmt_H, n); (fmt_B, n * 2)] = Return header).
  { apply struct_pack_iff. rewrite !Forall_cons, Forall_nil, !fits_H, !fits_B.
    unfold n. intuition lia. }
  destruct Hheader as [header Hh].
  destruct (words_pack_ok values Hvalues) as (data & Hd & Hunpack).
  exists (header ++ data).
  pose proof (struct_pack_length _ _ Hh) as Hlenh. cbn in Hlenh.
  rewrite <- Hlenh at 1. rewrite take_app_length.
  rewrite <- Hlenh, drop_app_length.
  split; [exact (struct_pack_unpack_Return _ _ Hh)|].
  split; [exact Hunpack|].
  unfold SchneiderModiconClient.write_multiple_registers,
    SchneiderModiconClient.next_transaction,
    SchneiderModiconClient._build_modbus_write_multiple_request,
    write_acknowledged, after_exchange.
  cbn zeta. fold n. run; try discriminate.
  all: try match goal with
       | H : negb (mb_connected _) = true |- _ => rewrite Hconn in H; discriminate
       end.
  all: try match goal with
       | H : SchneiderModiconClient._parse_write_response _ = _ |- _ =>
           rewrite modbus_parse_write_response_eq in H
       end.
  all: cbn [SchneiderModiconClient.with_transaction_id mb_transaction_id mb_unit_id
            mb_socket mb_connected] in *.
  all: try congruence.
  all: repeat split; try reflexivity; try congruence.
  all: match goal with
       | H : Return _ = Return ?a, E : _ !! 7%nat = _ |- Return ?a = _ =>
           rewrite E in H; symmetry; exact H
       end.
Qed.

Lemma write_multiple_registers_connected_witness :
  let w := world_of (Schneider modicon_live) [Done []; Done write_ack] in
  let r := SchneiderModiconClient.write_multiple_registers 0 1000 [1; 4] w in
  exists f,
    struct_unpack modbus_write_multiple_fmt (take 13 f)
      = Return [mb_transaction_id modicon_live + 1; 0; 7 + Z.of_nat (length [1; 4]) * 2;
                mb_unit_id modicon_live; 0x10; 1000; Z.of_nat (length [1; 4]);
                Z.of_nat (length [1; 4]) * 2] /\
    struct_unpack ((fun _ => fmt_H) <$> [1; 4]) (drop 13 f) = Return [1; 4] /\
    wire r.1 = wire w ++ [f] /\
    r.2 = Return (write_acknowledged (net w)) /\
    (r.2 = Return true <->
     exists sent response rest fc,
       net w = Done sent :: Done response :: rest /\
       (8 <= length response)%nat /\
       response !! 7%nat = Some fc /\ Z.testbit (int_of_byte fc) 7 = false) /\
    net r.1 = after_exchange (net w) /\
    heap r.1 = <[0%nat := Schneider (SchneiderModiconClient.with_transaction_id
                                   (mb_transaction_id modicon_live + 1) modicon_live)]>
                 (heap w).
Proof.
  cbn zeta.
  apply (write_multiple_registers_connected 0 modicon_live 0 1000 [1; 4]
           (world_of (Schneider modicon_live) [Done []; Done write_ack]));
    try reflexivity; try (vm_compute; intuition congruence).
  - cbn. lia.
  - repeat constructor; lia.
Defined.



(** ** Connecting and disconnecting a client *)

Section Sockets.

Lemma fresh_socket_closed (O : gset nat) : ({[fresh O]} ∪ O) ∖ {[fresh O]} = O.
Proof.
  pose proof (is_fresh O) as Hfresh. apply set_eq. intros x.
  rewrite elem_of_difference, elem_of_union, elem_of_singleton. split.
  - intros [[->|Hx] Hne]; [contradiction|exact Hx].
  - intros Hx. split; [right; exact Hx|]. intros ->. contradiction.
Qed.

Lemma s7_disconnect_spec self c w :
  heap w !! self = Some (Siemens c) ->
  SiemensS7Client.disconnect self w
  = (set_heap (insert self (closed (Siemens c)))
       (set_open_sockets (fun O => O ∖ sockets_of (Siemens c)) w), Return tt).
Proof.
  intros Hself. unfold SiemensS7Client.disconnect, closed, sockets_of, socket_of.
  destruct c as [ip rack slot [s|] conn id]; run; try discriminate.
  all: cbn [SiemensS7Client.with_socket SiemensS7Client.with_connected s7_socket s7_connected
            s7_ip_address s7_rack s7_slot s7_connection_id] in *.
  all: rewrite ?insert_insert_eq, ?difference_empty_L; reflexivity.
Qed.

Lemma modicon_disconnect_spec self c w :
  heap w !! self = Some (Schneider c) ->
  SchneiderModiconClient.disconnect self w
  = (set_heap (insert self (closed (Schneider c)))
       (set_open_sockets (fun O => O ∖ sockets_of (Schneider c)) w), Return tt).
Proof.
  intros Hself. unfold SchneiderModiconClient.disconnect, closed, sockets_of, socket_of.
  destruct c as [ip port unit [s|] conn tid]; run; try discriminate.
  all: cbn [SchneiderModiconClient.with_socket SchneiderModiconClient.with_connected
            mb_socket mb_connected mb_ip_address mb_port mb_unit_id mb_transaction_id] in *.
  all: rewrite ?insert_insert_eq, ?difference_empty_L; reflexivity.
Qed.

Lemma disconnect_of_spec self o w :
  heap w !! self = Some o ->
  disconnect_of o self w
  = (set_heap (insert self (closed o))
       (set_open_sockets (fun O => O ∖ sockets_of o) w), Return tt).
Proof.
  destruct o; [apply s7_disconnect_spec|apply modicon_disconnect_spec].
Qed.

Lemma s7_connect_sockets self c w :
  heap w !! self = Some (Siemens c) ->
  let s := fresh (open_sockets w) in
  let r := SiemensS7Client.connect self w in
  r.2 = Return (transport_connects VSiemens (net w)) /\
  registry r.1 = registry w /\ clock r.1 = clock w /\ factories r.1 = factories w /\
  if transport_connects VSiemens (net w) then
    heap r.1 = <[self := Siemens (SiemensS7Client.with_connected true
                                    (SiemensS7Client.with_socket (Some s) c))]> (heap w) /\
    open_sockets r.1 = {[s]} ∪ open_sockets w
  else
    heap r.1 = <[self := closed (Siemens c)]> (heap w) /\
    open_sockets r.1 = open_sockets w.
Proof.
  intros Hself. cbn zeta.
  unfold SiemensS7Client.connect, SiemensS7Client._send_connection_request,
    SiemensS7Client.disconnect, transport_connects, handshake_accepted, getitem, registry,
    closed.
  run.
  all: try match goal with
       | H : bytearray SiemensS7Client.iso_cr = Raise _ |- _ =>
           vm_compute in H; discriminate
       end.
  all: try discriminate.
  all: cbn [SiemensS7Client.with_socket SiemensS7Client.with_connected
            s7_socket s7_connected s7_ip_address s7_rack s7_slot s7_connection_id andb] in *.
  all: try congruence.
  all: simplify_eq.
  all: rewrite ?insert_insert_eq, ?fresh_socket_closed.
  all: repeat split; reflexivity.
Qed.

Lemma modicon_connect_sockets self c w :
  heap w !! self = Some (Schneider c) ->
  let s := fresh (open_sockets w) in
  let r := SchneiderModiconClient.connect self w in
  r.2 = Return (transport_connects VSchneider (net w)) /\
  registry r.1 = registry w /\ clock r.1 = clock w /\ factories r.1 = factories w /\
  if transport_connects VSchneider (net w) then
    heap r.1 = <[self := Schneider (SchneiderModiconClient.with_connected true
                                      (SchneiderModiconClient.with_socket (Some s) c))]>
                 (heap w) /\
    open_sockets r.1 = {[s]} ∪ open_sockets w
  else
    heap r.1 = <[self := closed (Schneider c)]> (heap w) /\
    open_sockets r.1 = open_sockets w.
Proof.
  intros Hself. cbn zeta.
  unfold SchneiderModiconClient.connect, SchneiderModiconClient.disconnect,
    transport_connects, registry, closed.
  run.
  all: try discriminate.
  all: cbn [SchneiderModiconClient.with_socket SchneiderModiconClient.with_connected
            mb_socket mb_connected mb_ip_address mb_port mb_unit_id mb_transaction_id] in *.
  all: try congruence.
  all: simplify_eq.
  all: rewrite ?insert_insert_eq, ?fresh_socket_closed.
  all: repeat split; reflexivity.
Qed.

End Sockets.

(** X9: [disconnect] of either client class never raises.  It leaves the
    object without socket and not connected, closes the socket that the
    object held, sends nothing and takes nothing from the network, and
    leaves the registry alone; a second [disconnect] changes nothing. *)
Theorem disconnect_closes_the_socket
    (self : nat) (o : object) (w : world)
    (Hself : heap w !! self = Some o) :
  let r := disconnect_of o self w in
  r.2 = Return tt /\
  heap r.1 = <[self := closed o]> (heap w) /\
  is_connected (closed o) = false /\ socket_of (closed o) = None /\
  open_sockets r.1 = open_sockets w ∖ sockets_of o /\
  net r.1 = net w /\ wire r.1 = wire w /\ registry r.1 = registry w /\
  disconnect_of (closed o) self r.1 = (r.1, Return tt).
Proof.
  cbn zeta. rewrite (disconnect_of_spec self o w Hself). cbn [fst snd].
  repeat split; try (destruct o; reflexivity).
  rewrite (disconnect_of_spec self (closed o)); [|cbn; apply lookup_insert_eq].
  f_equal. unfold set_heap, set_open_sockets. cbn.
  rewrite insert_insert_eq.
  assert (Hclosed : closed (closed o) = closed o) by (destruct o; reflexivity).
  assert (Hnone : sockets_of (closed o) = ∅) by (destruct o; reflexivity).
  rewrite Hclosed, Hnone, difference_empty_L. reflexivity.
Qed.

Lemma disconnect_closes_the_socket_witness :
  let w := world_of (Siemens s7_live) [] in
  let r := disconnect_of (Siemens s7_live) 0 w in
  r.2 = Return tt /\
  heap r.1 = <[0%nat := closed (Siemens s7_live)]> (heap w) /\
  is_connected (closed (Siemens s7_live)) = false /\
  socket_of (closed (Siemens s7_live)) = None /\
  open_sockets r.1 = open_sockets w ∖ sockets_of (Siemens s7_live) /\
  net r.1 = net w /\ wire r.1 = wire w /\ registry r.1 = registry w /\
  disconnect_of (closed (Siemens s7_live)) 0 r.1 = (r.1, Return tt).
Proof.
  cbn zeta.
  apply (disconnect_closes_the_socket 0 (Siemens s7_live) (world_of (Siemens s7_live) [])).
  reflexivity.
Defined.

(** X10: [connect] of either client class never raises and accounts for the
    socket that it creates.  When the network lets the transport connect,
    the object is connected on that one new socket; otherwise the socket is
    closed again (the set of open sockets is the one from before) and the
    object is left without socket and not connected.  The registry is not
    touched. *)
Theorem connect_accounts_for_the_socket
    (self : nat) (o : object) (w : world)
    (Hself : heap w !! self = Some o) :
  let s := fresh (open_sockets w) in
  let r := connect_of o self w in
  let ok := transport_connects (object_vendor o) (net w) in
  r.2 = Return ok /\ registry r.1 = registry w /\
  exists o',
    heap r.1 = <[self := o']> (heap w) /\ class_of o' = class_of o /\
    if ok then
      connected_on o' s /\ (s ∉ open_sockets w) /\ open_sockets r.1 = {[s]} ∪ open_sockets w
    else
      o' = closed o /\ open_sockets r.1 = open_sockets w.
Proof.
  cbn zeta. pose proof (is_fresh (open_sockets w)) as Hfresh.
  destruct o as [c|c]; cbn [connect_of object_vendor].
  - destruct (s7_connect_sockets self c w Hself) as (Hres & Hreg & _ & _ & Hok).
    split; [exact Hres|]. split; [exact Hreg|].
    destruct (transport_connects VSiemens (net w)); destruct Hok as [Hheap Hopen];
      eexists; (split; [exact Hheap|]); (split; [reflexivity|]); cbn; auto.
  - destruct (modicon_connect_sockets self c w Hself) as (Hres & Hreg & _ & _ & Hok).
    split; [exact Hres|]. split; [exact Hreg|].
    destruct (transport_connects VSchneider (net w)); destruct Hok as [Hheap Hopen];
      eexists; (split; [exact Hheap|]); (split; [reflexivity|]); cbn; auto.
Qed.

Lemma connect_accounts_for_the_socket_witness :
  let o := Siemens (SiemensS7Client.__init__ "192.168.1.100") in
  let w := world_of o [Done []; Done []; Done connection_confirm] in
  let s := fresh (open_sockets w) in
  let r := connect_of o 0 w in
  let ok := transport_connects (object_vendor o) (net w) in
  r.2 = Return ok /\ registry r.1 = registry w /\
  exists o',
    heap r.1 = <[0%nat := o']> (heap w) /\ class_of o' = class_of o /\
    if ok then
      connected_on o' s /\ (s ∉ open_sockets w) /\ open_sockets r.1 = {[s]} ∪ open_sockets w
    else
      o' = closed o /\ open_sockets r.1 = open_sockets w.
Proof.
  cbn zeta.
  apply (connect_accounts_for_the_socket 0
           (Siemens (SiemensS7Client.__init__ "192.168.1.100"))
           (world_of (Siemens (SiemensS7Client.__init__ "192.168.1.100"))
              [Done []; Done []; Done connection_confirm])).
  reflexivity.
Defined.

(** ** What the calls leave as it is *)

Section Shape.

Lemma same_shape_refl w : same_shape w w.
Proof. repeat split. Qed.

Lemma same_shape_trans w1 w2 w3 : same_shape w1 w2 -> same_shape w2 w3 -> same_shape w1 w3.
Proof.
  intros (Hr & Ho & Hh) (Hr' & Ho' & Hh').
  split; [congruence|]. split; [congruence|].
  intros r. rewrite Hh'. apply Hh.
Qed.

Lemma same_shape_ret {A} (a : A) w : same_shape w (ret a w).1.
Proof. apply same_shape_refl. Qed.

Lemma same_shape_raise {A} (e : exn) w : same_shape w (raise (A := A) e w).1.
Proof. apply same_shape_refl. Qed.

Lemma same_shape_lift {A} (r : result A) w : same_shape w (lift r w).1.
Proof. apply same_shape_refl. Qed.

Lemma same_shape_gets {A} (f : world -> A) w : same_shape w (gets f w).1.
Proof. apply same_shape_refl. Qed.

Lemma same_shape_utcnow w : same_shape w (utcnow w).1.
Proof. repeat split. Qed.

Lemma same_shape_bind {A B} (m : M A) (k : A -> M B) :
  (forall w, same_shape w (m w).1) ->
  (forall a w, same_shape w (k a w).1) ->
  forall w, same_shape w (bind m k w).1.
Proof.
  intros Hm Hk w. unfold bind. specialize (Hm w).
  destruct (m w) as [w' [a|e]]; cbn [fst] in *; [|exact Hm].
  eapply same_shape_trans; [exact Hm|apply Hk].
Qed.

Lemma same_shape_try_except {A} (body : M A) (handler : exn -> M A) :
  (forall w, same_shape w (body w).1) ->
  (forall e w, same_shape w (handler e w).1) ->
  forall w, same_shape w (try_except body handler w).1.
Proof.
  intros Hm Hk w. unfold try_except. specialize (Hm w).
  destruct (body w) as [w' [a|e]]; cbn [fst] in *; [exact Hm|].
  eapply same_shape_trans; [exact Hm|apply Hk].
Qed.

Lemma same_shape_for_each {X A} (items : list X) (body : X -> A -> M A) :
  (forall x acc w, same_shape w (body x acc w).1) ->
  forall acc w, same_shape w (for_each items body acc w).1.
Proof.
  intros Hbody. induction items as [|x items IH]; intros acc w; cbn [for_each].
  - apply same_shape_refl.
  - apply same_shape_bind; [intros w0; apply Hbody|intros a w0; apply IH].
Qed.

Lemma only_io_same_shape w w' : only_io w w' -> same_shape w w'.
Proof.
  intros (Hh & Ho & _ & _ & Hr). split; [exact Hr|]. split; [exact Ho|].
  intros r. rewrite Hh. reflexivity.
Qed.

Lemma shape_insert_tid (h : gmap nat object) self c t r :
  h !! self = Some (Schneider c) ->
  shape <$> (<[self := Schneider (SchneiderModiconClient.with_transaction_id t c)]> h) !! r
  = shape <$> h !! r.
Proof.
  intros Hself. destruct (decide (r = self)) as [->|Hne].
  - rewrite lookup_insert_eq, Hself. reflexivity.
  - rewrite lookup_insert_ne by congruence. reflexivity.
Qed.

Ltac modbus_shape :=
  unfold SchneiderModiconClient.read_holding_registers,
    SchneiderModiconClient.write_single_register,
    SchneiderModiconClient.write_multiple_registers,
    SchneiderModiconClient.next_transaction,
    SchneiderModiconClient._build_modbus_request,
    SchneiderModiconClient._build_modbus_write_multiple_request;
  run; try discriminate; try apply same_shape_refl;
  unfold same_shape, registry; cbn; repeat split;
  intros r; apply shape_insert_tid; assumption.

Lemma read_holding_registers_same_shape self address count w :
  same_shape w (SchneiderModiconClient.read_holding_registers self address count w).1.
Proof. modbus_shape. Qed.

Lemma write_single_register_same_shape self address value w :
  same_shape w (SchneiderModiconClient.write_single_register self address value w).1.
Proof. modbus_shape. Qed.

Lemma write_multiple_registers_same_shape self address values w :
  same_shape w (SchneiderModiconClient.write_multiple_registers self address values w).1.
Proof. modbus_shape. Qed.

Lemma read_db_same_shape self db_number start size w :
  same_shape w (SiemensS7Client.read_db self db_number start size w).1.
Proof. apply only_io_same_shape, read_db_only_io. Qed.

Lemma write_db_same_shape self db_number start data w :
  same_shape w (SiemensS7Client.write_db self db_number start data w).1.
Proof. apply only_io_same_shape, write_db_only_io. Qed.

Ltac shape_step :=
  first
    [ apply same_shape_refl
    | apply same_shape_ret
    | apply same_shape_raise
    | apply same_shape_lift
    | apply same_shape_gets
    | apply same_shape_utcnow
    | apply read_db_same_shape
    | apply write_db_same_shape
    | apply read_holding_registers_same_shape
    | apply write_single_register_same_shape
    | apply write_multiple_registers_same_shape
    | apply same_shape_bind; [intros ?|intros ? ?]
    | apply same_shape_try_except; [intros ?|intros ? ?]
    | apply same_shape_for_each; intros ? ? ?
    | match goal with
      | |- context [if ?b then _ else _] => destruct b
      | |- context [match ?x with _ => _ end] => destruct x
      end ].

Ltac shape := repeat shape_step.

Lemma siemens_item_same_shape client item sensor_data w :
  same_shape w (PLCIntegrationService.siemens_item client item sensor_data w).1.
Proof. unfold PLCIntegrationService.siemens_item. cbn zeta. shape. Qed.

Lemma schneider_item_same_shape client item sensor_data w :
  same_shape w (PLCIntegrationService.schneider_item client item sensor_data w).1.
Proof. unfold PLCIntegrationService.schneider_item. cbn zeta. shape. Qed.

Lemma read_sensor_data_from_plc_same_shape factory_id machine_id sensor_config w :
  same_shape w
    (PLCIntegrationService.read_sensor_data_from_plc factory_id machine_id sensor_config w).1.
Proof.
  unfold PLCIntegrationService.read_sensor_data_from_plc,
    PLCIntegrationService._read_siemens_sensor_data,
    PLCIntegrationService._read_schneider_sensor_data.
  cbn zeta. shape.
  - apply siemens_item_same_shape.
  - apply schneider_item_same_shape.
Qed.

Lemma write_alert_to_plc_same_shape factory_id alert_data w :
  same_shape w (PLCIntegrationService.write_alert_to_plc factory_id alert_data w).1.
Proof.
  unfold PLCIntegrationService.write_alert_to_plc,
    PLCIntegrationService._write_siemens_alert,
    PLCIntegrationService._write_schneider_alert.
  cbn zeta. shape.
Qed.

Lemma test_plc_communication_same_shape factory_id w :
  same_shape w (PLCIntegrationService.test_plc_communication factory_id w).1.
Proof. unfold PLCIntegrationService.test_plc_communication. cbn zeta. shape. Qed.

Lemma get_connection_status_same_shape w :
  same_shape w (PLCIntegrationService.get_connection_status w).1.
Proof. unfold PLCIntegrationService.get_connection_status. cbn zeta. shape. Qed.

End Shape.

(** ** The registry stays consistent *)

Section Consistency.

Lemma shape_fields o o' :
  shape o' = shape o ->
  class_of o' = class_of o /\ is_connected o' = is_connected o /\ socket_of o' = socket_of o.
Proof. unfold shape. intros [= H1 H2 H3]. auto. Qed.

Lemma connected_on_flags o s :
  connected_on o s <-> is_connected o = true /\ socket_of o = Some s.
Proof. destruct o; reflexivity. Qed.

Lemma class_of_siemens o : class_of o = "siemens" <-> exists c, o = Siemens c.
Proof.
  destruct o as [c|c]; cbn; split; try discriminate; eauto.
  intros [c' [=]].
Qed.

Lemma class_of_schneider o : class_of o = "schneider" <-> exists c, o = Schneider c.
Proof.
  destruct o as [c|c]; cbn; split; try discriminate; eauto.
  intros [c' [=]].
Qed.

Lemma lookup_shape (h h' : gmap nat object) r o :
  (forall r, shape <$> h' !! r = shape <$> h !! r) ->
  h !! r = Some o -> exists o', h' !! r = Some o' /\ shape o' = shape o.
Proof.
  intros Hh Hr. specialize (Hh r). rewrite Hr in Hh.
  destruct (h' !! r) as [o'|]; [|discriminate].
  exists o'. split; [reflexivity|]. unfold shape in *. cbn in Hh. congruence.
Qed.

Lemma consistent_same_shape w w' : same_shape w w' -> consistent w -> consistent w'.
Proof.
  intros (Hreg & Hopen & Hheap) [Hlive Hsc Hmc Hone Hsock].
  unfold registry in Hreg. injection Hreg as Hs Hm Ha.
  assert (Hback : forall r o', heap w' !! r = Some o' ->
                    exists o, heap w !! r = Some o /\ shape o = shape o').
  { intros r o' Hr. apply (lookup_shape (heap w') (heap w) r o'); [|exact Hr].
    intros r0. symmetry. apply Hheap. }
  split.
  - intros factory_id conn Hc. rewrite Ha in Hc.
    destruct (Hlive _ _ Hc) as (o & s & Ho & Hclass & Hcon & Hdict).
    destruct (lookup_shape _ _ _ _ Hheap Ho) as (o' & Ho' & Hshape).
    apply shape_fields in Hshape as (Hc1 & Hc2 & Hc3).
    exists o', s. split; [exact Ho'|]. split; [congruence|].
    split; [apply connected_on_flags; apply connected_on_flags in Hcon; intuition congruence|].
    rewrite Hs, Hm. destruct o, o'; try discriminate; exact Hdict.
  - intros factory_id r Hr. rewrite Hs in Hr. destruct (Hsc _ _ Hr) as [c Hc].
    destruct (lookup_shape _ _ _ _ Hheap Hc) as (o' & Ho' & Hshape).
    apply shape_fields in Hshape as (Hc1 & _). apply class_of_siemens in Hc1 as [c' ->]. eauto.
  - intros factory_id r Hr. rewrite Hm in Hr. destruct (Hmc _ _ Hr) as [c Hc].
    destruct (lookup_shape _ _ _ _ Hheap Hc) as (o' & Ho' & Hshape).
    apply shape_fields in Hshape as (Hc1 & _). apply class_of_schneider in Hc1 as [c' ->]. eauto.
  - unfold registered. rewrite Hs, Hm, Ha. exact Hone.
  - intros r o' s Hr Hso. destruct (Hback _ _ Hr) as (o & Ho & Hshape).
    apply shape_fields in Hshape as (_ & _ & Hc3).
    destruct (Hsock r o s Ho ltac:(congruence)) as [Hin Huniq].
    rewrite Hopen. split; [exact Hin|].
    intros r2 o2' Hr2 Hso2. destruct (Hback _ _ Hr2) as (o2 & Ho2 & Hshape2).
    apply shape_fields in Hshape2 as (_ & _ & Hc3').
    apply (Huniq r2 o2 Ho2). congruence.
Qed.

Lemma consistent_fresh_service evs now rows : consistent (fresh_service evs now rows).
Proof.
  split; cbn.
  - intros factory_id conn H. rewrite lookup_empty in H. discriminate.
  - intros factory_id r H. rewrite lookup_empty in H. discriminate.
  - intros factory_id r H. rewrite lookup_empty in H. discriminate.
  - unfold registered. cbn. intros f f' r [H|[H|(conn & H & _)]];
      rewrite lookup_empty in H; discriminate.
  - intros r o s H. rewrite lookup_empty in H. discriminate.
Qed.

Lemma outside_same_shape evs now rows w : same_shape w (outside evs now rows w).
Proof. repeat split. Qed.

Lemma connect_to_factory_plcs_skips factory_id w :
  (forall factory, factories w !! factory_id = Some factory -> vendor_of factory = None) ->
  PLCIntegrationService.connect_to_factory_plcs factory_id w = (w, Return ∅).
Proof.
  intros Hv. unfold PLCIntegrationService.connect_to_factory_plcs. unfold_m. proj.
  destruct (factories w !! factory_id) as [factory|]; [|reflexivity].
  specialize (Hv factory eq_refl). unfold vendor_of in Hv.
  destruct (truthy_str (plc_type factory) && truthy_str (plc_ip factory)); [|reflexivity].
  destruct (String.prefix "siemens" (default "" (plc_type factory))); [discriminate|].
  destruct (String.prefix "schneider" (default "" (plc_type factory))); [discriminate|].
  reflexivity.
Qed.

Lemma connect_to_factory_plcs_world factory_id factory v w :
  factories w !! factory_id = Some factory ->
  vendor_of factory = Some v ->
  let r := PLCIntegrationService.connect_to_factory_plcs factory_id w in
  let ref := fresh (dom (heap w)) in
  let s := fresh (open_sockets w) in
  r.2 = Return {[factory_id := transport_connects v (net w)]} /\
  exists o',
    class_of o' = vendor_name v /\ heap r.1 = <[ref := o']> (heap w) /\
    if transport_connects v (net w) then
      connected_on o' s /\ open_sockets r.1 = {[s]} ∪ open_sockets w /\
      active_connections r.1
        = <[factory_id := Connection (vendor_name v) ref (clock w)]> (active_connections w) /\
      siemens_clients r.1
        = match v with
          | VSiemens => <[factory_id := ref]> (siemens_clients w)
          | VSchneider => siemens_clients w
          end /\
      schneider_clients r.1
        = match v with
          | VSiemens => schneider_clients w
          | VSchneider => <[factory_id := ref]> (schneider_clients w)
          end
    else
      socket_of o' = None /\ is_connected o' = false /\
      open_sockets r.1 = open_sockets w /\ registry r.1 = registry w.
Proof.
  intros Hfac Hv. cbn zeta.
  unfold PLCIntegrationService.connect_to_factory_plcs. unfold_m. proj. rewrite Hfac.
  unfold vendor_of in Hv.
  destruct (truthy_str (plc_type factory) && truthy_str (plc_ip factory)); [|discriminate].
  destruct (String.prefix "siemens" (default "" (plc_type factory))).
  - injection Hv as <-.
    match goal with
    | |- context [SiemensS7Client.connect ?r ?w0] =>
        destruct (s7_connect_sockets r
                    (SiemensS7Client.__init__ (default "" (plc_ip factory))) w0)
          as (Hres & Hreg & Hclock & Hfacs & Hok);
          [cbn; apply lookup_insert_eq|];
        destruct (SiemensS7Client.connect r w0) as [w1 r1]
    end.
    cbn [fst snd net heap clock open_sockets] in *. subst r1.
    unfold registry in Hreg. cbn in Hreg. injection Hreg as Hs Hm Ha.
    rewrite !insert_insert_eq in Hok.
    destruct (transport_connects VSiemens (net w)); destruct Hok as [Hheap Hopen]; proj.
    + rewrite insert_empty. split; [reflexivity|]. eexists. split; [|split; [exact Hheap|]].
      { reflexivity. }
      cbn [vendor_name connected_on SiemensS7Client.with_connected
           SiemensS7Client.with_socket s7_connected s7_socket].
      rewrite Hclock, Hs, Hm, Ha. auto.
    + rewrite insert_empty. split; [reflexivity|]. eexists. split; [|split; [exact Hheap|]].
      { reflexivity. }
      unfold registry. rewrite Hs, Hm, Ha. auto.
  - destruct (String.prefix "schneider" (default "" (plc_type factory))); [|discriminate].
    injection Hv as <-.
    match goal with
    | |- context [SchneiderModiconClient.connect ?r ?w0] =>
        match goal with
        | |- context [<[r := Schneider ?c0]> _] =>
            destruct (modicon_connect_sockets r c0 w0)
              as (Hres & Hreg & Hclock & Hfacs & Hok);
              [cbn; apply lookup_insert_eq|]
        end;
        destruct (SchneiderModiconClient.connect r w0) as [w1 r1]
    end.
    cbn [fst snd net heap clock open_sockets] in *. subst r1.
    unfold registry in Hreg. cbn in Hreg. injection Hreg as Hs Hm Ha.
    rewrite !insert_insert_eq in Hok.
    destruct (transport_connects VSchneider (net w)); destruct Hok as [Hheap Hopen]; proj.
    + rewrite insert_empty. split; [reflexivity|]. eexists. split; [|split; [exact Hheap|]].
      { reflexivity. }
      cbn [vendor_name connected_on SchneiderModiconClient.with_connected
           SchneiderModiconClient.with_socket mb_connected mb_socket].
      rewrite Hclock, Hs, Hm, Ha. auto.
    + rewrite insert_empty. split; [reflexivity|]. eexists. split; [|split; [exact Hheap|]].
      { reflexivity. }
      unfold registry. rewrite Hs, Hm, Ha. auto.
Qed.

Lemma registered_in_heap w factory_id r :
  consistent w -> registered w factory_id r -> is_Some (heap w !! r).
Proof.
  intros [Hlive Hsc Hmc _ _] [H|[H|(conn & H & <-)]].
  - destruct (Hsc _ _ H) as [c Hc]. eauto.
  - destruct (Hmc _ _ H) as [c Hc]. eauto.
  - destruct (Hlive _ _ H) as (o & s & Ho & _). eauto.
Qed.

Lemma consistent_connect factory_id w :
  consistent w -> consistent (PLCIntegrationService.connect_to_factory_plcs factory_id w).1.
Proof.
  intros Hc.
  destruct (factories w !! factory_id) as [factory|] eqn:Hfac;
    [destruct (vendor_of factory) as [v|] eqn:Hv|].
  2,3: rewrite connect_to_factory_plcs_skips; [exact Hc|intros f Hf; congruence].
  destruct (connect_to_factory_plcs_world factory_id factory v w Hfac Hv)
    as (_ & o' & Hclass & Hheap & Hrest).
  destruct (PLCIntegrationService.connect_to_factory_plcs factory_id w) as [w' res].
  cbn [fst snd] in *.
  set (ref := fresh (dom (heap w))) in *. set (s := fresh (open_sockets w)) in *.
  assert (Href : heap w !! ref = None) by (apply not_elem_of_dom, is_fresh).
  assert (Hs : s ∉ open_sockets w) by apply is_fresh.
  assert (Hold : forall x o, heap w !! x = Some o -> heap w' !! x = Some o).
  { intros x o Hx. rewrite Hheap, lookup_insert_ne; [exact Hx|]. intros <-. congruence. }
  assert (Hnew : heap w' !! ref = Some o') by (rewrite Hheap; apply lookup_insert_eq).
  assert (Hinv : forall x o, heap w' !! x = Some o ->
                   (x = ref /\ o = o') \/ heap w !! x = Some o).
  { intros x o Hx. rewrite Hheap in Hx.
    apply lookup_insert_Some in Hx as [[<- <-]|[_ Hx]]; auto. }
  pose proof (registered_in_heap w) as Hin_heap.
  pose proof Hc as [Hlive Hsc Hmc Hone Hsock].
  destruct (transport_connects v (net w)).
  - destruct Hrest as (Hcon & Hopen & Ha & Hsi & Hmo).
    assert (Hso' : socket_of o' = Some s) by (apply connected_on_flags in Hcon; tauto).
    assert (Hreg' : forall f x, registered w' f x ->
                      (f = factory_id /\ x = ref) \/ registered w f x).
    { unfold registered. rewrite Ha, Hsi, Hmo. intros f x [H|[H|(conn & H & Heq)]].
      - destruct v; [|auto].
        apply lookup_insert_Some in H as [[<- <-]|[_ H]]; auto.
      - destruct v; [auto|].
        apply lookup_insert_Some in H as [[<- <-]|[_ H]]; auto.
      - apply lookup_insert_Some in H as [[<- <-]|[_ H]]; [auto|].
        right. right. right. eauto. }
    split.
    + intros f conn H. rewrite Ha in H.
      apply lookup_insert_Some in H as [[<- <-]|[Hne H]].
      * exists o', s. cbn [conn_client conn_type].
        split; [exact Hnew|]. split; [exact Hclass|]. split; [exact Hcon|].
        rewrite Hsi, Hmo.
        destruct o' as [c|c], v; cbn in Hclass; try discriminate; apply lookup_insert_eq.
      * destruct (Hlive _ _ H) as (o & s0 & Ho & Hcl & Hcn & Hd).
        exists o, s0. split; [apply Hold, Ho|]. split; [exact Hcl|]. split; [exact Hcn|].
        rewrite Hsi, Hmo.
        destruct o, v; rewrite ?lookup_insert_ne by congruence; exact Hd.
    + intros f x H. rewrite Hsi in H. destruct v.
      * apply lookup_insert_Some in H as [[<- <-]|[_ H]].
        -- apply class_of_siemens in Hclass as [c ->]. eauto.
        -- destruct (Hsc _ _ H) as [c Hx]. eauto.
      * destruct (Hsc _ _ H) as [c Hx]. eauto.
    + intros f x H. rewrite Hmo in H. destruct v.
      * destruct (Hmc _ _ H) as [c Hx]. eauto.
      * apply lookup_insert_Some in H as [[<- <-]|[_ H]].
        -- apply class_of_schneider in Hclass as [c ->]. eauto.
        -- destruct (Hmc _ _ H) as [c Hx]. eauto.
    + intros f f' x H1 H2. apply Hreg' in H1, H2.
      destruct H1 as [[Hf1 Hx1]|H1], H2 as [[Hf2 Hx2]|H2].
      * congruence.
      * subst x. apply Hin_heap in H2; [|exact Hc]. rewrite Href in H2.
        destruct H2; discriminate.
      * subst x. apply Hin_heap in H1; [|exact Hc]. rewrite Href in H1.
        destruct H1; discriminate.
      * exact (Hone _ _ _ H1 H2).
    + intros x o s' Hx Hso. rewrite Hopen.
      apply Hinv in Hx as [[-> ->]|Hx].
      * assert (s' = s) as -> by congruence.
        split; [apply elem_of_union_l, elem_of_singleton; reflexivity|].
        intros x2 o2 Hx2 Hso2. apply Hinv in Hx2 as [[-> ->]|Hx2]; [reflexivity|].
        destruct (Hsock _ _ _ Hx2 Hso2) as [Hin _]. contradiction.
      * destruct (Hsock _ _ _ Hx Hso) as [Hin Huniq].
        split; [apply elem_of_union_r; exact Hin|].
        intros x2 o2 Hx2 Hso2. apply Hinv in Hx2 as [[-> ->]|Hx2].
        -- assert (s' = s) as -> by congruence. contradiction.
        -- exact (Huniq _ _ Hx2 Hso2).
  - destruct Hrest as (Hnone & _ & Hopen & Hreg).
    unfold registry in Hreg. injection Hreg as Hsi Hmo Ha.
    split.
    + intros f conn H. rewrite Ha in H.
      destruct (Hlive _ _ H) as (o & s0 & Ho & Hcl & Hcn & Hd).
      exists o, s0. rewrite Hsi, Hmo. auto.
    + intros f x H. rewrite Hsi in H. destruct (Hsc _ _ H) as [c Hx]. eauto.
    + intros f x H. rewrite Hmo in H. destruct (Hmc _ _ H) as [c Hx]. eauto.
    + unfold registered. rewrite Hsi, Hmo, Ha. exact Hone.
    + intros x o s' Hx Hso. rewrite Hopen.
      apply Hinv in Hx as [[-> ->]|Hx]; [congruence|].
      destruct (Hsock _ _ _ Hx Hso) as [Hin Huniq]. split; [exact Hin|].
      intros x2 o2 Hx2 Hso2. apply Hinv in Hx2 as [[-> ->]|Hx2]; [congruence|].
      exact (Huniq _ _ Hx2 Hso2).
Qed.

Lemma elem_of_sockets_of o s : s ∈ sockets_of o <-> socket_of o = Some s.
Proof.
  unfold sockets_of. destruct (socket_of o) as [s'|].
  - rewrite elem_of_singleton. split; congruence.
  - rewrite elem_of_empty. split; [contradiction|discriminate].
Qed.

Lemma disconnect_factory_plcs_spec factory_id w :
  consistent w ->
  let r := PLCIntegrationService.disconnect_factory_plcs factory_id w in
  r.2 = Return tt /\
  net r.1 = net w /\ wire r.1 = wire w /\ clock r.1 = clock w /\
  factories r.1 = factories w /\
  siemens_clients r.1 = delete factory_id (siemens_clients w) /\
  schneider_clients r.1 = delete factory_id (schneider_clients w) /\
  active_connections r.1 = delete factory_id (active_connections w) /\
  (forall x, heap r.1 !! x
             = if bool_decide (x ∈ vendor_clients w factory_id)
               then closed <$> heap w !! x else heap w !! x) /\
  (forall s, s ∈ open_sockets r.1 <->
             s ∈ open_sockets w /\
             forall x o, x ∈ vendor_clients w factory_id -> heap w !! x = Some o ->
                         socket_of o <> Some s).
Proof.
  intros [_ Hsc Hmc _ _]. cbn zeta.
  unfold PLCIntegrationService.disconnect_factory_plcs, vendor_clients.
  specialize (Hsc factory_id). specialize (Hmc factory_id).
  unfold_m. proj.
  destruct (siemens_clients w !! factory_id) as [r1|] eqn:H1.
  - destruct (Hsc r1 eq_refl) as [c1 Hc1].
    rewrite (s7_disconnect_spec r1 c1 w Hc1). unfold_m. proj.
    destruct (schneider_clients w !! factory_id) as [r2|] eqn:H2.
    + destruct (Hmc r2 eq_refl) as [c2 Hc2].
      match goal with
      | |- context [SchneiderModiconClient.disconnect ?r ?w0] =>
          rewrite (modicon_disconnect_spec r c2 w0);
            [|cbn; rewrite lookup_insert_ne by congruence; exact Hc2]
      end.
      unfold_m. proj.
      destruct (active_connections w !! factory_id) as [conn|] eqn:H3; proj.
      all: rewrite ?(delete_id _ _ H3).
      all: repeat (split; [reflexivity|]); split.
      all: cbn [option_list option_rect app].
      1,3: intros x; destruct (decide (x = r2)) as [->|Hne2];
        [rewrite lookup_insert_eq, bool_decide_true, Hc2 by (repeat first [apply list_elem_of_here | apply list_elem_of_further]); reflexivity|];
        rewrite lookup_insert_ne by congruence;
        destruct (decide (x = r1)) as [->|Hne1];
        [rewrite lookup_insert_eq, bool_decide_true, Hc1 by (repeat first [apply list_elem_of_here | apply list_elem_of_further]); reflexivity|];
        rewrite lookup_insert_ne by congruence; rewrite bool_decide_false; [reflexivity|]; rewrite ?elem_of_cons, ?elem_of_nil; intuition congruence.
      all: intros s; rewrite !elem_of_difference, !elem_of_sockets_of; split;
        [ intros [[HO Hn1] Hn2]; split; [exact HO|]; intros x o Hx Ho;
          apply elem_of_cons in Hx as [->|Hx]; [congruence|];
          apply list_elem_of_singleton in Hx as ->; congruence
        | intros [HO Hall]; split; [split; [exact HO|]|];
          [ apply (Hall r1 _ ltac:(repeat first [apply list_elem_of_here | apply list_elem_of_further]) Hc1)
          | apply (Hall r2 _ ltac:(repeat first [apply list_elem_of_here | apply list_elem_of_further]) Hc2) ] ].
    + proj. destruct (active_connections w !! factory_id) as [conn|] eqn:H3; proj.
      all: rewrite ?(delete_id _ _ H3), ?(delete_id _ _ H2).
      all: repeat (split; [reflexivity|]); split.
      all: cbn [option_list option_rect app].
      1,3: intros x; destruct (decide (x = r1)) as [->|Hne1];
        [rewrite lookup_insert_eq, bool_decide_true, Hc1 by (repeat first [apply list_elem_of_here | apply list_elem_of_further]); reflexivity|];
        rewrite lookup_insert_ne by congruence; rewrite bool_decide_false; [reflexivity|]; rewrite ?elem_of_cons, ?elem_of_nil; intuition congruence.
      all: intros s; rewrite !elem_of_difference, !elem_of_sockets_of; split;
        [ intros [HO Hn1]; split; [exact HO|]; intros x o Hx Ho;
          apply list_elem_of_singleton in Hx as ->; congruence
        | intros [HO Hall]; split; [exact HO|];
          apply (Hall r1 _ ltac:(repeat first [apply list_elem_of_here | apply list_elem_of_further]) Hc1) ].
  - destruct (schneider_clients w !! factory_id) as [r2|] eqn:H2.
    + destruct (Hmc r2 eq_refl) as [c2 Hc2].
      rewrite (modicon_disconnect_spec r2 c2 w Hc2). unfold_m. proj.
      destruct (active_connections w !! factory_id) as [conn|] eqn:H3; proj.
      all: rewrite ?(delete_id _ _ H3), ?(delete_id _ _ H1).
      all: repeat (split; [reflexivity|]); split.
      all: cbn [option_list option_rect app].
      1,3: intros x; destruct (decide (x = r2)) as [->|Hne2];
        [rewrite lookup_insert_eq, bool_decide_true, Hc2 by (repeat first [apply list_elem_of_here | apply list_elem_of_further]); reflexivity|];
        rewrite lookup_insert_ne by congruence; rewrite bool_decide_false; [reflexivity|]; rewrite ?elem_of_cons, ?elem_of_nil; intuition congruence.
      all: intros s; rewrite !elem_of_difference, !elem_of_sockets_of; split;
        [ intros [HO Hn1]; split; [exact HO|]; intros x o Hx Ho;
          apply list_elem_of_singleton in Hx as ->; congruence
        | intros [HO Hall]; split; [exact HO|];
          apply (Hall r2 _ ltac:(repeat first [apply list_elem_of_here | apply list_elem_of_further]) Hc2) ].
    + proj. destruct (active_connections w !! factory_id) as [conn|] eqn:H3; proj.
      all: rewrite ?(delete_id _ _ H3), ?(delete_id _ _ H1), ?(delete_id _ _ H2).
      all: repeat (split; [reflexivity|]).
      all: intros s; split; [|tauto]; intros HO; split; [exact HO|];
        intros x o Hx; apply elem_of_nil in Hx; contradiction.
Qed.

Lemma elem_of_option_list_Some {A} (mx : option A) (x : A) :
  x ∈ option_list mx <-> mx = Some x.
Proof.
  destruct mx as [y|]; cbn.
  - rewrite list_elem_of_singleton. split; congruence.
  - rewrite elem_of_nil. split; [contradiction|discriminate].
Qed.

Lemma vendor_clients_registered w factory_id x :
  x ∈ vendor_clients w factory_id -> registered w factory_id x.
Proof.
  unfold vendor_clients, registered. rewrite elem_of_app, !elem_of_option_list_Some. tauto.
Qed.

Lemma socket_of_closed o : socket_of (closed o) = None.
Proof. destruct o; reflexivity. Qed.

Lemma consistent_disconnect factory_id w :
  consistent w -> consistent (PLCIntegrationService.disconnect_factory_plcs factory_id w).1.
Proof.
  intros Hc.
  destruct (disconnect_factory_plcs_spec factory_id w Hc)
    as (_ & _ & _ & _ & _ & Hsi & Hmo & Ha & Hheap & Hopen).
  destruct (PLCIntegrationService.disconnect_factory_plcs factory_id w) as [w' res].
  cbn [fst snd] in *.
  pose proof Hc as [Hlive Hsc Hmc Hone Hsock].
  assert (Hkeep : forall f x, f <> factory_id -> registered w f x ->
                    heap w' !! x = heap w !! x).
  { intros f x Hne Hreg. rewrite Hheap, bool_decide_false; [reflexivity|].
    intros Hin. apply vendor_clients_registered in Hin.
    apply Hne. exact (Hone _ _ _ Hreg Hin). }
  assert (Hinv : forall x o, heap w' !! x = Some o ->
                   socket_of o = None \/
                   ((x ∉ vendor_clients w factory_id) /\ heap w !! x = Some o)).
  { intros x o Hx. rewrite Hheap in Hx. case_bool_decide as Hin.
    - left. destruct (heap w !! x) as [o0|]; [|discriminate].
      injection Hx as <-. apply socket_of_closed.
    - right. auto. }
  assert (Hreg' : forall f x, registered w' f x -> f <> factory_id /\ registered w f x).
  { unfold registered. rewrite Hsi, Hmo, Ha. intros f x [H|[H|(conn & H & Heq)]].
    - apply lookup_delete_Some in H as [Hne H]. split; [congruence|auto].
    - apply lookup_delete_Some in H as [Hne H]. split; [congruence|auto].
    - apply lookup_delete_Some in H as [Hne H]. split; [congruence|].
      right. right. eauto. }
  split.
  - intros f conn H. rewrite Ha in H. apply lookup_delete_Some in H as [Hne H].
    destruct (Hlive _ _ H) as (o & s & Ho & Hcl & Hcn & Hd).
    exists o, s. split.
    { rewrite (Hkeep f); [exact Ho|congruence|]. right. right. eauto. }
    split; [exact Hcl|]. split; [exact Hcn|].
    rewrite Hsi, Hmo. destruct o; rewrite lookup_delete_ne by congruence; exact Hd.
  - intros f x H. rewrite Hsi in H. apply lookup_delete_Some in H as [Hne H].
    destruct (Hsc _ _ H) as [c Hx]. exists c.
    rewrite (Hkeep f); [exact Hx|congruence|]. left. exact H.
  - intros f x H. rewrite Hmo in H. apply lookup_delete_Some in H as [Hne H].
    destruct (Hmc _ _ H) as [c Hx]. exists c.
    rewrite (Hkeep f); [exact Hx|congruence|]. right. left. exact H.
  - intros f f' x H1 H2. apply Hreg' in H1 as [_ H1], H2 as [_ H2].
    exact (Hone _ _ _ H1 H2).
  - intros x o s Hx Hso. apply Hinv in Hx as [Hx|[Hnin Hx]]; [congruence|].
    destruct (Hsock _ _ _ Hx Hso) as [Hin Huniq]. split.
    + apply Hopen. split; [exact Hin|]. intros x2 o2 Hin2 Hx2 Hso2.
      apply Hnin. rewrite <- (Huniq _ _ Hx2 Hso2). exact Hin2.
    + intros x2 o2 Hx2 Hso2. apply Hinv in Hx2 as [Hx2|[_ Hx2]]; [congruence|].
      exact (Huniq _ _ Hx2 Hso2).
Qed.

Lemma fst_discard {A} (m : M A) w : (discard m w).1 = (m w).1.
Proof. unfold discard, bind, ret. destruct (m w) as [w' [a|e]]; reflexivity. Qed.

Lemma consistent_api call w : consistent w -> consistent (api call w).1.
Proof.
  intros Hc. destruct call; cbn [api]; rewrite ?fst_discard.
  - apply consistent_connect, Hc.
  - apply consistent_disconnect, Hc.
  - eapply consistent_same_shape; [apply read_sensor_data_from_plc_same_shape|exact Hc].
  - eapply consistent_same_shape; [apply write_alert_to_plc_same_shape|exact Hc].
  - eapply consistent_same_shape; [apply test_plc_communication_same_shape|exact Hc].
  - eapply consistent_same_shape; [apply get_connection_status_same_shape|exact Hc].
Qed.

Lemma consistent_reachable w : reachable w -> consistent w.
Proof.
  induction 1 as [evs now rows|call w _ IH|evs now rows w _ IH].
  - apply consistent_fresh_service.
  - apply consistent_api, IH.
  - eapply consistent_same_shape; [apply outside_same_shape|exact IH].
Qed.

End Consistency.

(** ** The facade over its lifetime *)

Section Lifetime.

Lemma not_registered_calls factory_id machine_id sensor_config alert_data w :
  active_connections w !! factory_id = None ->
  PLCIntegrationService.read_sensor_data_from_plc factory_id machine_id sensor_config w
    = (w, Return None) /\
  PLCIntegrationService.write_alert_to_plc factory_id alert_data w = (w, Return false) /\
  PLCIntegrationService.test_plc_communication factory_id w
    = (w, Return (TestResult false NotConnectedToPLC None)).
Proof.
  intros Hnone.
  unfold PLCIntegrationService.read_sensor_data_from_plc,
    PLCIntegrationService.write_alert_to_plc, PLCIntegrationService.test_plc_communication.
  unfold_m. proj. rewrite Hnone. auto.
Qed.

Lemma disconnect_unregistered factory_id w :
  consistent w ->
  siemens_clients w !! factory_id = None ->
  schneider_clients w !! factory_id = None ->
  active_connections w !! factory_id = None ->
  let w' := (PLCIntegrationService.disconnect_factory_plcs factory_id w).1 in
  registry w' = registry w /\ open_sockets w' = open_sockets w.
Proof.
  intros Hc H1 H2 H3. cbn zeta.
  destruct (disconnect_factory_plcs_spec factory_id w Hc)
    as (_ & _ & _ & _ & _ & Hsi & Hmo & Ha & _ & Hopen).
  destruct (PLCIntegrationService.disconnect_factory_plcs factory_id w) as [w' res].
  cbn [fst snd] in *. split.
  - unfold registry. rewrite Hsi, Hmo, Ha, !delete_id by assumption. reflexivity.
  - apply set_eq. intros s. rewrite Hopen. unfold vendor_clients. rewrite H1, H2. cbn.
    split; [tauto|]. intros Hs. split; [exact Hs|].
    intros x o Hx. apply elem_of_nil in Hx. contradiction.
Qed.

End Lifetime.

(** X11: in every state that the service can reach,
    [disconnect_factory_plcs] returns; the factory is then in none of the
    three dicts, the entries of the other factories are the ones from
    before, the client objects that the vendor dicts held for the factory
    are left without socket and not connected and their sockets are closed,
    and nothing was sent.  A read, an alert and a communication test for the
    factory then report that there is no connection and leave the world as
    it is. *)
Theorem disconnect_unregisters_the_factory
    (factory_id : string) (w : world) (Hw : reachable w) :
  let r := PLCIntegrationService.disconnect_factory_plcs factory_id w in
  r.2 = Return tt /\
  (siemens_clients r.1 !! factory_id = None /\
   schneider_clients r.1 !! factory_id = None /\
   active_connections r.1 !! factory_id = None) /\
  (forall f, f <> factory_id ->
     siemens_clients r.1 !! f = siemens_clients w !! f /\
     schneider_clients r.1 !! f = schneider_clients w !! f /\
     active_connections r.1 !! f = active_connections w !! f) /\
  (forall x o, x ∈ vendor_clients w factory_id -> heap w !! x = Some o ->
     heap r.1 !! x = Some (closed o) /\
     forall s, socket_of o = Some s -> s ∉ open_sockets r.1) /\
  net r.1 = net w /\ wire r.1 = wire w /\
  (forall machine_id sensor_config alert_data,
     PLCIntegrationService.read_sensor_data_from_plc factory_id machine_id sensor_config r.1
       = (r.1, Return None) /\
     PLCIntegrationService.write_alert_to_plc factory_id alert_data r.1
       = (r.1, Return false) /\
     PLCIntegrationService.test_plc_communication factory_id r.1
       = (r.1, Return (TestResult false NotConnectedToPLC None))).
Proof.
  cbn zeta. pose proof (consistent_reachable w Hw) as Hc.
  destruct (disconnect_factory_plcs_spec factory_id w Hc)
    as (Hres & Hnet & Hwire & _ & _ & Hsi & Hmo & Ha & Hheap & Hopen).
  destruct (PLCIntegrationService.disconnect_factory_plcs factory_id w) as [w' res].
  cbn [fst snd] in *.
  split; [exact Hres|]. split.
  { rewrite Hsi, Hmo, Ha, !lookup_delete_eq. auto. }
  split.
  { intros f Hne. rewrite Hsi, Hmo, Ha, !lookup_delete_ne by congruence. auto. }
  split.
  { intros x o Hin Hx. split.
    - rewrite Hheap, bool_decide_true, Hx by exact Hin. reflexivity.
    - intros s Hso Hs. apply Hopen in Hs as [_ Hs]. exact (Hs x o Hin Hx Hso). }
  split; [exact Hnet|]. split; [exact Hwire|].
  intros machine_id sensor_config alert_data. apply not_registered_calls.
  rewrite Ha. apply lookup_delete_eq.
Qed.

(** X12: in every state that the service can reach, disconnecting one
    factory leaves the connections of the others alive: the client object
    of every other active connection is the one from before, still
    connected, and the socket that it holds is still open. *)
Theorem disconnect_keeps_other_factories
    (factory_id other : string) (conn : connection) (w : world)
    (Hw : reachable w) (Hother : other <> factory_id)
    (Hconn : active_connections w !! other = Some conn) :
  let r := PLCIntegrationService.disconnect_factory_plcs factory_id w in
  active_connections r.1 !! other = Some conn /\
  exists o s,
    heap w !! conn_client conn = Some o /\
    heap r.1 !! conn_client conn = Some o /\
    connected_on o s /\ s ∈ open_sockets w /\ s ∈ open_sockets r.1.
Proof.
  cbn zeta. pose proof (consistent_reachable w Hw) as Hc.
  destruct (disconnect_factory_plcs_spec factory_id w Hc)
    as (_ & _ & _ & _ & _ & _ & _ & Ha & Hheap & Hopen).
  destruct (PLCIntegrationService.disconnect_factory_plcs factory_id w) as [w' res].
  cbn [fst snd] in *.
  destruct Hc as [Hlive _ _ Hone Hsock].
  split; [rewrite Ha, lookup_delete_ne by congruence; exact Hconn|].
  destruct (Hlive _ _ Hconn) as (o & s & Ho & _ & Hcon & _).
  assert (Hso : socket_of o = Some s) by (apply connected_on_flags in Hcon; tauto).
  assert (Hnin : conn_client conn ∉ vendor_clients w factory_id).
  { intros Hin. apply vendor_clients_registered in Hin. apply Hother.
    apply (Hone other factory_id (conn_client conn)); [|exact Hin].
    right. right. eauto. }
  destruct (Hsock _ _ _ Ho Hso) as [Hin Huniq].
  exists o, s. split; [exact Ho|]. split.
  { rewrite Hheap, bool_decide_false by exact Hnin. exact Ho. }
  split; [exact Hcon|]. split; [exact Hin|].
  apply Hopen. split; [exact Hin|]. intros x o2 Hx Hx2 Hso2.
  apply Hnin. rewrite <- (Huniq _ _ Hx2 Hso2). exact Hx.
Qed.

(** X13: in every state that the service can reach, the registry is
    consistent: an entry of [active_connections] names a connected client of
    its type, held by the vendor dict of that type for the same factory;
    the vendor dicts hold objects of their class; no client object is held
    for two factories; and a socket that a client object holds is open and
    held by that object only. *)
Theorem registry_stays_consistent (w : world) (Hw : reachable w) : consistent w.
Proof. exact (consistent_reachable w Hw). Qed.


Lemma disconnect_unregisters_the_factory_witness :
  let factory_id := "f1" in
  let w := both_connected in
  let r := PLCIntegrationService.disconnect_factory_plcs factory_id w in
  r.2 = Return tt /\
  (siemens_clients r.1 !! factory_id = None /\
   schneider_clients r.1 !! factory_id = None /\
   active_connections r.1 !! factory_id = None) /\
  (forall f, f <> factory_id ->
     siemens_clients r.1 !! f = siemens_clients w !! f /\
     schneider_clients r.1 !! f = schneider_clients w !! f /\
     active_connections r.1 !! f = active_connections w !! f) /\
  (forall x o, x ∈ vendor_clients w factory_id -> heap w !! x = Some o ->
     heap r.1 !! x = Some (closed o) /\
     forall s, socket_of o = Some s -> s ∉ open_sockets r.1) /\
  net r.1 = net w /\ wire r.1 = wire w /\
  (forall machine_id sensor_config alert_data,
     PLCIntegrationService.read_sensor_data_from_plc factory_id machine_id sensor_config r.1
       = (r.1, Return None) /\
     PLCIntegrationService.write_alert_to_plc factory_id alert_data r.1
       = (r.1, Return false) /\
     PLCIntegrationService.test_plc_communication factory_id r.1
       = (r.1, Return (TestResult false NotConnectedToPLC None))).
Proof.
  cbn zeta.
  apply (disconnect_unregisters_the_factory "f1" both_connected).
  unfold both_connected, siemens_connected.
    apply reachable_call, reachable_call, reachable_fresh.
Defined.

Lemma disconnect_keeps_other_factories_witness :
  let conn := Connection "schneider" 1 1 in
  let r := PLCIntegrationService.disconnect_factory_plcs "f1" both_connected in
  active_connections r.1 !! "f2" = Some conn /\
  exists o s,
    heap both_connected !! conn_client conn = Some o /\
    heap r.1 !! conn_client conn = Some o /\
    connected_on o s /\ s ∈ open_sockets both_connected /\ s ∈ open_sockets r.1.
Proof.
  cbn zeta.
  apply (disconnect_keeps_other_factories "f1" "f2" (Connection "schneider" 1 1)
           both_connected).
  - unfold both_connected, siemens_connected.
    apply reachable_call, reachable_call, reachable_fresh.
  - discriminate.
  - vm_compute. reflexivity.
Defined.

Lemma registry_stays_consistent_witness : consistent both_connected.
Proof.
  apply (registry_stays_consistent both_connected).
  unfold both_connected, siemens_connected.
    apply reachable_call, reachable_call, reachable_fresh.
Defined.

(** X15: in every state that the service can reach, connecting a factory
    that is in none of the three dicts and disconnecting it again gives the
    registry and the set of open sockets from before, whether the connection
    attempt succeeded or not: no entry and no open socket is left behind. *)
Theorem connect_then_disconnect_restores
    (factory_id : string) (w : world) (Hw : reachable w)
    (Hsiemens : siemens_clients w !! factory_id = None)
    (Hschneider : schneider_clients w !! factory_id = None)
    (Hactive : active_connections w !! factory_id = None) :
  let w1 := (PLCIntegrationService.connect_to_factory_plcs factory_id w).1 in
  let w2 := (PLCIntegrationService.disconnect_factory_plcs factory_id w1).1 in
  registry w2 = registry w /\ open_sockets w2 = open_sockets w.
Proof.
  cbn zeta. pose proof (consistent_reachable w Hw) as Hc.
  pose proof (consistent_connect factory_id w Hc) as Hc1.
  destruct (factories w !! factory_id) as [factory|] eqn:Hfac;
    [destruct (vendor_of factory) as [v|] eqn:Hv|].
  2,3: rewrite connect_to_factory_plcs_skips by (intros f Hf; congruence);
       apply disconnect_unregistered; assumption.
  destruct (connect_to_factory_plcs_world factory_id factory v w Hfac Hv)
    as (_ & o' & Hclass & Hheap & Hrest).
  destruct (PLCIntegrationService.connect_to_factory_plcs factory_id w) as [w1 res1].
  cbn [fst snd] in *.
  destruct (transport_connects v (net w)).
  - destruct Hrest as (Hcon & Hopen1 & Ha1 & Hsi1 & Hmo1).
    assert (Hso : socket_of o' = Some (fresh (open_sockets w)))
      by (apply connected_on_flags in Hcon; tauto).
    pose proof (is_fresh (open_sockets w)) as Hfresh.
    destruct (disconnect_factory_plcs_spec factory_id w1 Hc1)
      as (_ & _ & _ & _ & _ & Hsi & Hmo & Ha & _ & Hopen).
    destruct (PLCIntegrationService.disconnect_factory_plcs factory_id w1) as [w2 res2].
    cbn [fst snd] in *. split.
    + unfold registry. rewrite Hsi, Hmo, Ha, Hsi1, Hmo1, Ha1.
      destruct v; rewrite ?delete_insert_eq, !delete_id by assumption; reflexivity.
    + apply set_eq. intros s. rewrite Hopen, Hopen1, elem_of_union, elem_of_singleton.
      assert (Hvc : vendor_clients w1 factory_id = [fresh (dom (heap w))]).
      { unfold vendor_clients. rewrite Hsi1, Hmo1.
        destruct v; rewrite lookup_insert_eq, ?Hsiemens, ?Hschneider; reflexivity. }
      rewrite Hvc. split.
      * intros [[->|Hs] Hall]; [|exact Hs]. exfalso.
        apply (Hall (fresh (dom (heap w))) o'); [apply list_elem_of_here| |exact Hso].
        rewrite Hheap. apply lookup_insert_eq.
      * intros Hs. split; [right; exact Hs|]. intros x o Hx Hxo.
        apply list_elem_of_singleton in Hx as ->.
        rewrite Hheap, lookup_insert_eq in Hxo. injection Hxo as <-.
        rewrite Hso. intros [= <-]. contradiction.
  - destruct Hrest as (_ & _ & Hopen1 & Hreg1).
    rewrite <- Hreg1, <- Hopen1.
    unfold registry in Hreg1. injection Hreg1 as Hsi1 Hmo1 Ha1.
    apply disconnect_unregistered; [exact Hc1|congruence..].
Qed.

Lemma connect_then_disconnect_restores_witness :
  let w := siemens_connected in
  let w1 := (PLCIntegrationService.connect_to_factory_plcs "f2" w).1 in
  let w2 := (PLCIntegrationService.disconnect_factory_plcs "f2" w1).1 in
  registry w2 = registry w /\ open_sockets w2 = open_sockets w.
Proof.
  cbn zeta.
  apply (connect_then_disconnect_restores "f2" siemens_connected).
  - unfold siemens_connected. apply reachable_call, reachable_fresh.
  - vm_compute. reflexivity.
  - vm_compute. reflexivity.
  - vm_compute. reflexivity.
Defined.

(** ** Batches of Schneider sensors, the test and the status *)

Section Registers.

Lemma slice_length_le (b : bytes) (lo hi : Z) :
  (length (slice b lo hi) <= Z.to_nat (hi - lo))%nat.
Proof. unfold slice. rewrite length_take. lia. Qed.

Lemma word_at_range (response : bytes) (i : Z) : 0 <= word_at response i < 65536.
Proof.
  unfold word_at.
  pose proof (be_int_range (slice response (9 + i * 2) (11 + i * 2))) as Hr.
  pose proof (slice_length_le response (9 + i * 2) (11 + i * 2)) as Hl.
  assert (256 ^ Z.of_nat (length (slice response (9 + i * 2) (11 + i * 2))) <= 256 ^ 2)
    by (apply Z.pow_le_mono_r; lia).
  lia.
Qed.

Lemma register_words_range (response : bytes) :
  Forall (fun v => 0 <= v < 65536) (register_words response).
Proof.
  unfold register_words. apply Forall_fmap, Forall_forall. intros i _. apply word_at_range.
Qed.

Lemma lor_shiftl_16 (hi lo : Z) :
  0 <= lo < 65536 -> Z.lor (Z.shiftl hi 16) lo = hi * 65536 + lo.
Proof.
  intros Hlo. rewrite <- Z.add_nocarry_lor.
  - rewrite Z.shiftl_mul_pow2 by lia. reflexivity.
  - apply Z.bits_inj'. intros n Hn. rewrite Z.land_spec, Z.bits_0.
    destruct (Z.lt_ge_cases n 16) as [Hlt|Hge].
    + rewrite Z.shiftl_spec_low by lia. reflexivity.
    + rewrite (Z.bits_above_log2 lo n), andb_false_r; [reflexivity|lia|].
      destruct (Z.eq_dec lo 0) as [->|Hne]; [cbn; lia|].
      apply Z.log2_lt_pow2; [lia|].
      apply Z.lt_le_trans with (2 ^ 16); [lia|].
      apply Z.pow_le_mono_r; lia.
Qed.

Lemma be_int_app (a b : bytes) :
  be_int (a ++ b) = be_int a * 256 ^ Z.of_nat (length b) + be_int b.
Proof.
  unfold be_int at 1. rewrite fold_left_app. fold (be_int a). apply be_int_from.
Qed.

Lemma take_plus {A} (n m : nat) (l : list A) :
  take (n + m) l = take n l ++ take m (drop n l).
Proof.
  revert l. induction n as [|n IH]; intros l; [reflexivity|].
  destruct l as [|x l]; cbn; [rewrite take_nil; reflexivity|].
  rewrite IH. reflexivity.
Qed.

Lemma slice_app (b : bytes) (lo mid hi : Z) :
  0 <= lo <= mid -> mid <= hi ->
  slice b lo hi = slice b lo mid ++ slice b mid hi.
Proof.
  intros Hlo Hhi. unfold slice.
  replace (Z.to_nat (hi - lo)) with (Z.to_nat (mid - lo) + Z.to_nat (hi - mid))%nat by lia.
  rewrite take_plus. f_equal. rewrite drop_drop. f_equal. f_equal. lia.
Qed.

End Registers.

Section SchneiderBatch.

Import PLCIntegrationService.

Lemma read_holding_registers_clock self address count w :
  clock (SchneiderModiconClient.read_holding_registers self address count w).1 = clock w.
Proof.
  unfold SchneiderModiconClient.read_holding_registers,
    SchneiderModiconClient.next_transaction, SchneiderModiconClient._build_modbus_request.
  run; reflexivity.
Qed.

Lemma schneider_stays self c w w' :
  heap w !! self = Some (Schneider c) -> same_shape w w' ->
  exists c', heap w' !! self = Some (Schneider c').
Proof.
  intros Hself (_ & _ & Hheap).
  destruct (lookup_shape _ _ _ _ Hheap Hself) as (o' & Ho' & Hshape).
  apply shape_fields in Hshape as (Hclass & _).
  apply class_of_schneider in Hclass as [c' ->]. eauto.
Qed.

Lemma read_holding_registers_full client c address count w :
  heap w !! client = Some (Schneider c) ->
  exists w' r c',
    SchneiderModiconClient.read_holding_registers client address count w = (w', Return r) /\
    heap w' !! client = Some (Schneider c') /\ clock w' = clock w /\
    forall values, r = Some values ->
      exists sent response rest,
        net w = Done sent :: Done response :: rest /\
        modbus_accepted response /\ values = register_words response.
Proof.
  intros Hself.
  destruct (read_holding_registers_returns client c address count w Hself) as (r & Hr & Hsound).
  pose proof (read_holding_registers_clock client address count w) as Hclock.
  pose proof (read_holding_registers_same_shape client address count w) as Hshape.
  destruct (SchneiderModiconClient.read_holding_registers client address count w) as [w' r'].
  cbn [fst snd] in *. subst r'.
  destruct (schneider_stays client c w w' Hself Hshape) as [c' Hc'].
  exists w', r, c'. auto.
Qed.

Lemma two_register_words (response : bytes) (v0 v1 : Z) :
  modbus_accepted response ->
  register_words response = [v0; v1] ->
  length (slice response 9 13) = 4%nat /\
  be_int (slice response 9 13) = Z.lor (Z.shiftl v0 16) v1 /\
  0 <= Z.lor (Z.shiftl v0 16) v1 < 2 ^ 32.
Proof.
  intros (_ & _ & Hlen) Hwords.
  pose proof (register_words_range response) as Hrange. rewrite Hwords in Hrange.
  apply Forall_cons in Hrange as [Hv0 Hrange]. apply Forall_cons in Hrange as [Hv1 _].
  unfold register_words, range in Hwords.
  assert (Hn : be_int (slice response 8 9) / 2 = 2).
  { apply (f_equal length) in Hwords. rewrite length_fmap, length_seqZ in Hwords.
    cbn in Hwords. lia. }
  rewrite Hn in Hwords, Hlen. cbn in Hwords. injection Hwords as H0 H1.
  assert (Hl1 : length (slice response 11 13) = 2%nat).
  { unfold slice. rewrite length_take, length_drop. lia. }
  split; [unfold slice; rewrite length_take, length_drop; lia|].
  rewrite lor_shiftl_16 by lia. split; [|lia].
  rewrite (slice_app response 9 11 13), be_int_app, Hl1 by lia.
  rewrite <- H0, <- H1. reflexivity.
Qed.

Lemma int_mul_Raise (v : Z) (scale_factor : option json) (e : exn) :
  int_mul v (default (JNum (PyFloat 1)) scale_factor) = Raise e ->
  e = TypeError /\
  (scale_factor = Some JNull \/ exists fields, scale_factor = Some (JObj fields)).
Proof.
  destruct scale_factor as [[| | | | |fields]|]; cbn; try discriminate.
  - intros [= <-]. auto.
  - intros [= <-]. eauto.
Qed.

Lemma schneider_item_spec client c name config sensor_data w :
  heap w !! client = Some (Schneider c) ->
  exists w' c' outcome,
    schneider_item client (name, config) sensor_data w = (w', outcome) /\
    heap w' !! client = Some (Schneider c') /\
    match outcome with
    | Return sensor_data' =>
        sensor_data' = sensor_data \/
        exists value sent response rest,
          is_Some (cfg_address config) /\
          net w = Done sent :: Done response :: rest /\
          modbus_accepted response /\
          (if String.eqb (default "holding_register" (cfg_data_type config))
                         "holding_register" then
             exists word,
               register_words response !! 0%nat = Some word /\
               int_mul word (default (JNum (PyFloat 1)) (cfg_scale_factor config))
               = Return value
           else
             default "holding_register" (cfg_data_type config) = "holding_register_float" /\
             length (register_words response) = 2%nat /\
             exists x, unpack_f (slice response 9 13) = Return x /\
                       value = JNum (PyFloat x)) /\
          sensor_data'
          = <[name := Reading value (default "" (cfg_unit config)) (clock w)]> sensor_data
    | Raise e =>
        e = TypeError /\
        is_Some (cfg_address config) /\
        default "holding_register" (cfg_data_type config) = "holding_register" /\
        scale_raises config
    end.
Proof.
  intros Hself. unfold schneider_item. cbn [fst snd].
  destruct (cfg_address config) as [address|];
    [|exists w, c, (Return sensor_data); auto].
  destruct (String.eqb (default "holding_register" (cfg_data_type config))
              "holding_register") eqn:Hreg.
  - destruct (read_holding_registers_full client c address 1 w Hself)
      as (w' & r & c' & Hread & Hheap & Hclock & Hsound).
    unfold bind at 1. rewrite Hread.
    destruct r as [[|v0 values]|]; cbn [truthy_seq];
      [exists w', c', (Return sensor_data); auto|
       |exists w', c', (Return sensor_data); auto].
    destruct (Hsound _ eq_refl) as (sent & response & rest & Hnet & Hacc & Hvalues).
    unfold_m. cbn [default from_option id lookup list_lookup].
    destruct (int_mul v0 (default (JNum (PyFloat 1)) (cfg_scale_factor config)))
      as [value|e] eqn:Hmul.
    + do 3 eexists. split; [reflexivity|]. split; [exact Hheap|].
      right. exists value, sent, response, rest.
      split; [eauto|]. split; [exact Hnet|]. split; [exact Hacc|].
      split; [|rewrite Hclock; reflexivity].
      exists v0. rewrite <- Hvalues. auto.
    + apply int_mul_Raise in Hmul as [-> Hscale].
      do 3 eexists. split; [reflexivity|]. split; [exact Hheap|].
      split; [reflexivity|]. split; [eauto|]. split; [|exact Hscale].
      apply String.eqb_eq, Hreg.
  - destruct (String.eqb (default "holding_register" (cfg_data_type config))
                "holding_register_float") eqn:Hfloat;
      [|exists w, c, (Return sensor_data); auto].
    apply String.eqb_eq in Hfloat.
    destruct (read_holding_registers_full client c address 2 w Hself)
      as (w' & r & c' & Hread & Hheap & Hclock & Hsound).
    unfold bind at 1. rewrite Hread.
    destruct r as [[|v0 [|v1 [|v2 values]]]|]; cbn [truthy_seq andb length Nat.eqb default];
      [exists w', c', (Return sensor_data); auto|exists w', c', (Return sensor_data); auto|
       |exists w', c', (Return sensor_data); auto|exists w', c', (Return sensor_data); auto].
    destruct (Hsound _ eq_refl) as (sent & response & rest & Hnet & Hacc & Hvalues).
    destruct (two_register_words response v0 v1 Hacc (eq_sym Hvalues))
      as (Hlen & Hbe & Hfit).
    destruct (pack_field_ok fmt_I (Z.lor (Z.shiftl v0 16) v1)) as [packed Hpacked];
      [exact Hfit|].
    destruct (pack_field_Return _ _ _ Hpacked) as [Hlp Hbp].
    unfold_m. cbn [lookup list_lookup from_option id].
    change ((length [v0; v1] =? 2)%nat) with true. cbv beta iota. rewrite Hpacked.
    assert (Hunpack : unpack_f packed = Return (float_of_binary32 (Z.lor (Z.shiftl v0 16) v1))).
    { unfold unpack_f. rewrite Hlp, Hbp. reflexivity. }
    assert (Hpayload : unpack_f (slice response 9 13)
                       = Return (float_of_binary32 (Z.lor (Z.shiftl v0 16) v1))).
    { unfold unpack_f. rewrite Hlen, Hbe. reflexivity. }
    rewrite Hunpack.
    cbn. do 3 eexists. split; [reflexivity|]. split; [exact Hheap|].
    right. do 4 eexists. split; [eauto|]. split; [exact Hnet|]. split; [exact Hacc|].
    split; [|rewrite Hclock; reflexivity].
    split; [exact Hfloat|]. split; [rewrite <- Hvalues; reflexivity|].
    eexists. split; [exact Hpayload|reflexivity].
Qed.

(** The loop over the configuration either runs to its end or is left by
    the [TypeError] of a product with a scale factor that is no operand. *)
Lemma schneider_loop_returns client items :
  forall c acc w,
    heap w !! client = Some (Schneider c) ->
    exists w' outcome,
      for_each items (schneider_item client) acc w = (w', outcome) /\
      match outcome with
      | Return _ => True
      | Raise e =>
          e = TypeError /\
          exists name config,
            (name, config) ∈ items /\ is_Some (cfg_address config) /\
            default "holding_register" (cfg_data_type config) = "holding_register" /\
            scale_raises config
      end.
Proof.
  induction items as [|[name config] items IH]; intros c acc w Hself.
  - exists w, (Return acc). split; reflexivity.
  - destruct (schneider_item_spec client c name config acc w Hself)
      as (w1 & c1 & [acc1|e] & Hitem & Hself1 & Hout).
    + cbn [for_each]. unfold bind. rewrite Hitem.
      destruct (IH c1 acc1 w1 Hself1) as (w' & [acc'|e] & Hloop & Hrest);
        exists w'; eexists; (split; [exact Hloop|]); [exact I|].
      destruct Hrest as (-> & n' & c' & Hin & Hrest). split; [reflexivity|].
      exists n', c'. split; [apply list_elem_of_further, Hin|exact Hrest].
    + destruct Hout as (-> & Hrest).
      exists w1, (Raise TypeError). cbn [for_each]. unfold bind. rewrite Hitem.
      split; [reflexivity|]. split; [reflexivity|].
      exists name, config. split; [apply list_elem_of_here|exact Hrest].
Qed.

(** The readings that a loop over the configuration has stored come from
    items of the configuration. *)
Lemma for_each_readings
    (body : string * sensor_cfg -> gmap string reading -> M (gmap string reading))
    (items : list (string * sensor_cfg)) :
  (forall item acc w w' acc',
     body item acc w = (w', Return acc') ->
     acc' = acc \/
     exists rd, acc' = <[item.1 := rd]> acc /\
                is_Some (cfg_address item.2) /\
                rd_unit rd = default "" (cfg_unit item.2)) ->
  forall acc w w' acc',
    for_each items body acc w = (w', Return acc') ->
    forall name rd,
      acc' !! name = Some rd ->
      acc !! name = Some rd \/
      exists config, (name, config) ∈ items /\ is_Some (cfg_address config) /\
                     rd_unit rd = default "" (cfg_unit config).
Proof.
  intros Hbody. induction items as [|item items IH]; intros acc w w' acc' Hloop name rd Hrd.
  - cbn in Hloop. injection Hloop as <- <-. auto.
  - cbn [for_each] in Hloop. unfold bind in Hloop.
    destruct (body item acc w) as [w1 [acc1|e]] eqn:Hitem; [|discriminate].
    destruct (IH acc1 w1 w' acc' Hloop name rd Hrd) as [Hold|(config & Hin & Hcfg)].
    + destruct (Hbody _ _ _ _ _ Hitem) as [->|(rd1 & -> & Haddr & Hunit)]; [auto|].
      apply lookup_insert_Some in Hold as [[<- <-]|[_ Hold]]; [|auto].
      right. exists item.2. split; [|auto]. destruct item. apply list_elem_of_here.
    + right. exists config. split; [apply list_elem_of_further, Hin|exact Hcfg].
Qed.

Lemma siemens_item_reading client item acc w w' acc' :
  siemens_item client item acc w = (w', Return acc') ->
  acc' = acc \/
  exists rd, acc' = <[item.1 := rd]> acc /\
             is_Some (cfg_address item.2) /\
             rd_unit rd = default "" (cfg_unit item.2).
Proof.
  unfold siemens_item. run; intros [= <- <-]; auto.
  all: right; eexists; split; [reflexivity|]; split; [eauto|reflexivity].
Qed.

Lemma schneider_item_reading client item acc w w' acc' :
  schneider_item client item acc w = (w', Return acc') ->
  acc' = acc \/
  exists rd, acc' = <[item.1 := rd]> acc /\
             is_Some (cfg_address item.2) /\
             rd_unit rd = default "" (cfg_unit item.2).
Proof.
  unfold schneider_item. run; intros [= <- <-]; auto.
  all: right; eexists; split; [reflexivity|]; split; [eauto|reflexivity].
Qed.

End SchneiderBatch.

(** X16: [_read_schneider_sensor_data] on a Schneider client raises
    nothing but [TypeError], and that only when the configuration has a
    sensor with an address, of type [holding_register], whose scale factor
    is null or an object.  With no such scale factor it returns, whatever
    the network does: a failed read, a missing register and a transaction
    id that no longer fits raise nothing, and two registers always combine
    to a value that [struct.pack('>I')] accepts. *)
Theorem schneider_batch_never_aborts
    (client : nat) (c : modicon_client) (sensor_config : list (string * sensor_cfg))
    (w : world)
    (Hclient : heap w !! client = Some (Schneider c)) :
  let r := PLCIntegrationService._read_schneider_sensor_data client sensor_config w in
  ((exists result, r.2 = Return result) \/
   (r.2 = Raise TypeError /\
    exists name config,
      (name, config) ∈ sensor_config /\ is_Some (cfg_address config) /\
      default "holding_register" (cfg_data_type config) = "holding_register" /\
      scale_raises config)) /\
  ((forall name config, (name, config) ∈ sensor_config -> ~ scale_raises config) ->
   exists result, r.2 = Return result).
Proof.
  cbn zeta. unfold PLCIntegrationService._read_schneider_sensor_data.
  destruct (schneider_loop_returns client sensor_config c ∅ w Hclient)
    as (w' & [acc'|e] & Hloop & Hout); unfold bind; rewrite Hloop; cbn [fst snd ret].
  - split; [left; eauto|]. eauto.
  - destruct Hout as (-> & name & config & Hin & Haddr & Htype & Hscale).
    split; [right; eauto 10|]. intros Hnone. destruct (Hnone name config Hin Hscale).
Qed.

Lemma schneider_batch_never_aborts_witness :
  let w := world_of (Schneider modicon_live) [Done []; Done one_register_230] in
  let returns (sensor_config : list (string * sensor_cfg)) :=
    exists result,
      (PLCIntegrationService._read_schneider_sensor_data 0 sensor_config w).2
      = Return result in
  returns [("oven", float_sensor); ("fan", float_sensor)] /\
  ~ returns [("oven", unscaled_sensor)] /\
  (PLCIntegrationService._read_schneider_sensor_data 0 [("oven", unscaled_sensor)] w).2
  = Raise TypeError.
Proof.
  cbn zeta. split; [|split].
  - apply (schneider_batch_never_aborts 0 modicon_live
             [("oven", float_sensor); ("fan", float_sensor)]
             (world_of (Schneider modicon_live) [Done []; Done one_register_230]));
      [reflexivity|].
    intros name config Hin [Hnull|[fields Hobj]].
    + rewrite !elem_of_cons, elem_of_nil in Hin.
      destruct Hin as [[= _ ->]|[[= _ ->]|[]]]; discriminate Hnull.
    + rewrite !elem_of_cons, elem_of_nil in Hin.
      destruct Hin as [[= _ ->]|[[= _ ->]|[]]]; discriminate Hobj.
  - intros [result H]. vm_compute in H. discriminate.
  - vm_compute. reflexivity.
Defined.

(** X17: a batch of one Schneider sensor whose scale factor is a number, or
    is not configured, never raises, and when it yields a reading, that
    reading is decoded from an answer that came over the network and was
    accepted: for a [holding_register] the first register word times the
    scale factor (1.0 when none is configured), for a
    [holding_register_float] the binary32 number in the four payload bytes
    of an answer of exactly two registers.  It carries the configured unit
    and the time of the call. *)
Theorem schneider_reading_is_decoded_from_the_payload
    (client : nat) (c : modicon_client) (name : string) (config : sensor_cfg) (w : world)
    (Hclient : heap w !! client = Some (Schneider c))
    (Hscale : numeric_scale config) :
  let r := PLCIntegrationService._read_schneider_sensor_data client [(name, config)] w in
  exists result,
    r.2 = Return result /\
    forall data,
      result = Some data ->
      exists value sent response rest,
        net w = Done sent :: Done response :: rest /\
        modbus_accepted response /\
        schneider_value config response value /\
        data = {[name := Reading value (default "" (cfg_unit config)) (clock w)]}.
Proof.
  cbn zeta. unfold PLCIntegrationService._read_schneider_sensor_data.
  destruct Hscale as [scale_factor Hscale].
  destruct (schneider_item_spec client c name config ∅ w Hclient)
    as (w' & c' & [acc'|e] & Hitem & _ & Hacc).
  2: { destruct Hacc as (_ & _ & _ & [Hnull|[fields Hobj]]);
         [rewrite Hnull in Hscale|rewrite Hobj in Hscale]; discriminate Hscale. }
  cbn [for_each]. unfold bind at 1. unfold bind at 1. rewrite Hitem. cbn.
  eexists. split; [reflexivity|]. intros data Hdata.
  destruct Hacc as [->|(value & sent & response & rest & _ & Hnet & Haccepted & Hvalue & ->)].
  - unfold truthy_dict in Hdata. rewrite map_size_empty in Hdata. discriminate.
  - destruct (truthy_dict _); [|discriminate]. injection Hdata as <-.
    exists value, sent, response, rest. rewrite insert_empty.
    split; [exact Hnet|]. split; [exact Haccepted|]. split; [|reflexivity].
    unfold schneider_value. cbn zeta.
    destruct (String.eqb (default "holding_register" (cfg_data_type config))
                "holding_register"); [|exact Hvalue].
    destruct Hvalue as (word & Hword & Hmul). exists word, scale_factor.
    split; [exact Hword|]. split; [exact Hscale|].
    rewrite Hscale in Hmul. cbn [int_mul] in Hmul. injection Hmul as <-. reflexivity.
Qed.

Lemma schneider_reading_is_decoded_from_the_payload_witness :
  let w := world_of (Schneider modicon_live) [Done []; Done two_registers_25] in
  let r := PLCIntegrationService._read_schneider_sensor_data 0 [("oven", float_sensor)] w in
  numeric_scale float_sensor /\
  exists result,
    r.2 = Return result /\
    forall data,
      result = Some data ->
      exists value sent response rest,
        net w = Done sent :: Done response :: rest /\
        modbus_accepted response /\
        schneider_value float_sensor response value /\
        data = {["oven" := Reading value (default "" (cfg_unit float_sensor)) (clock w)]}.
Proof.
  cbn zeta.
  assert (Hscale : numeric_scale float_sensor) by (eexists; reflexivity).
  split; [exact Hscale|].
  apply (schneider_reading_is_decoded_from_the_payload 0 modicon_live "oven" float_sensor
           (world_of (Schneider modicon_live) [Done []; Done two_registers_25]));
    [reflexivity|exact Hscale].
Defined.

(** X18: [read_sensor_data_from_plc] never raises, and a result that is not
    [None] is a dict that is not empty in which every reading stands under
    the name of a sensor of the configuration that has an address, with the
    unit of that sensor (the empty string when it has none). *)
Theorem readings_belong_to_the_configuration
    (factory_id machine_id : string) (sensor_config : list (string * sensor_cfg))
    (w : world) :
  let r := PLCIntegrationService.read_sensor_data_from_plc
             factory_id machine_id sensor_config w in
  exists result,
    r.2 = Return result /\
    forall data,
      result = Some data ->
      data <> ∅ /\
      forall name rd,
        data !! name = Some rd ->
        exists config,
          (name, config) ∈ sensor_config /\ is_Some (cfg_address config) /\
          rd_unit rd = default "" (cfg_unit config).
Proof.
  cbn zeta.
  destruct (read_sensor_data_from_plc_never_raises factory_id machine_id sensor_config w)
    as [result Hres].
  exists result. split; [exact Hres|]. intros data ->.
  split; [exact (read_sensor_data_from_plc_not_empty _ _ _ _ _ Hres)|].
  intros name rd Hrd.
  assert (Hloop : exists body w0 w',
            (forall item acc w1 w2 acc',
               body item acc w1 = (w2, Return acc') ->
               acc' = acc \/
               exists rd, acc' = <[item.1 := rd]> acc /\
                          is_Some (cfg_address item.2) /\
                          rd_unit rd = default "" (cfg_unit item.2)) /\
            for_each sensor_config body ∅ w0 = (w', Return data)).
  { revert Hres.
    unfold PLCIntegrationService.read_sensor_data_from_plc,
      PLCIntegrationService._read_siemens_sensor_data,
      PLCIntegrationService._read_schneider_sensor_data.
    unfold_m. proj.
    destruct (active_connections w !! factory_id) as [connection|]; [|discriminate].
    destruct (String.eqb (conn_type connection) "siemens").
    - destruct (for_each sensor_config
                  (PLCIntegrationService.siemens_item (conn_client connection)) ∅ w)
        as [w' [sd|e]] eqn:Hloop; cbn [snd]; [|discriminate].
      destruct (truthy_dict sd); [|discriminate]. intros [= <-].
      exists (PLCIntegrationService.siemens_item (conn_client connection)), w, w'.
      split; [apply siemens_item_reading|exact Hloop].
    - destruct (String.eqb (conn_type connection) "schneider"); [|discriminate].
      destruct (for_each sensor_config
                  (PLCIntegrationService.schneider_item (conn_client connection)) ∅ w)
        as [w' [sd|e]] eqn:Hloop; cbn [snd]; [|discriminate].
      destruct (truthy_dict sd); [|discriminate]. intros [= <-].
      exists (PLCIntegrationService.schneider_item (conn_client connection)), w, w'.
      split; [apply schneider_item_reading|exact Hloop]. }
  destruct Hloop as (body & w0 & w' & Hbody & Hloop).
  destruct (for_each_readings body sensor_config Hbody ∅ w0 w' data Hloop name rd Hrd)
    as [Hempty|Hconfig]; [|exact Hconfig].
  rewrite lookup_empty in Hempty. discriminate.
Qed.

(** ** The status report and the communication test *)

Section Status.

Import PLCIntegrationService.

Lemma status_loop (l : list (string * connection)) :
  NoDup l.*1 ->
  forall (acc : gmap string status_entry) (w : world),
  exists status,
    for_each l
      (fun item status =>
         let* now := utcnow in
         ret (<[item.1 := StatusEntry (conn_type item.2) true
                             (conn_connected_at item.2) now]> status))
      acc w
    = (set_clock (fun t => (t + length l)%nat) w, Return status) /\
    (forall f, f ∉ l.*1 -> status !! f = acc !! f) /\
    (forall f conn, (f, conn) ∈ l ->
       exists t, status !! f = Some (StatusEntry (conn_type conn) true
                                       (conn_connected_at conn) t) /\
                 (clock w <= t < clock w + length l)%nat).
Proof.
  induction l as [|[f0 c0] l IH]; intros Hnodup acc w.
  - exists acc. split.
    + cbn. unfold ret, set_clock. destruct w; cbn. rewrite Nat.add_0_r. reflexivity.
    + split; [auto|]. intros f conn Hin. apply elem_of_nil in Hin. contradiction.
  - cbn [fmap list_fmap fst] in Hnodup. apply NoDup_cons in Hnodup as [Hf0 Hnodup].
    cbn [for_each]. unfold_m. cbn [fst snd clock].
    match goal with
    | |- context [for_each l ?body ?acc1 ?w1] =>
        destruct (IH Hnodup acc1 w1) as (status & Hloop & Hout & Hin)
    end.
    unfold_m. rewrite Hloop. exists status. split; [|split].
    + unfold set_clock. cbn. do 2 f_equal. lia.
    + intros f Hf. cbn [fmap list_fmap fst] in Hf. apply not_elem_of_cons in Hf as [Hne Hf].
      rewrite (Hout f Hf), lookup_insert_ne by congruence. reflexivity.
    + intros f conn Hfc. apply elem_of_cons in Hfc as [[= -> ->]|Hfc].
      * exists (clock w). rewrite (Hout f0 Hf0), lookup_insert_eq.
        split; [reflexivity|]. cbn [length]. lia.
      * destruct (Hin f conn Hfc) as (t & Ht & Hrange). exists t. split; [exact Ht|].
        cbn [clock length] in *. lia.
Qed.

End Status.

(** X19: in every state that the service can reach,
    [get_connection_status] returns one entry for every active connection
    and no other, with the type and the connection time of that connection
    and a time of last communication that is the time of the call, not of
    any exchange.  Nothing but the clock changes.  The entry says
    [connected], which is what the client object of the connection says
    too. *)
Theorem status_lists_the_active_connections (w : world) (Hw : reachable w) :
  let r := PLCIntegrationService.get_connection_status w in
  let n := size (active_connections w) in
  exists status,
    r.2 = Return status /\
    r.1 = set_clock (fun t => (t + n)%nat) w /\
    (forall f, status !! f = None <-> active_connections w !! f = None) /\
    forall f entry,
      status !! f = Some entry ->
      exists conn o,
        active_connections w !! f = Some conn /\
        st_type entry = conn_type conn /\
        st_connected_at entry = conn_connected_at conn /\
        (clock w <= st_last_communication entry < clock w + n)%nat /\
        st_connected entry = true /\
        heap w !! conn_client conn = Some o /\ is_connected o = true.
Proof.
  cbn zeta. pose proof (consistent_reachable w Hw) as [Hlive _ _ _ _].
  destruct (status_loop (map_to_list (active_connections w))
              (NoDup_fst_map_to_list _) ∅ w) as (status & Hloop & Hout & Hin).
  rewrite length_map_to_list in Hloop, Hin.
  assert (Hcall : PLCIntegrationService.get_connection_status w
                  = (set_clock (fun t => (t + size (active_connections w))%nat) w,
                     Return status)) by exact Hloop.
  rewrite Hcall. cbn [fst snd]. exists status.
  split; [reflexivity|]. split; [reflexivity|].
  assert (Hnone : forall f, active_connections w !! f = None -> status !! f = None).
  { intros f Hf. rewrite Hout, lookup_empty; [reflexivity|].
    intros Hmem. apply list_elem_of_fmap in Hmem as ([f' conn] & -> & Hmem).
    apply elem_of_map_to_list in Hmem. cbn in Hf. congruence. }
  assert (Hsome : forall f conn, active_connections w !! f = Some conn ->
            exists t, status !! f = Some (StatusEntry (conn_type conn) true
                                            (conn_connected_at conn) t) /\
                      (clock w <= t < clock w + size (active_connections w))%nat).
  { intros f conn Hf. apply Hin, elem_of_map_to_list, Hf. }
  split.
  - intros f. split; [|apply Hnone].
    intros Hf. destruct (active_connections w !! f) as [conn|] eqn:Hconn; [|reflexivity].
    destruct (Hsome f conn Hconn) as (t & Ht & _). congruence.
  - intros f entry Hentry.
    destruct (active_connections w !! f) as [conn|] eqn:Hconn.
    + destruct (Hsome f conn Hconn) as (t & Ht & Hrange).
      rewrite Ht in Hentry. injection Hentry as <-.
      destruct (Hlive f conn Hconn) as (o & s & Ho & _ & Hcon & _).
      apply connected_on_flags in Hcon as [Hflag _].
      exists conn, o. cbn. auto 10.
    + rewrite (Hnone f Hconn) in Hentry. discriminate.
Qed.

Lemma status_lists_the_active_connections_witness :
  let w := both_connected in
  let r := PLCIntegrationService.get_connection_status w in
  let n := size (active_connections w) in
  exists status,
    r.2 = Return status /\
    r.1 = set_clock (fun t => (t + n)%nat) w /\
    (forall f, status !! f = None <-> active_connections w !! f = None) /\
    forall f entry,
      status !! f = Some entry ->
      exists conn o,
        active_connections w !! f = Some conn /\
        st_type entry = conn_type conn /\
        st_connected_at entry = conn_connected_at conn /\
        (clock w <= st_last_communication entry < clock w + n)%nat /\
        st_connected entry = true /\
        heap w !! conn_client conn = Some o /\ is_connected o = true.
Proof.
  cbn zeta.
  apply (status_lists_the_active_connections both_connected).
  unfold both_connected, siemens_connected.
  apply reachable_call, reachable_call, reachable_fresh.
Defined.

(** X20: in every state that the service can reach,
    [test_plc_communication] returns a result.  For a factory without
    active connection it says so and touches nothing.  Otherwise it reads
    the clock once, after the read, and reports success exactly with the
    message of success, and only when an exchange went through and the
    answer was accepted (an S7 answer of any payload, also an empty one);
    the [except] branch, whose message carries the exception, is never
    taken. *)
Theorem communication_test_reports_the_exchange
    (factory_id : string) (w : world) (Hw : reachable w) :
  let r := PLCIntegrationService.test_plc_communication factory_id w in
  exists t,
    r.2 = Return t /\
    match active_connections w !! factory_id with
    | None => r.1 = w /\ t = TestResult false NotConnectedToPLC None
    | Some conn =>
        tr_timestamp t = Some (clock w) /\ clock r.1 = S (clock w) /\
        ((tr_success t = false /\ tr_message t = TestFailed) \/
         (tr_success t = true /\ tr_message t = TestSuccessful /\
          exists sent response rest,
            net w = Done sent :: Done response :: rest /\
            ((conn_type conn = "siemens" /\ exists data, s7_accepted response data) \/
             (conn_type conn = "schneider" /\ modbus_accepted response))))
    end.
Proof.
  cbn zeta. pose proof (consistent_reachable w Hw) as [Hlive _ _ _ _].
  unfold PLCIntegrationService.test_plc_communication. unfold_m. proj.
  destruct (active_connections w !! factory_id) as [conn|] eqn:Hconn; [|eauto].
  destruct (Hlive _ _ Hconn) as (o & s & Ho & Hclass & _).
  rewrite <- Hclass. destruct o as [c|c]; cbn [class_of String.eqb Ascii.eqb Bool.eqb].
  - destruct (read_db_returns (conn_client conn) c 1 0 4 w Ho) as (r0 & Hr0 & Hsound).
    destruct (read_db_only_io (conn_client conn) 1 0 4 w) as (_ & _ & Hclock & _).
    destruct (SiemensS7Client.read_db (conn_client conn) 1 0 4 w) as [w' r'].
    cbn [fst snd] in *. subst r'. proj. rewrite Hclock.
    destruct r0 as [data|]; cbn.
    + eexists. split; [reflexivity|]. cbn. split; [reflexivity|]. split; [reflexivity|].
      right. split; [reflexivity|]. split; [reflexivity|].
      destruct (Hsound data eq_refl) as (sent & response & rest & Hnet & Hacc).
      exists sent, response, rest. split; [exact Hnet|]. left. eauto.
    + eexists. split; [reflexivity|]. cbn. auto.
  - destruct (read_holding_registers_full (conn_client conn) c 0 1 w Ho)
      as (w' & r0 & c' & Hread & _ & Hclock & Hsound).
    rewrite Hread. proj. rewrite Hclock.
    destruct r0 as [values|]; cbn.
    + eexists. split; [reflexivity|]. cbn. split; [reflexivity|]. split; [reflexivity|].
      right. split; [reflexivity|]. split; [reflexivity|].
      destruct (Hsound values eq_refl) as (sent & response & rest & Hnet & Hacc & _).
      exists sent, response, rest. split; [exact Hnet|]. right. eauto.
    + eexists. split; [reflexivity|]. cbn. auto.
Qed.

Lemma communication_test_reports_the_exchange_witness :
  let w := both_connected in
  let r := PLCIntegrationService.test_plc_communication "f1" w in
  exists t,
    r.2 = Return t /\
    match active_connections w !! "f1" with
    | None => r.1 = w /\ t = TestResult false NotConnectedToPLC None
    | Some conn =>
        tr_timestamp t = Some (clock w) /\ clock r.1 = S (clock w) /\
        ((tr_success t = false /\ tr_message t = TestFailed) \/
         (tr_success t = true /\ tr_message t = TestSuccessful /\
          exists sent response rest,
            net w = Done sent :: Done response :: rest /\
            ((conn_type conn = "siemens" /\ exists data, s7_accepted response data) \/
             (conn_type conn = "schneider" /\ modbus_accepted response))))
    end.
Proof.
  cbn zeta.
  apply (communication_test_reports_the_exchange "f1" both_connected).
  unfold both_connected, siemens_connected.
  apply reachable_call, reachable_call, reachable_fresh.
Defined.

Section Rounding.

Variables prec emax : Z.





Lemma shift_value (p k : positive) : Z.pos (Pos.iter xO p k) = Z.pos p * 2 ^ Z.pos k.
Proof.
  induction k as [|k IH] using Pos.peano_ind.
  - cbn. lia.
  - rewrite Pos.iter_succ, Pos2Z.inj_xO, IH, Pos2Z.inj_succ, Z.pow_succ_r by lia. lia.
Qed.




(** A mantissa that already has the digits of the format stays. *)
Lemma binary_round_keeps (sx : bool) (p : positive) (e : Z) :
  Z.pos (digits2_pos p) = prec ->
  SpecFloat.emin prec emax <= e -> e <= emax - prec ->
  binary_round prec emax sx p e = S754_finite sx p e.
Proof.
  intros Hd Hmin Hmax. unfold binary_round, shl_align.
  assert (Hfexp : fexp prec emax (Z.pos (digits2_pos p) + e) = e).
  { unfold fexp. lia. }
  rewrite Hfexp, Z.sub_diag.
  unfold binary_round_aux, shr_fexp. cbn [Zdigits2 shr_record_of_loc].
  rewrite Hfexp, Z.sub_diag. cbn [shr shr_m loc_of_shr_record round_nearest_even
                                    Zdigits2 shr_record_of_loc].
  rewrite Hfexp, Z.sub_diag. cbn [shr shr_m].
  replace (e <=? emax - prec) with true by (symmetry; apply Z.leb_le; lia).
  reflexivity.
Qed.


End Rounding.

Section Binary32.





End Binary32.

Section Codec.


















End Codec.



